(** * kaido web wizard: a shallow embedding of the TypeScript front end

    The development follows the sources under [web/src]:
    - [lib/template-icons.tsx]  slug normalisation ([toShortTemplateSlug], ...)
    - [lib/wasm.ts]             catalogue, loader and the fallback generator
    - [components/CustomConfig.tsx]  feature selection ([toggleFeature])
    - [components/ConfigPanel.tsx]   identifier sanitising of the text inputs
    - [components/FileTree.tsx]      [buildTree] and [collectFolderPaths]
    - [pages/Wizard.tsx]        serialisers of the custom DSL and [regenerate]

    JavaScript strings are modelled as [string], read as sequences of code
    units of the Latin-1 range; objects used as records become Rocq records,
    [Record<string, unknown>] becomes a [gmap string JsValue], object literals
    used as lookup tables keep their prototype, arrays become lists. *)

From Stdlib Require Import Ascii String List Bool Arith Lia Permutation.
From stdpp Require Import base option list gmap strings.

Local Open Scope string_scope.
Local Open Scope list_scope.
Local Open Scope nat_scope.

Set Warnings "-register-all".

(** ** JavaScript string primitives *)

Module Js.

(** [String.prototype.toLowerCase] on one code unit of the Latin-1 range:
    [A]..[Z] and the accented capitals U+00C0..U+00DE (the multiplication sign
    U+00D7 apart) move down by 32, everything else stays. *)
Definition lower_ascii (c : ascii) : ascii :=
  let n := nat_of_ascii c in
  if ((65 <=? n) && (n <=? 90))
     || ((192 <=? n) && (n <=? 222) && negb (n =? 215))
  then ascii_of_nat (n + 32) else c.

Fixpoint map_string (f : ascii -> ascii) (s : string) : string :=
  match s with
  | EmptyString => EmptyString
  | String c r => String (f c) (map_string f r)
  end.

Definition toLowerCase (s : string) : string := map_string lower_ascii s.

(** [s.replace(/-/g, '_')] *)
Definition dash_to_underscore (c : ascii) : ascii :=
  if Ascii.eqb c "-" then "_"%char else c.

Definition replace_dashes (s : string) : string := map_string dash_to_underscore s.

(** [s.replace(/[^a-z0-9_]/g, '')]: the character class of identifiers. *)
Definition ident_char (c : ascii) : bool :=
  let n := nat_of_ascii c in
  ((97 <=? n) && (n <=? 122)) || ((48 <=? n) && (n <=? 57)) || (n =? 95).

Fixpoint filter_string (p : ascii -> bool) (s : string) : string :=
  match s with
  | EmptyString => EmptyString
  | String c r => if p c then String c (filter_string p r) else filter_string p r
  end.

Fixpoint forallb_string (p : ascii -> bool) (s : string) : bool :=
  match s with
  | EmptyString => true
  | String c r => p c && forallb_string p r
  end.

Definition strip_non_ident (s : string) : string := filter_string ident_char s.

(** White space and line terminators recognised by [trim], restricted to the
    code units below 256: TAB, LF, VT, FF, CR, SP and NBSP. *)
Definition white_space (c : ascii) : bool :=
  let n := nat_of_ascii c in
  ((9 <=? n) && (n <=? 13)) || (n =? 32) || (n =? 160).

Fixpoint trimStart (s : string) : string :=
  match s with
  | EmptyString => EmptyString
  | String c r => if white_space c then trimStart r else s
  end.

(** [trimEnd]: a white-space unit is dropped when everything after it is. *)
Fixpoint trimEnd (s : string) : string :=
  match s with
  | EmptyString => EmptyString
  | String c r =>
      match trimEnd r with
      | EmptyString => if white_space c then EmptyString else String c EmptyString
      | t => String c t
      end
  end.

Definition trim (s : string) : string := trimEnd (trimStart s).

(** [s.split('/')]: always at least one segment; empty segments are kept. *)
Fixpoint split_on (sep : ascii) (s : string) : list string :=
  match s with
  | EmptyString => [EmptyString]
  | String c r =>
      if Ascii.eqb c sep then EmptyString :: split_on sep r
      else match split_on sep r with
           | [] => [String c EmptyString]
           | seg :: segs => String c seg :: segs
           end
  end.

(** [parts.join(sep)] *)
Fixpoint join (sep : string) (parts : list string) : string :=
  match parts with
  | [] => EmptyString
  | [p] => p
  | p :: rest => p +:+ sep +:+ join sep rest
  end.

(** [s.startsWith(p)] *)
Fixpoint startsWith (p s : string) : bool :=
  match p, s with
  | EmptyString, _ => true
  | String a p', String b s' => Ascii.eqb a b && startsWith p' s'
  | String _ _, EmptyString => false
  end.

End Js.

(** ** JavaScript values

    The values that flow through the wizard: primitives, and the members of
    [Object.prototype] that a property read on an object literal can reach.
    [JProto k] is the (non-string) value of [Object.prototype[k]]. *)

Inductive JsValue : Type :=
  | JUndefined
  | JNull
  | JBool (b : bool)
  | JString (s : string)
  | JProto (key : string).

#[global] Instance JsValue_eq_dec : EqDecision JsValue.
Proof. solve_decision. Defined.

(** Strict equality [===]; on these values it is structural. *)
Definition strict_eq (a b : JsValue) : bool := bool_decide (a = b).

(** Truthiness, as tested by [if (v)], [v ? a : b] and [!v]. *)
Definition truthy (v : JsValue) : bool :=
  match v with
  | JUndefined | JNull => false
  | JBool b => b
  | JString s => negb (String.eqb s "")
  | JProto _ => true
  end.

(** [v ?? d] *)
Definition nullish_or (v d : JsValue) : JsValue :=
  match v with
  | JUndefined | JNull => d
  | _ => v
  end.

(** [String(v)] *)
Definition js_String (v : JsValue) : string :=
  match v with
  | JUndefined => "undefined"
  | JNull => "null"
  | JBool true => "true"
  | JBool false => "false"
  | JString s => s
  | JProto k =>
      if String.eqb k "__proto__" then "[object Object]"
      else if String.eqb k "constructor" then "function Object() { [native code] }"
      else "function " +:+ k +:+ "() { [native code] }"
  end.

(** Own property names of [Object.prototype]: every object literal inherits
    them, so a read [obj[k]] with one of these keys is never [undefined]. *)
Definition Object_prototype_keys : list string :=
  [ "constructor"; "__defineGetter__"; "__defineSetter__"; "hasOwnProperty";
    "__lookupGetter__"; "__lookupSetter__"; "isPrototypeOf";
    "propertyIsEnumerable"; "toString"; "valueOf"; "__proto__";
    "toLocaleString" ].

(** [obj[key]] for an object literal whose own properties are the string
    entries [own] (no key is repeated in the tables below): own properties
    first, then the prototype. *)
Fixpoint assoc (key : string) (own : list (string * string)) : option string :=
  match own with
  | [] => None
  | (k, v) :: rest => if String.eqb k key then Some v else assoc key rest
  end.

Definition object_get (own : list (string * string)) (key : string) : JsValue :=
  match assoc key own with
  | Some v => JString v
  | None =>
      if existsb (String.eqb key) Object_prototype_keys then JProto key
      else JUndefined
  end.

(** Outcome of a call that may throw. *)
Inductive Outcome (A : Type) : Type :=
  | Ok (a : A)
  | Throw (message : string).
Arguments Ok {A} a.
Arguments Throw {A} message.

(** ** lib/template-icons.tsx *)

Module TemplateIcons.

Definition SLUG_ALIASES : list (string * string) :=
  [ ("simple_mint", "mint");
    ("multisig_treasury", "treasury");
    ("nft_marketplace", "marketplace");
    ("staking_pool", "staking");
    ("oracle_settlement", "oracle");
    ("referral_system", "referral");
    ("dex_pool", "dex");
    ("lending_pool", "lending");
    ("dao_governance", "governance");
    ("streaming_payments", "streaming") ].

(** [Object.fromEntries(Object.entries(SLUG_ALIASES).map(([l, s]) => [s, l]))] *)
Definition REVERSE_SLUG_ALIASES : list (string * string) :=
  map (fun '(longSlug, shortSlug) => (shortSlug, longSlug)) SLUG_ALIASES.

Definition normalizeSlug (slug : string) : string :=
  Js.replace_dashes (Js.toLowerCase slug).

Definition toShortTemplateSlug (slug : string) : JsValue :=
  let normalized := normalizeSlug slug in
  nullish_or (object_get SLUG_ALIASES normalized) (JString normalized).

(** A property key is converted with [String(key)] before the read. *)
Definition toLongTemplateSlug (slug : string) : JsValue :=
  let short := toShortTemplateSlug slug in
  nullish_or (object_get REVERSE_SLUG_ALIASES (js_String short)) short.

(** The same functions applied to an arbitrary run-time value: [slug.toLowerCase]
    exists on strings only, any other receiver raises a [TypeError]. The
    property read itself fails on [undefined] and [null]; on a boolean or an
    inherited member the read gives [undefined], and the call fails. *)
Definition toShortTemplateSlug_value (slug : JsValue) : Outcome JsValue :=
  match slug with
  | JString s => Ok (toShortTemplateSlug s)
  | JUndefined =>
      Throw "TypeError: Cannot read properties of undefined (reading 'toLowerCase')"
  | JNull =>
      Throw "TypeError: Cannot read properties of null (reading 'toLowerCase')"
  | _ => Throw "TypeError: slug.toLowerCase is not a function"
  end.

End TemplateIcons.

(** ** lib/wasm.ts *)

Module Wasm.

Record GeneratedFile : Type := mkFile { path : string; content : string }.

Record TemplateInfo : Type := mkTemplate {
  slug : string;
  description : string;
  options : option (list string);
  supports_sdk : option bool
}.

Record FeatureInfo : Type := mkFeature {
  name : string;
  feature_description : string;
  purpose : option string;
  depends_on : list string
}.

Record ValidationResult : Type := mkValidation { valid : bool; errors : list string }.

Definition SDK_SUPPORTED_SLUGS : list string :=
  [ "mint"; "simple_mint"; "vesting"; "escrow"; "treasury"; "multisig_treasury";
    "marketplace"; "nft_marketplace"; "staking"; "staking_pool"; "oracle";
    "oracle_settlement"; "referral"; "referral_system" ].

(** [Set.prototype.has] *)
Definition set_has (s : list string) (x : string) : bool := existsb (String.eqb x) s.

Definition inferSdkSupport (slug : string) : bool :=
  set_has SDK_SUPPORTED_SLUGS (Js.replace_dashes (Js.toLowerCase slug)).

Definition normalizeTemplateInfo (template : TemplateInfo) : TemplateInfo :=
  {| slug := slug template;
     description := description template;
     options := options template;
     supports_sdk :=
       Some (match supports_sdk template with
             | Some b => b
             | None => inferSdkSupport (slug template)
             end) |}.

Definition FALLBACK_TEMPLATES : list TemplateInfo :=
  [ mkTemplate "mint" "CIP-25 minting policy with admin signature and optional time-lock" None (Some true);
    mkTemplate "vesting" "Time-locked fund release with beneficiary claim and optional cancel" None (Some true);
    mkTemplate "escrow" "Two-party escrow with deadline, completion, and mutual cancellation" None (Some true);
    mkTemplate "treasury" "N-of-M multisig treasury with deposit, withdraw, datum continuity, and 2 ADA floor" None (Some true);
    mkTemplate "marketplace" "NFT marketplace with list, buy, and delist actions" None (Some true);
    mkTemplate "staking" "Staking pool with deposit, withdraw, and admin rewards" None (Some true);
    mkTemplate "oracle" "Oracle-gated settlement with deadline and buyer reclaim" None (Some true);
    mkTemplate "referral" "On-chain referral system with mint, treasury, and anti-sybil protection" None (Some true);
    mkTemplate "dex" "DEX/AMM pool with constant-product swaps, liquidity, and fee management" None (Some false);
    mkTemplate "lending" "Lending pool with supply, borrow, repay, and collateral ratio enforcement" None (Some false);
    mkTemplate "governance" "DAO governance with token-gated treasury and proposal execution" None (Some false);
    mkTemplate "streaming" "Streaming payments with time-based tranches and cancel/top-up" None (Some false);
    mkTemplate "custom" "Custom validator with composable features (sig, timelock, datum-continuity, ...)" None (Some false) ].

Definition FALLBACK_FEATURES : list FeatureInfo :=
  [ mkFeature "signature-auth" "Require a specific signer in extra_signatories" None [];
    mkFeature "timelock" "Enforce validity_range before/after a deadline field" (Some "spend") [];
    mkFeature "datum-continuity" "Find continuing output and validate datum preservation" (Some "spend") [];
    mkFeature "value-preservation" "Verify lovelace math (input >= output)" (Some "spend") ["datum-continuity"];
    mkFeature "reference-safety" "Reject reference script injection on continuing output" (Some "spend") ["datum-continuity"];
    mkFeature "burn-verification" "Check all minted quantities are negative (mint-only)" (Some "mint") [];
    mkFeature "bounded-operations" "Enforce minimum lovelace floor on continuing output" (Some "spend") ["datum-continuity"] ].

Definition listTemplatesFallback : list TemplateInfo :=
  map normalizeTemplateInfo FALLBACK_TEMPLATES.

Definition listFeaturesFallback : list FeatureInfo := FALLBACK_FEATURES.

(** *** The fallback generator *)

Definition nl : string := String (ascii_of_nat 10) EmptyString.
Definition dq : string := String (ascii_of_nat 34) EmptyString.

(** The text whose lines are [ls], every line terminated by a line feed. *)
Fixpoint unlines (ls : list string) : string :=
  match ls with
  | [] => EmptyString
  | l :: rest => l +:+ nl +:+ unlines rest
  end.

(** [options.key] on the options object; none of the keys read below is a
    name the object inherits, so an absent key reads as [undefined]. *)
Definition prop (options : gmap string JsValue) (key : string) : JsValue :=
  default JUndefined (options !! key).

Definition generateTypesFile (template : string) (options : gmap string JsValue) : string :=
  if String.eqb template "mint" then
    if truthy (prop options "time_lock") then
      unlines
        [ "pub type MintDatum {";
          "  admin: ByteArray,";
          "  deadline: Int,";
          "}";
          "";
          "pub type MintRedeemer {";
          "  Mint";
          "  Burn";
          "}" ]
    else
      unlines
        [ "pub type MintRedeemer {";
          "  Mint";
          "  Burn";
          "}" ]
  else if String.eqb template "vesting" then
    unlines
      [ "pub type VestingDatum {";
        "  owner: ByteArray,";
        "  beneficiary: ByteArray,";
        "  deadline: Int,";
        "  amount: Int,";
        "}";
        "";
        "pub type VestingRedeemer {";
        "  Claim" ]
    +:+ (if truthy (prop options "cancellable") then "  Cancel" +:+ nl else "")
    +:+ "}" +:+ nl
  else if String.eqb template "escrow" then
    unlines
      [ "pub type EscrowDatum {";
        "  buyer: ByteArray,";
        "  seller: ByteArray,";
        "  amount: Int,";
        "  deadline: Int,";
        "}";
        "";
        "pub type EscrowRedeemer {";
        "  Complete";
        "  Cancel";
        "  Reclaim";
        "}" ]
  else
    unlines
      [ "pub type Datum {";
        "  admin: ByteArray,";
        "}";
        "";
        "pub type Redeemer {";
        "  Execute";
        "}" ].

Definition generateValidatorFile (template ns name : string) : string :=
  let modPath := ns +:+ "/" +:+ name +:+ "/types" in
  if String.eqb template "mint" then
    unlines
      [ "use cardano/transaction.{Transaction}";
        "use " +:+ modPath +:+ ".{MintRedeemer}";
        "";
        "validator " +:+ name +:+ "(admin: ByteArray) {";
        "  mint(redeemer: MintRedeemer, _policy_id: ByteArray, self: Transaction) {";
        "    when redeemer is {";
        "      MintRedeemer.Mint -> {";
        "        let must_be_signed = list.has(self.extra_signatories, admin)";
        "        must_be_signed";
        "      }";
        "      MintRedeemer.Burn -> True";
        "    }";
        "  }";
        "";
        "  else(_) {";
        "    fail";
        "  }";
        "}" ]
  else if String.eqb template "vesting" then
    unlines
      [ "use cardano/transaction.{Transaction}";
        "use " +:+ modPath +:+ ".{VestingDatum, VestingRedeemer}";
        "";
        "validator " +:+ name +:+ " {";
        "  spend(datum_opt: Option<VestingDatum>, redeemer: VestingRedeemer, _input: Data, self: Transaction) {";
        "    expect Some(datum) = datum_opt";
        "    when redeemer is {";
        "      VestingRedeemer.Claim -> {";
        "        let signed_by_beneficiary = list.has(self.extra_signatories, datum.beneficiary)";
        "        let after_deadline = when self.validity_range.lower_bound.bound_type is {";
        "          Finite(lower) -> lower >= datum.deadline";
        "          _ -> False";
        "        }";
        "        signed_by_beneficiary && after_deadline";
        "      }";
        "    }";
        "  }";
        "";
        "  else(_) {";
        "    fail";
        "  }";
        "}" ]
  else
    unlines
      [ "use cardano/transaction.{Transaction}";
        "use " +:+ modPath +:+ ".{Datum, Redeemer}";
        "";
        "validator " +:+ name +:+ " {";
        "  spend(datum_opt: Option<Datum>, redeemer: Redeemer, _input: Data, self: Transaction) {";
        "    expect Some(datum) = datum_opt";
        "    when redeemer is {";
        "      Redeemer.Execute -> {";
        "        list.has(self.extra_signatories, datum.admin)";
        "      }";
        "    }";
        "  }";
        "";
        "  else(_) {";
        "    fail";
        "  }";
        "}" ].

Definition generateFallback (options : gmap string JsValue) : list GeneratedFile :=
  let ns := js_String (nullish_or (prop options "namespace") (JString "myorg")) in
  let name := js_String (nullish_or (prop options "project_name") (JString "my_contract")) in
  let template := js_String (nullish_or (prop options "template") (JString "mint")) in
  let aikenToml :=
    unlines
      [ "name = " +:+ dq +:+ ns +:+ "/" +:+ name +:+ dq;
        "version = " +:+ dq +:+ "0.0.1" +:+ dq;
        "compiler = " +:+ dq +:+ "v1.1.21" +:+ dq;
        "plutus = " +:+ dq +:+ "v3" +:+ dq;
        "license = " +:+ dq +:+ "Apache-2.0" +:+ dq;
        "";
        "[repository]";
        "user = " +:+ dq +:+ ns +:+ dq;
        "project = " +:+ dq +:+ name +:+ dq;
        "platform = " +:+ dq +:+ "github" +:+ dq;
        "";
        "[[dependencies]]";
        "name = " +:+ dq +:+ "aiken-lang/stdlib" +:+ dq;
        "version = " +:+ dq +:+ "v3.0.0" +:+ dq;
        "source = " +:+ dq +:+ "github" +:+ dq ] in
  let typesAk := generateTypesFile template options in
  let validatorAk := generateValidatorFile template ns name in
  [ mkFile "aiken.toml" aikenToml;
    mkFile ("lib/" +:+ ns +:+ "/" +:+ name +:+ "/types.ak") typesAk;
    mkFile ("validators/" +:+ name +:+ ".ak") validatorAk ].

(** *** The loader and the public entry points

    The compiled core ([../wasm/kaido_core]) is not part of the front end; it
    is a record of its exports, each a function of the JSON text it is given.
    [JSON.stringify] and [JSON.parse] are parameters of the section. *)

Record KaidoCore : Type := mkCore {
  core_generate : string -> Outcome string;
  core_generate_sdk : string -> Outcome string;
  core_validate_custom : string -> Outcome string
}.

(** Module-level state of [wasm.ts]: [wasm], [loading] (whether the promise
    has been created) and [wasmFailed]. *)
Record Loader : Type := mkLoader {
  wasm : option KaidoCore;
  loading : bool;
  wasmFailed : bool
}.

(** What the surroundings decide: the build mode [import.meta.env.DEV] and
    whether the dynamic import and initialisation of the core succeed. *)
Record Env : Type := mkEnv {
  DEV : bool;
  import_core : option KaidoCore
}.

Definition initial_loader : Loader := mkLoader None false false.

Definition loadWasm (env : Env) (st : Loader) : Loader :=
  match wasm st with
  | Some _ => st
  | None =>
      if wasmFailed st then st
      else if loading st then st
      else match import_core env with
           | Some mod_ => mkLoader (Some mod_) true (wasmFailed st)
           | None => mkLoader None true true
           end
  end.

Definition bind {A B : Type} (m : Outcome A) (k : A -> Outcome B) : Outcome B :=
  match m with
  | Ok a => k a
  | Throw e => Throw e
  end.

Section EntryPoints.

Variable JSON_stringify : gmap string JsValue -> string.
Variable JSON_parse_files : string -> Outcome (list GeneratedFile).
Variable JSON_parse_validation : string -> Outcome ValidationResult.

Definition generate (env : Env) (st : Loader) (options : gmap string JsValue)
  : Outcome (list GeneratedFile) * Loader :=
  let st' := loadWasm env st in
  match wasm st' with
  | None =>
      if DEV env then (Ok (generateFallback options), st')
      else (Throw "WASM generation unavailable. Build web with `npm run build:full`.", st')
  | Some core =>
      (bind (core_generate core (JSON_stringify options)) JSON_parse_files, st')
  end.

Definition generateSdk (env : Env) (st : Loader) (options : gmap string JsValue)
  : Outcome (list GeneratedFile) * Loader :=
  let st' := loadWasm env st in
  match wasm st' with
  | None =>
      if DEV env then (Ok [], st')
      else (Throw "WASM SDK generation unavailable. Build web with `npm run build:full`.", st')
  | Some core =>
      (bind (core_generate_sdk core (JSON_stringify options)) JSON_parse_files, st')
  end.

Definition validateCustom (env : Env) (st : Loader) (options : gmap string JsValue)
  : Outcome ValidationResult * Loader :=
  let st' := loadWasm env st in
  match wasm st' with
  | None =>
      if DEV env then
        (Ok (mkValidation false ["WASM validator unavailable in dev fallback mode."]), st')
      else (Throw "WASM validation unavailable. Build web with `npm run build:full`.", st')
  | Some core =>
      (bind (core_validate_custom core (JSON_stringify options)) JSON_parse_validation, st')
  end.

End EntryPoints.

(** The option keys read by the fallback generator. *)
Definition fallback_keys : list string :=
  [ "namespace"; "project_name"; "template"; "time_lock"; "cancellable" ].

Definition agree_on (keys : list string) (o1 o2 : gmap string JsValue) : Prop :=
  Forall (fun k => o1 !! k = o2 !! k) keys.

(** A relative, forward-slash separated path: no leading slash, no backslash,
    and no segment that is empty or [..]. *)
Definition safe_relative_path (p : string) : bool :=
  negb (Js.startsWith "/" p)
  && Js.forallb_string (fun c => negb (Ascii.eqb c "\")) p
  && forallb (fun seg => negb (String.eqb seg "..") && negb (String.eqb seg ""))
       (Js.split_on "/" p).

End Wasm.

(** ** components/CustomConfig.tsx *)

Module CustomConfig.
Import Wasm.

Definition FIELD_TYPES : list string :=
  [ "Int"; "ByteArray"; "Address"; "Bool"; "List<Int>"; "List<ByteArray>" ].

(** [arr.includes(x)] on an array of strings *)
Definition includes (arr : list string) (x : string) : bool :=
  existsb (String.eqb x) arr.

(** [[...new Set(xs)]]: duplicates dropped, first occurrences kept in order. *)
Fixpoint set_add_all (acc xs : list string) : list string :=
  match xs with
  | [] => acc
  | x :: rest => set_add_all (if includes acc x then acc else acc ++ [x]) rest
  end.

Definition spread_set (xs : list string) : list string := set_add_all [] xs.

(** [features.find((f) => f.name === name)] *)
Definition find_feature (features : list FeatureInfo) (n : string) : option FeatureInfo :=
  find (fun f => String.eqb (name f) n) features.

Definition toggleFeature (features : list FeatureInfo) (selectedFeatures : list string)
    (n : string) : list string :=
  if includes selectedFeatures n then
    List.filter (fun f => negb (String.eqb f n)) selectedFeatures
  else
    (* Auto-add dependencies *)
    let feature := find_feature features n in
    let deps := match feature with Some f => depends_on f | None => [] end in
    spread_set (selectedFeatures ++ [n] ++ deps).

(** The two flags computed for the checkbox of feature [f]. *)
Definition checked (selectedFeatures : list string) (f : FeatureInfo) : bool :=
  includes selectedFeatures (name f).

Definition isDep (features : list FeatureInfo) (selectedFeatures : list string)
    (f : FeatureInfo) : bool :=
  existsb
    (fun sel =>
       match find_feature features sel with
       | Some feat => includes (depends_on feat) (name f)
       | None => false
       end)
    selectedFeatures.

Definition checkbox_disabled (features : list FeatureInfo) (selectedFeatures : list string)
    (f : FeatureInfo) : bool :=
  isDep features selectedFeatures f && checked selectedFeatures f.

(** A click on the checkbox of [f]: a disabled input fires no change event. *)
Definition click (features : list FeatureInfo) (selectedFeatures : list string)
    (f : FeatureInfo) : list string :=
  if checkbox_disabled features selectedFeatures f then selectedFeatures
  else toggleFeature features selectedFeatures (name f).

(** Declared dependencies of a feature name, as the component looks them up. *)
Definition deps_of (features : list FeatureInfo) (n : string) : list string :=
  match find_feature features n with
  | Some f => depends_on f
  | None => []
  end.

(** A selection is closed when it holds every dependency of its members. *)
Definition closed (features : list FeatureInfo) (sel : list string) : Prop :=
  forall s d, In s sel -> In d (deps_of features s) -> In d sel.

(** [requires features a b]: [b] is [a] or a transitive dependency of [a]. *)
Inductive requires (features : list FeatureInfo) : string -> string -> Prop :=
  | requires_refl a : requires features a a
  | requires_step a d b :
      In d (deps_of features a) -> requires features d b -> requires features a b.

(** Selections the checkboxes can produce, starting from the empty one. *)
Inductive reachable (features : list FeatureInfo) : list string -> Prop :=
  | reachable_init : reachable features []
  | reachable_click sel f :
      reachable features sel -> In f features ->
      reachable features (click features sel f).

(** In a catalogue whose dependencies have no dependencies of their own, the
    transitive dependencies are the declared ones. *)
Definition flat (features : list FeatureInfo) : Prop :=
  forall a d, In d (deps_of features a) -> deps_of features d = [].

End CustomConfig.

(** ** components/ConfigPanel.tsx *)

Module ConfigPanel.

(** The [onChange] handlers of the two text inputs store
    [v.replace(/[^a-z0-9_]/g, '')]. *)
Definition onChange_namespace (v : string) : string := Js.strip_non_ident v.
Definition onChange_project_name (v : string) : string := Js.strip_non_ident v.

(** A non-empty identifier over the lowercase-alphanumeric-underscore alphabet. *)
Definition valid_identifier (s : string) : bool :=
  negb (String.eqb s "") && Js.forallb_string Js.ident_char s.

End ConfigPanel.

(** ** components/FileTree.tsx *)

Module FileTree.
Import Wasm.

(** [path] is present on the nodes created for the last segment of a file. *)
Inductive TreeNode : Type :=
  Node (name : string) (fullPath : string) (path : option string)
       (children : list TreeNode).

Definition node_name (n : TreeNode) : string := let 'Node x _ _ _ := n in x.
Definition node_fullPath (n : TreeNode) : string := let 'Node _ x _ _ := n in x.
Definition node_path (n : TreeNode) : option string := let 'Node _ _ x _ := n in x.
Definition node_children (n : TreeNode) : list TreeNode := let 'Node _ _ _ x := n in x.

(** One step of the inner loop: look for a node called [name] in [current];
    continue with [k] in its children, creating the node at the end of
    [current] when there is none. *)
Fixpoint step_into (name accumulated : string) (leaf_path : option string)
    (k : list TreeNode -> list TreeNode) (current : list TreeNode) : list TreeNode :=
  match current with
  | [] => [Node name accumulated leaf_path (k [])]
  | n :: rest =>
      if String.eqb (node_name n) name then
        Node (node_name n) (node_fullPath n) (node_path n) (k (node_children n)) :: rest
      else n :: step_into name accumulated leaf_path k rest
  end.

(** The inner [for] loop over [parts], from the array [current] on. *)
Fixpoint insert_parts (file_path : string) (parts : list string) (accumulated : string)
    (current : list TreeNode) : list TreeNode :=
  match parts with
  | [] => current
  | name :: rest =>
      let isLeaf := match rest with [] => true | _ => false end in
      let accumulated' :=
        if negb (String.eqb accumulated "") then accumulated +:+ "/" +:+ name else name in
      step_into name accumulated' (if isLeaf then Some file_path else None)
        (insert_parts file_path rest accumulated') current
  end.

Definition insert_file (root : list TreeNode) (file : GeneratedFile) : list TreeNode :=
  insert_parts (path file) (Js.split_on "/" (path file)) "" root.

Definition buildTree (files : list GeneratedFile) : list TreeNode :=
  fold_left insert_file files [].

(** [!node.path]: the field is absent, or the empty string. *)
Definition no_path (n : TreeNode) : bool :=
  match node_path n with
  | None => true
  | Some p => String.eqb p ""
  end.

Definition has_children (n : TreeNode) : bool :=
  match node_children n with [] => false | _ => true end.

Fixpoint collectFolderPaths_node (n : TreeNode) : list string :=
  match n with
  | Node _ full p children =>
      if no_path n && has_children n then
        full :: flat_map collectFolderPaths_node children
      else []
  end.

Definition collectFolderPaths (nodes : list TreeNode) : list string :=
  flat_map collectFolderPaths_node nodes.

(** Every node of a forest, parents before children, siblings in order. *)
Fixpoint nodes_of (n : TreeNode) : list TreeNode :=
  match n with
  | Node _ _ _ children => n :: flat_map nodes_of children
  end.

Definition all_nodes (forest : list TreeNode) : list TreeNode :=
  flat_map nodes_of forest.

(** *** Notions used to state and prove the properties of the tree *)

(** The [path] fields present in a forest, and the nodes carrying a given one. *)
Definition path_list (n : TreeNode) : list string :=
  match node_path n with Some p => [p] | None => [] end.

Definition node_paths (forest : list TreeNode) : list string :=
  flat_map path_list (all_nodes forest).

Definition has_path (p : string) (n : TreeNode) : bool :=
  match node_path n with Some q => String.eqb q p | None => false end.

Definition file_nodes (forest : list TreeNode) (p : string) : list TreeNode :=
  List.filter (has_path p) (all_nodes forest).

(** Folders, as the claim describes them: children and no [path] field. *)
Definition is_folder (n : TreeNode) : bool :=
  match node_path n with None => has_children n | Some _ => false end.

Definition folder_paths (forest : list TreeNode) : list string :=
  map node_fullPath (List.filter is_folder (all_nodes forest)).

(** Segment lists: [is_prefix a b] when [b] continues [a]. *)
Fixpoint is_prefix (a b : list string) : bool :=
  match a, b with
  | [], _ => true
  | x :: a', y :: b' => String.eqb x y && is_prefix a' b'
  | _ :: _, [] => false
  end.

Definition proper_prefix (a b : list string) : bool :=
  is_prefix a b && (length a <? length b).

(** [folder_of p q]: the path [p] is a folder on the way to the path [q]. *)
Definition folder_of (p q : string) : bool :=
  proper_prefix (Js.split_on "/" p) (Js.split_on "/" q).

(** No file of the list is at the same time a folder of another one. *)
Definition layout_consistent (files : list GeneratedFile) : Prop :=
  forall f g, In f files -> In g files -> folder_of (path f) (path g) = false.

(** A node is either a file (a [path], no children) or a folder (no [path],
    some children), all the way down. *)
Fixpoint wf_node (n : TreeNode) : bool :=
  match n with
  | Node _ _ (Some _) children => match children with [] => true | _ => false end
  | Node _ _ None children =>
      match children with [] => false | _ => forallb wf_node children end
  end.

(** The node [n] with its [children] array replaced. *)
Definition with_children (n : TreeNode) (children : list TreeNode) : TreeNode :=
  Node (node_name n) (node_fullPath n) (node_path n) children.

(** [find] of the inner loop. *)
Definition find_node (name : string) (current : list TreeNode) : option TreeNode :=
  find (fun n => String.eqb (node_name n) name) current.

(** The walk along [parts] leaves the existing nodes before [parts] ends and
    never passes through a node that carries a [path]: the loop then creates
    the node of the file. *)
Fixpoint fits (parts : list string) (current : list TreeNode) : bool :=
  match parts with
  | [] => false
  | name :: rest =>
      match find_node name current with
      | None => true
      | Some n =>
          match node_path n, rest with
          | None, _ :: _ => fits rest (node_children n)
          | _, _ => false
          end
      end
  end.

(** The chain of names leading to each node, with the node's [path] field. *)
Fixpoint entries_node (n : TreeNode) : list (list string * option string) :=
  match n with
  | Node x _ p children =>
      ([x], p) :: map (fun e => (x :: fst e, snd e)) (flat_map entries_node children)
  end.

Definition entries (forest : list TreeNode) : list (list string * option string) :=
  flat_map entries_node forest.


(** What holds of the tree once the files with the paths [done] are in: files
    and folders are well formed, the [path] fields are the paths inserted, a
    node with a [path] sits at the segments of that path, and a node without
    one sits on the way to an inserted path. *)
Definition tree_inv (done : list string) (forest : list TreeNode) : Prop :=
  forallb wf_node forest = true
  /\ Permutation (node_paths forest) done
  /\ forall c o, In (c, o) (entries forest) ->
       match o with
       | Some q => In q done /\ c = Js.split_on "/" q
       | None => exists q, In q done /\ proper_prefix c (Js.split_on "/" q) = true
       end.

End FileTree.

(** ** pages/Wizard.tsx *)

Module Wizard.
Import TemplateIcons Wasm.

Record FieldSpec : Type := mkField { field_name : string; field_type : string }.

Record ActionSpec : Type := mkAction { action_name : string; fields : list FieldSpec }.

(** Optional members of the interface are [option]s: [None] is [undefined]. *)
Record WizardConfig : Type := mkConfig {
  template : string;
  namespace : string;
  project_name : string;
  purpose : option string;
  time_lock : option bool;
  cancellable : option bool;
  partial_claim : option bool;
  features : option (list string);
  datum_fields : option (list FieldSpec);
  redeemer_actions : option (list ActionSpec);
  generate_sdk : option bool
}.

Definition DEFAULT_CONFIG : WizardConfig :=
  mkConfig "mint" "myorg" "my_token" (Some "spend") None None None None None None None.

(** Truthiness of an optional boolean member. *)
Definition flag (b : option bool) : bool := default false b.

(** [f.name.trim().length > 0] *)
Definition non_blank (s : string) : bool := 0 <? String.length (Js.trim s).

Definition field_literal (f : FieldSpec) : string :=
  field_name f +:+ ":" +:+ field_type f.

Definition serializeDatumFields (fs : list FieldSpec) : string :=
  Js.join "," (map field_literal (List.filter (fun f => non_blank (field_name f)) fs)).

Definition serializeRedeemerActions (actions : list ActionSpec) : string :=
  Js.join ","
    (map
       (fun a =>
          match fields a with
          | [] => action_name a
          | _ =>
              let fieldStr :=
                Js.join ","
                  (map field_literal (List.filter (fun f => non_blank (field_name f)) (fields a))) in
              if 0 <? String.length fieldStr
              then action_name a +:+ "(" +:+ fieldStr +:+ ")"
              else action_name a
          end)
       (List.filter (fun a => non_blank (action_name a)) actions)).

(** The [templateSupportsSdk] callback, for the catalogue held in [templates]. *)
Definition templateSupportsSdk (templates : list TemplateInfo) (slug_ : string) : bool :=
  let shortSlug := toShortTemplateSlug slug_ in
  match find (fun t => strict_eq (toShortTemplateSlug (slug t)) shortSlug) templates with
  | Some t => default false (supports_sdk t)
  | None => false
  end.

(** Component state touched by [regenerate]. *)
Record State : Type := mkState {
  files : list GeneratedFile;
  sdkFiles : list GeneratedFile;
  activeFile : string;
  error : option string;
  loading_ : bool
}.

Definition initial_state : State := mkState [] [] "" None false.

Definition setFiles (v : list GeneratedFile) (w : State) : State :=
  mkState v (sdkFiles w) (activeFile w) (error w) (loading_ w).
Definition setSdkFiles (v : list GeneratedFile) (w : State) : State :=
  mkState (files w) v (activeFile w) (error w) (loading_ w).
Definition setActiveFile (v : string) (w : State) : State :=
  mkState (files w) (sdkFiles w) v (error w) (loading_ w).
Definition setError (v : option string) (w : State) : State :=
  mkState (files w) (sdkFiles w) (activeFile w) v (loading_ w).
Definition setLoading (v : bool) (w : State) : State :=
  mkState (files w) (sdkFiles w) (activeFile w) (error w) v.

(** The options object assembled at the head of [regenerate]. *)
Definition build_options (cfg : WizardConfig) : gmap string JsValue :=
  let o0 : gmap string JsValue :=
    <[ "project_name" := JString (project_name cfg) ]>
      (<[ "namespace" := JString (namespace cfg) ]>
         (<[ "template" := toLongTemplateSlug (template cfg) ]> ∅)) in
  let short := toShortTemplateSlug (template cfg) in
  let o1 :=
    if strict_eq short (JString "mint") && flag (time_lock cfg)
    then <[ "time_lock" := JBool true ]> o0 else o0 in
  let o2 :=
    if strict_eq short (JString "vesting") then
      let oc := if flag (cancellable cfg) then <[ "cancellable" := JBool true ]> o1 else o1 in
      if flag (partial_claim cfg) then <[ "partial_claim" := JBool true ]> oc else oc
    else o1 in
  if strict_eq short (JString "custom") then
    <[ "redeemer" := JString (serializeRedeemerActions (default [] (redeemer_actions cfg))) ]>
      (<[ "datum" := JString (serializeDatumFields (default [] (datum_fields cfg))) ]>
         (<[ "features" := JString (Js.join "," (default [] (features cfg))) ]>
            (<[ "purpose" := JString (default "spend" (purpose cfg)) ]> o2)))
  else o2.

Section Regenerate.

Variable JSON_stringify : gmap string JsValue -> string.
Variable JSON_parse_files : string -> Outcome (list GeneratedFile).
Variable JSON_parse_validation : string -> Outcome ValidationResult.
Variable env : Env.
Variable templates : list TemplateInfo.

(** The [try] block: the state reached when it is left, the message of the
    exception that left it (if any) and the loader state. *)
Definition regenerate_try (cfg : WizardConfig) (w : State) (ld : Loader)
  : State * option string * Loader :=
  let options := build_options cfg in
  let validated : Outcome unit * Loader :=
    if strict_eq (toShortTemplateSlug (template cfg)) (JString "custom") then
      match validateCustom JSON_stringify JSON_parse_validation env ld options with
      | (Ok validation, ld1) =>
          if valid validation then (Ok tt, ld1)
          else (Throw (Js.join nl (errors validation)), ld1)
      | (Throw e, ld1) => (Throw e, ld1)
      end
    else (Ok tt, ld) in
  match validated with
  | (Throw e, ld1) => (w, Some e, ld1)
  | (Ok _, ld1) =>
      match generate JSON_stringify JSON_parse_files env ld1 options with
      | (Throw e, ld2) => (w, Some e, ld2)
      | (Ok generated, ld2) =>
          let w1 := setFiles generated w in
          let w2 :=
            match generated with
            | first :: _ =>
                if String.eqb (activeFile w) "" then
                  (* Default to the validator file *)
                  match find (fun f => Js.startsWith "validators/" (path f)) generated with
                  | Some validator => setActiveFile (path validator) w1
                  | None => setActiveFile (path first) w1
                  end
                else w1
            | [] => w1
            end in
          if flag (generate_sdk cfg) && templateSupportsSdk templates (template cfg) then
            match generateSdk JSON_stringify JSON_parse_files env ld2 options with
            | (Ok sdk, ld3) => (setSdkFiles sdk w2, None, ld3)
            | (Throw e, ld3) => (w2, Some e, ld3)
            end
          else (setSdkFiles [] w2, None, ld2)
      end
  end.

Definition regenerate (cfg : WizardConfig) (w : State) (ld : Loader) : State * Loader :=
  let w0 := setError None (setLoading true w) in
  match regenerate_try cfg w0 ld with
  | (w1, Some e, ld1) => (setLoading false (setError (Some e) w1), ld1)
  | (w1, None, ld1) => (setLoading false w1, ld1)
  end.

Definition set_generate_sdk (v : option bool) (cfg : WizardConfig) : WizardConfig :=
  mkConfig (template cfg) (namespace cfg) (project_name cfg) (purpose cfg)
    (time_lock cfg) (cancellable cfg) (partial_claim cfg) (features cfg)
    (datum_fields cfg) (redeemer_actions cfg) v.

(** The effect that watches [config.generate_sdk] and [config.template]. *)
Definition sdk_flag_effect (config : WizardConfig) : WizardConfig :=
  if flag (generate_sdk config) && negb (templateSupportsSdk templates (template config))
  then set_generate_sdk (Some false) config
  else config.

End Regenerate.

(** *** The DSL literals, as the grammar of the specification writes them

    Field list: [name:Type[,name:Type...]]; action list:
    [Name[(field:Type[,field:Type...])][,Name...]], where an action without a
    parenthesis list is a zero-field variant. *)

Definition field_list_literal (fs : list FieldSpec) : string :=
  Js.join "," (map field_literal fs).

Definition action_literal (a : ActionSpec) : string :=
  match fields a with
  | [] => action_name a
  | _ => action_name a +:+ "(" +:+ field_list_literal (fields a) +:+ ")"
  end.

Definition action_list_literal (actions : list ActionSpec) : string :=
  Js.join "," (map action_literal actions).

(** What the serialisers keep: the named fields and the named actions. *)
Definition named_fields (fs : list FieldSpec) : list FieldSpec :=
  List.filter (fun f => non_blank (field_name f)) fs.

Definition named_actions (actions : list ActionSpec) : list ActionSpec :=
  map (fun a => mkAction (action_name a) (named_fields (fields a)))
    (List.filter (fun a => non_blank (action_name a)) actions).

(** Slugs of the templates the fallback catalogue marks as lacking an SDK. *)
Definition sdk_unsupported_slugs : list string :=
  [ "dex"; "lending"; "governance"; "streaming"; "custom" ].

End Wizard.

(** ** Concrete inputs used by the examples below *)

Module Examples.
Import Wasm.

(** The end-to-end scenario of the specification. *)
Definition scenario_options : gmap string JsValue :=
  <[ "partial_claim" := JBool true ]>
    (<[ "cancellable" := JBool true ]>
       (<[ "project_name" := JString "my_vesting" ]>
          (<[ "namespace" := JString "myorg" ]>
             (<[ "template" := JString "vesting" ]> ∅)))).


(** The default configuration after the namespace field has been cleared and
    the text [MY PROJECT!] has been pasted over the project name: what the two
    [onChange] handlers of the panel store. *)
Definition cleared_names : Wizard.WizardConfig :=
  Wizard.mkConfig "mint" (ConfigPanel.onChange_namespace "")
    (ConfigPanel.onChange_project_name "MY PROJECT!")
    (Some "spend") None None None None None None None.


Definition value_preservation : FeatureInfo :=
  mkFeature "value-preservation" "Verify lovelace math (input >= output)"
    (Some "spend") ["datum-continuity"].

Definition timelock : FeatureInfo :=
  mkFeature "timelock" "Enforce validity_range before/after a deadline field"
    (Some "spend") [].



(** A run of the wizard against a core that rejects an empty namespace. The
    JSON layer is reduced to what the run needs: the namespace goes in, a tag
    comes out. *)
Definition toy_stringify (o : gmap string JsValue) : string :=
  js_String (prop o "namespace").

Definition toy_core : KaidoCore :=
  mkCore
    (fun json => if String.eqb json "" then Throw "namespace must not be empty" else Ok "project")
    (fun json => Ok "sdk")
    (fun json => Ok "valid").

Definition toy_parse_files (s : string) : Outcome (list GeneratedFile) :=
  if String.eqb s "sdk" then Ok [mkFile "sdk/client.ts" "export class MintClient {}"]
  else Ok [mkFile "aiken.toml" ""; mkFile "validators/my_token.ak" ""].

Definition toy_parse_validation (s : string) : Outcome ValidationResult :=
  Ok (mkValidation true []).

Definition toy_env : Env := mkEnv false (Some toy_core).

Definition mint_with_sdk : Wizard.WizardConfig :=
  Wizard.set_generate_sdk (Some true) Wizard.DEFAULT_CONFIG.

Definition dex_without_namespace : Wizard.WizardConfig :=
  Wizard.mkConfig "dex" "" "my_token" (Some "spend") None None None None None None
    (Some false).

(** A custom configuration with one feature selected. *)
Definition custom_with_timelock : Wizard.WizardConfig :=
  Wizard.mkConfig "custom" "myorg" "my_token" (Some "spend") None None None
    (Some ["timelock"]) None None None.

(** The state after the first generation, with the SDK switched on. *)
Definition after_mint : Wizard.State * Loader :=
  Wizard.regenerate toy_stringify toy_parse_files toy_parse_validation toy_env
    listTemplatesFallback mint_with_sdk Wizard.initial_state initial_loader.

(** The state after the template is changed to [dex] with the namespace
    field cleared. *)
Definition after_dex : Wizard.State * Loader :=
  Wizard.regenerate toy_stringify toy_parse_files toy_parse_validation toy_env
    listTemplatesFallback dex_without_namespace (fst after_mint) (snd after_mint).


(** A file listed after a file below it, and a file listed before one. *)
Definition file_after_its_folder : list GeneratedFile :=
  [ mkFile "a/b" "inner"; mkFile "a" "outer" ].

Definition file_before_its_folder : list GeneratedFile :=
  [ mkFile "a" "outer"; mkFile "a/b/c" "inner" ].

Definition sample_project : list GeneratedFile :=
  [ mkFile "aiken.toml" ""; mkFile "lib/myorg/my_token/types.ak" "";
    mkFile "validators/my_token.ak" "" ].

End Examples.

(** ** components/CustomConfig.tsx: the handlers of the datum and redeemer rows *)

Module Handlers.
Import Wizard.

(** [arr.map((x, i) => f(x, i))] and [arr.filter((x, i) => p(x, i))] *)
Fixpoint mapi_from {A B : Type} (i : nat) (f : A -> nat -> B) (l : list A) : list B :=
  match l with
  | [] => []
  | x :: rest => f x i :: mapi_from (S i) f rest
  end.

Definition mapi {A B : Type} (f : A -> nat -> B) (l : list A) : list B :=
  mapi_from 0 f l.

Fixpoint filteri_from {A : Type} (i : nat) (p : A -> nat -> bool) (l : list A) : list A :=
  match l with
  | [] => []
  | x :: rest =>
      if p x i then x :: filteri_from (S i) p rest else filteri_from (S i) p rest
  end.

Definition filteri {A : Type} (p : A -> nat -> bool) (l : list A) : list A :=
  filteri_from 0 p l.

(** [s.replace(/[^A-Za-z0-9]/g, '')] *)
Definition alnum_char (c : ascii) : bool :=
  let n := nat_of_ascii c in
  ((65 <=? n) && (n <=? 90)) || ((97 <=? n) && (n <=? 122)) || ((48 <=? n) && (n <=? 57)).

Definition strip_non_alnum (s : string) : string := Js.filter_string alnum_char s.

(** The [key] argument of the field handlers: ['name' | 'field_type']. *)
Inductive FieldKey : Type := key_name | key_field_type.

(** [{ ...f, [key]: key === 'name' ? value.replace(/[^a-z0-9_]/g, '') : value }] *)
Definition set_field (key : FieldKey) (value : string) (f : FieldSpec) : FieldSpec :=
  match key with
  | key_name => mkField (Js.strip_non_ident value) (field_type f)
  | key_field_type => mkField (field_name f) value
  end.

Definition addDatumField (datumFields : list FieldSpec) : list FieldSpec :=
  datumFields ++ [mkField "" "Int"].

Definition updateDatumField (idx : nat) (key : FieldKey) (value : string)
    (datumFields : list FieldSpec) : list FieldSpec :=
  mapi (fun f i => if i =? idx then set_field key value f else f) datumFields.

Definition removeDatumField (idx : nat) (datumFields : list FieldSpec) : list FieldSpec :=
  filteri (fun _ i => negb (i =? idx)) datumFields.

Definition addRedeemerAction (redeemerActions : list ActionSpec) : list ActionSpec :=
  redeemerActions ++ [mkAction "" []].

Definition updateActionName (idx : nat) (name : string)
    (redeemerActions : list ActionSpec) : list ActionSpec :=
  mapi (fun a i => if i =? idx then mkAction (strip_non_alnum name) (fields a) else a)
    redeemerActions.

Definition removeAction (idx : nat) (redeemerActions : list ActionSpec) : list ActionSpec :=
  filteri (fun _ i => negb (i =? idx)) redeemerActions.

Definition addActionField (actionIdx : nat) (redeemerActions : list ActionSpec)
  : list ActionSpec :=
  mapi (fun a i =>
          if i =? actionIdx
          then mkAction (action_name a) (fields a ++ [mkField "" "Int"])
          else a)
    redeemerActions.

Definition updateActionField (actionIdx fieldIdx : nat) (key : FieldKey) (value : string)
    (redeemerActions : list ActionSpec) : list ActionSpec :=
  mapi (fun a i =>
          if i =? actionIdx
          then mkAction (action_name a)
                 (mapi (fun f j => if j =? fieldIdx then set_field key value f else f)
                    (fields a))
          else a)
    redeemerActions.

Definition removeActionField (actionIdx fieldIdx : nat)
    (redeemerActions : list ActionSpec) : list ActionSpec :=
  mapi (fun a i =>
          if i =? actionIdx
          then mkAction (action_name a)
                 (filteri (fun _ j => negb (j =? fieldIdx)) (fields a))
          else a)
    redeemerActions.

(** The rows of the custom form, [datum_fields ?? []] and
    [redeemer_actions ?? []], and one user action on them. *)
Definition Rows : Type := (list FieldSpec * list ActionSpec)%type.

Inductive Edit : Type :=
  | AddDatumField
  | UpdateDatumField (idx : nat) (key : FieldKey) (value : string)
  | RemoveDatumField (idx : nat)
  | AddRedeemerAction
  | UpdateActionName (idx : nat) (name : string)
  | RemoveAction (idx : nat)
  | AddActionField (actionIdx : nat)
  | UpdateActionField (actionIdx fieldIdx : nat) (key : FieldKey) (value : string)
  | RemoveActionField (actionIdx fieldIdx : nat).

Definition apply_edit (rows : Rows) (e : Edit) : Rows :=
  let '(datumFields, redeemerActions) := rows in
  match e with
  | AddDatumField => (addDatumField datumFields, redeemerActions)
  | UpdateDatumField idx key value =>
      (updateDatumField idx key value datumFields, redeemerActions)
  | RemoveDatumField idx => (removeDatumField idx datumFields, redeemerActions)
  | AddRedeemerAction => (datumFields, addRedeemerAction redeemerActions)
  | UpdateActionName idx name => (datumFields, updateActionName idx name redeemerActions)
  | RemoveAction idx => (datumFields, removeAction idx redeemerActions)
  | AddActionField a => (datumFields, addActionField a redeemerActions)
  | UpdateActionField a f key value =>
      (datumFields, updateActionField a f key value redeemerActions)
  | RemoveActionField a f => (datumFields, removeActionField a f redeemerActions)
  end.

(** The rows after a series of user actions on the empty form. *)
Definition rows_after (edits : list Edit) : Rows := fold_left apply_edit edits ([], []).

(** Every name a row holds is over the alphabet its input keeps. *)
Definition field_clean (f : FieldSpec) : Prop :=
  Js.forallb_string Js.ident_char (field_name f) = true.

Definition action_clean (a : ActionSpec) : Prop :=
  Js.forallb_string alnum_char (action_name a) = true /\ Forall field_clean (fields a).

Definition rows_clean (rows : Rows) : Prop :=
  Forall field_clean (fst rows) /\ Forall action_clean (snd rows).

End Handlers.

(** ** lib/wasm.ts: the catalogue entry points *)

Module Catalogue.
Import Wasm.

Section CatalogueEntryPoints.

(** The catalogue exports of the core the loader holds, and the parsers of
    what they return. *)
Variable core_list_templates : KaidoCore -> Outcome string.
Variable core_get_template_info : KaidoCore -> string -> Outcome string.
Variable core_list_features : KaidoCore -> Outcome string.
Variable JSON_parse_templates : string -> Outcome (list TemplateInfo).
Variable JSON_parse_template : string -> Outcome TemplateInfo.
Variable JSON_parse_features : string -> Outcome (list FeatureInfo).

Definition listTemplates (env : Env) (st : Loader) : Outcome (list TemplateInfo) * Loader :=
  let st' := loadWasm env st in
  match wasm st' with
  | None =>
      if DEV env then (Ok FALLBACK_TEMPLATES, st')
      else (Throw "WASM module unavailable. Build web with `npm run build:full`.", st')
  | Some core =>
      (bind (bind (core_list_templates core) JSON_parse_templates)
            (fun ts => Ok (map normalizeTemplateInfo ts)), st')
  end.

Definition getTemplateInfo (env : Env) (st : Loader) (slug_ : string)
  : Outcome TemplateInfo * Loader :=
  let st' := loadWasm env st in
  match wasm st' with
  | None =>
      if DEV env then
        match find (fun t => String.eqb (slug t) slug_) FALLBACK_TEMPLATES with
        | Some t => (Ok (normalizeTemplateInfo t), st')
        | None =>
            match FALLBACK_TEMPLATES with
            | first :: _ => (Ok (normalizeTemplateInfo first), st')
            | [] => (Throw "TypeError: Cannot read properties of undefined", st')
            end
        end
      else (Throw "WASM module unavailable. Build web with `npm run build:full`.", st')
  | Some core =>
      (bind (bind (core_get_template_info core slug_) JSON_parse_template)
            (fun t => Ok (normalizeTemplateInfo t)), st')
  end.

Definition listFeatures (env : Env) (st : Loader) : Outcome (list FeatureInfo) * Loader :=
  let st' := loadWasm env st in
  match wasm st' with
  | None =>
      if DEV env then (Ok FALLBACK_FEATURES, st')
      else (Throw "WASM module unavailable. Build web with `npm run build:full`.", st')
  | Some core => (bind (core_list_features core) JSON_parse_features, st')
  end.

End CatalogueEntryPoints.

(** The call threw. *)
Definition is_throw {A : Type} (r : Outcome A) : Prop :=
  match r with Throw _ => True | Ok _ => False end.

End Catalogue.

(** ** components/CodePreview.tsx *)

Module CodePreview.
Import Wasm.

(** [s.endsWith(suffix)] *)
Fixpoint endsWith (suffix s : string) : bool :=
  if String.eqb s suffix then true
  else match s with
       | EmptyString => false
       | String _ rest => endsWith suffix rest
       end.

(** The languages the highlighter is created with. *)
Definition highlighter_langs : list string := [ "rust"; "toml"; "typescript"; "json" ].

Definition getLang (path : string) : string :=
  if endsWith ".ak" path then "rust"
  else if endsWith ".toml" path then "toml"
  else if endsWith ".ts" path then "typescript"
  else if endsWith ".json" path then "json"
  else "rust".

(** [files.find((f) => f.path === activeFile)] *)
Definition preview_file (files : list GeneratedFile) (activeFile : string)
  : option GeneratedFile :=
  find (fun f => String.eqb (path f) activeFile) files.

End CodePreview.

(** ** pages/Docs.tsx: the sidebar *)

Module DocsSidebar.

Definition SIDEBAR_LINKS : list (string * string) :=
  [ ("/docs", "Getting Started");
    ("/docs/cli", "CLI Reference");
    ("/docs/features", "Composable Features");
    ("/docs/templates", "Templates");
    ("/docs/sdk", "TypeScript SDK") ].

(** [pathname === to || (to !== '/docs' && pathname.startsWith(to))] *)
Definition active (pathname to : string) : bool :=
  String.eqb pathname to || (negb (String.eqb to "/docs") && Js.startsWith to pathname).

Definition active_links (pathname : string) : list (string * string) :=
  List.filter (fun link => active pathname (fst link)) SIDEBAR_LINKS.

End DocsSidebar.

(** ** Further notions about the file tree *)

Module TreeOrder.
Import Wasm FileTree.

(** [parts[0]] of a file: the name of its top-level entry. *)
Definition first_segment (file : GeneratedFile) : string :=
  hd "" (Js.split_on "/" (path file)).

(** No two nodes of one [children] array share a name, at any depth. *)
Definition siblings_distinct (forest : list TreeNode) : Prop :=
  List.NoDup (map node_name forest)
  /\ forall n, In n (all_nodes forest) -> List.NoDup (map node_name (node_children n)).

End TreeOrder.

(** ** Notions about the generated Aiken modules *)

Module AikenText.

(** [text.includes(part)] *)
Fixpoint includes (text part : string) : bool :=
  Js.startsWith part text
  || match text with
     | EmptyString => false
     | String _ rest => includes rest part
     end.


End AikenText.

(** * Properties *)

(** ** Slug normalisation *)

Section SlugFacts.
Import TemplateIcons.

Lemma map_string_compose f g s :
  Js.map_string f (Js.map_string g s) = Js.map_string (fun c => f (g c)) s.
Proof. induction s as [|c s IH]; simpl; [reflexivity | now rewrite IH]. Qed.

Lemma map_string_ext f g s :
  (forall c, f c = g c) -> Js.map_string f s = Js.map_string g s.
Proof. intros E. induction s as [|c s IH]; simpl; [reflexivity | now rewrite E, IH]. Qed.

Lemma normalize_char_idem c :
  Js.dash_to_underscore (Js.lower_ascii (Js.dash_to_underscore (Js.lower_ascii c)))
  = Js.dash_to_underscore (Js.lower_ascii c).
Proof. destruct c as [[] [] [] [] [] [] [] []]; reflexivity. Qed.

Lemma normalizeSlug_idem s : normalizeSlug (normalizeSlug s) = normalizeSlug s.
Proof.
  unfold normalizeSlug, Js.replace_dashes, Js.toLowerCase.
  rewrite !map_string_compose.
  apply map_string_ext. intros c. apply normalize_char_idem.
Qed.

Lemma assoc_In key own v : assoc key own = Some v -> In (key, v) own.
Proof.
  induction own as [|[k w] own IH]; simpl; [discriminate|].
  destruct (String.eqb k key) eqn:E.
  - intros [= ->]. apply String.eqb_eq in E. subst. now left.
  - intros H. right. now apply IH.
Qed.

Lemma existsb_eqb_In x l : existsb (String.eqb x) l = true -> In x l.
Proof.
  rewrite existsb_exists. intros (y & Hy & E). apply String.eqb_eq in E. now subst.
Qed.

(** After normalisation only two inherited keys can be hit. *)
Lemma normalized_inherited_key s :
  existsb (String.eqb (normalizeSlug s)) Object_prototype_keys = true ->
  normalizeSlug s = "constructor" \/ normalizeSlug s = "__proto__".
Proof.
  intros H. apply existsb_eqb_In in H.
  pose proof (normalizeSlug_idem s) as I.
  simpl in H.
  repeat (destruct H as [H|H]; [rewrite <- H in I |- *; first [now left | now right | discriminate I]|]).
  destruct H.
Qed.

(** Whenever the result is a string, normalising it again changes nothing. *)
Lemma toShortTemplateSlug_string_idem s t :
  toShortTemplateSlug s = JString t -> toShortTemplateSlug t = JString t.
Proof.
  unfold toShortTemplateSlug, object_get.
  destruct (assoc (normalizeSlug s) SLUG_ALIASES) as [v|] eqn:A.
  - simpl. intros [= <-]. apply assoc_In in A. simpl in A.
    repeat (destruct A as [A|A]; [injection A as _ <-; reflexivity|]).
    destruct A.
  - destruct (existsb _ Object_prototype_keys) eqn:E; cbn [nullish_or]; [discriminate|].
    intros [= <-]. rewrite normalizeSlug_idem, A, E. reflexivity.
Qed.

(** The result is a string except on the two inherited keys. *)
Lemma toShortTemplateSlug_cases s :
  (exists t, toShortTemplateSlug s = JString t) \/
  (toShortTemplateSlug s = JProto (normalizeSlug s) /\
   (normalizeSlug s = "constructor" \/ normalizeSlug s = "__proto__")).
Proof.
  unfold toShortTemplateSlug, object_get.
  destruct (assoc (normalizeSlug s) SLUG_ALIASES) as [v|] eqn:A.
  - left. now exists v.
  - destruct (existsb _ Object_prototype_keys) eqn:E; cbn [nullish_or].
    + right. split; [reflexivity|]. now apply normalized_inherited_key.
    + left. now eexists.
Qed.

(** Idempotence holds for every input that stays clear of the inherited keys. *)
Lemma toShortTemplateSlug_idem_regular s :
  normalizeSlug s <> "constructor" -> normalizeSlug s <> "__proto__" ->
  exists t, toShortTemplateSlug s = JString t /\
            toShortTemplateSlug_value (toShortTemplateSlug s) = Ok (JString t).
Proof.
  intros H1 H2. destruct (toShortTemplateSlug_cases s) as [[t Ht]|[_ [H|H]]];
    [|contradiction..].
  exists t. split; [assumption|]. rewrite Ht. simpl. f_equal.
  now apply toShortTemplateSlug_string_idem with s.
Qed.

(** The ten alias pairs: long to short (on any spelling that normalises to the
    long slug) and short back to long. *)
Lemma slug_alias_round_trip :
  Forall
    (fun '(longSlug, shortSlug) =>
       (forall s, normalizeSlug s = longSlug -> toShortTemplateSlug s = JString shortSlug)
       /\ toLongTemplateSlug shortSlug = JString longSlug)
    SLUG_ALIASES.
Proof.
  unfold SLUG_ALIASES.
  repeat (constructor;
          [split; [intros s H; unfold toShortTemplateSlug; rewrite H; reflexivity
                  | reflexivity]|]).
  constructor.
Qed.

Lemma slug_alias_count : length SLUG_ALIASES = 10.
Proof. reflexivity. Qed.

(** C9: [toShortTemplateSlug] is meant to be idempotent on every string, and
    it is on every string that stays clear of the property names an object
    literal inherits ([toShortTemplateSlug_idem_regular]). On the slugs
    [constructor] and [__proto__] the code departs from the claim: the table
    read [SLUG_ALIASES[normalized]] is not [undefined] there, so the function
    returns the inherited member of [Object.prototype] instead of a string,
    and normalising that result once more raises a [TypeError]. *)
Theorem toShortTemplateSlug_inherited_key :
  toShortTemplateSlug "constructor" = JProto "constructor"
  /\ toShortTemplateSlug "__proto__" = JProto "__proto__"
  /\ toShortTemplateSlug_value (toShortTemplateSlug "constructor")
     = Throw "TypeError: slug.toLowerCase is not a function"
  /\ toShortTemplateSlug_value (toShortTemplateSlug "constructor")
     <> Ok (toShortTemplateSlug "constructor").
Proof. repeat split; try reflexivity. discriminate. Qed.

End SlugFacts.

(** ** The fallback generator *)

Section FallbackFacts.
Import Wasm.

Lemma generateFallback_length options : length (generateFallback options) = 3.
Proof. reflexivity. Qed.

Lemma generateFallback_paths options :
  map path (generateFallback options) =
  let ns := js_String (nullish_or (prop options "namespace") (JString "myorg")) in
  let name := js_String (nullish_or (prop options "project_name") (JString "my_contract")) in
  [ "aiken.toml"; "lib/" +:+ ns +:+ "/" +:+ name +:+ "/types.ak";
    "validators/" +:+ name +:+ ".ak" ].
Proof. reflexivity. Qed.

(** C1: with template [vesting] and a truthy [cancellable], the fallback
    generator returns exactly the manifest, the type module
    [lib/<namespace>/<project_name>/types.ak] and a validator module under
    [validators/], and the [VestingRedeemer] declaration of the type module
    lists both [Claim] and [Cancel]. *)
Theorem generateFallback_vesting_cancellable (options : gmap string JsValue) :
  prop options "template" = JString "vesting" ->
  truthy (prop options "cancellable") = true ->
  let ns := js_String (nullish_or (prop options "namespace") (JString "myorg")) in
  let name := js_String (nullish_or (prop options "project_name") (JString "my_contract")) in
  exists manifest validator,
    generateFallback options =
      [ mkFile "aiken.toml" manifest;
        mkFile ("lib/" +:+ ns +:+ "/" +:+ name +:+ "/types.ak")
          (unlines
             [ "pub type VestingDatum {";
               "  owner: ByteArray,";
               "  beneficiary: ByteArray,";
               "  deadline: Int,";
               "  amount: Int,";
               "}";
               "";
               "pub type VestingRedeemer {";
               "  Claim";
               "  Cancel";
               "}" ]);
        mkFile ("validators/" +:+ name +:+ ".ak") validator ]
    /\ Js.startsWith "validators/" ("validators/" +:+ name +:+ ".ak") = true.
Proof.
  intros Ht Hc ns name. unfold generateFallback.
  rewrite Ht. cbn [nullish_or js_String]. fold ns name.
  unfold generateTypesFile. rewrite Hc.
  do 2 eexists. split; reflexivity.
Qed.

Lemma generateFallback_vesting_cancellable_witness :
  prop Examples.scenario_options "template" = JString "vesting" /\
  truthy (prop Examples.scenario_options "cancellable") = true /\
  map path (generateFallback Examples.scenario_options)
  = [ "aiken.toml"; "lib/myorg/my_vesting/types.ak"; "validators/my_vesting.ak" ].
Proof.
  split; [reflexivity|]. split; [reflexivity|].
  destruct (generateFallback_vesting_cancellable Examples.scenario_options eq_refl eq_refl)
    as (manifest & validator & E & _).
  rewrite E. reflexivity.
Defined.

(** The generator reads five option keys and nothing else. *)
Lemma generateFallback_only_reads_its_keys (o1 o2 : gmap string JsValue) :
  agree_on fallback_keys o1 o2 -> generateFallback o1 = generateFallback o2.
Proof.
  unfold agree_on, fallback_keys. intros H.
  repeat match goal with
         | H : Forall _ (_ :: _) |- _ => apply Forall_cons in H; destruct H as [? H]
         end.
  unfold generateFallback, generateTypesFile, prop.
  repeat match goal with E : o1 !! _ = o2 !! _ |- _ => rewrite E; clear E end.
  reflexivity.
Qed.

(** Once a call has gone through the loader, a later call finds the loader
    settled: it does not consult the surroundings again. *)
Lemma loadWasm_settled env1 env2 st :
  loadWasm env2 (loadWasm env1 st) = loadWasm env1 st.
Proof.
  unfold loadWasm.
  destruct st as [[core|] ld failed]; simpl; [reflexivity|].
  destruct failed; simpl; [reflexivity|].
  destruct ld; simpl; [reflexivity|].
  destruct (import_core env1); reflexivity.
Qed.

Lemma generate_loader JSON_stringify JSON_parse_files env st options :
  snd (generate JSON_stringify JSON_parse_files env st options) = loadWasm env st.
Proof.
  unfold generate. destruct (wasm (loadWasm env st)); [reflexivity|].
  now destruct (DEV env).
Qed.

(** C2: two successive calls of [generate] with the same options give the
    same outcome (the same ordered list of files, or the same error), whatever
    the loader state before the first call and whatever the import does; and
    the files rendered by the fallback depend on the options alone, through
    the five keys the generator reads. *)
Theorem generate_deterministic
    (JSON_stringify : gmap string JsValue -> string)
    (JSON_parse_files : string -> Outcome (list GeneratedFile))
    (dev : bool) (import1 import2 : option KaidoCore) (st : Loader)
    (options : gmap string JsValue) :
  (let first := generate JSON_stringify JSON_parse_files (mkEnv dev import1) st options in
   let second :=
     generate JSON_stringify JSON_parse_files (mkEnv dev import2) (snd first) options in
   fst second = fst first /\ snd second = snd first)
  /\ (forall options' : gmap string JsValue,
        agree_on fallback_keys options options' ->
        generateFallback options' = generateFallback options).
Proof.
  split.
  - cbn zeta. rewrite generate_loader. split.
    + unfold generate. rewrite loadWasm_settled. reflexivity.
    + rewrite generate_loader. apply loadWasm_settled.
  - intros options' H. symmetry. now apply generateFallback_only_reads_its_keys.
Qed.

Lemma generate_deterministic_witness :
  agree_on fallback_keys Examples.scenario_options
    (<[ "purpose" := JString "spend" ]> Examples.scenario_options) /\
  generateFallback (<[ "purpose" := JString "spend" ]> Examples.scenario_options)
  = generateFallback Examples.scenario_options.
Proof.
  assert (H : agree_on fallback_keys Examples.scenario_options
                (<[ "purpose" := JString "spend" ]> Examples.scenario_options)).
  { unfold agree_on, fallback_keys. repeat constructor. }
  split; [exact H|].
  exact (proj2 (generate_deterministic (fun _ => "") (fun _ => Ok []) true None None
                  initial_loader Examples.scenario_options) _ H).
Defined.

(** *** Paths *)

Lemma split_on_nonempty sep s : Js.split_on sep s <> [].
Proof.
  destruct s as [|c s]; simpl; [discriminate|].
  destruct (Ascii.eqb c sep); [discriminate|].
  destruct (Js.split_on sep s); discriminate.
Qed.

Lemma split_on_app sep a b :
  Js.split_on sep (a +:+ String sep b) = Js.split_on sep a ++ Js.split_on sep b.
Proof.
  induction a as [|c a IH]; simpl.
  - now rewrite Ascii.eqb_refl.
  - destruct (Ascii.eqb c sep); [now rewrite IH|].
    rewrite IH. pose proof (split_on_nonempty sep a) as N.
    destruct (Js.split_on sep a); [contradiction|reflexivity].
Qed.

Lemma split_on_no_sep sep s :
  Js.forallb_string (fun c => negb (Ascii.eqb c sep)) s = true ->
  Js.split_on sep s = [s].
Proof.
  induction s as [|c s IH]; simpl; [reflexivity|].
  intros H. apply andb_true_iff in H as [Hc Hs].
  apply negb_true_iff in Hc. rewrite Hc, (IH Hs). reflexivity.
Qed.

Lemma forallb_string_app p a b :
  Js.forallb_string p (a +:+ b) = Js.forallb_string p a && Js.forallb_string p b.
Proof. induction a as [|c a IH]; simpl; [reflexivity|]. now rewrite IH, andb_assoc. Qed.

Lemma forallb_string_impl (p q : ascii -> bool) s :
  (forall c, p c = true -> q c = true) ->
  Js.forallb_string p s = true -> Js.forallb_string q s = true.
Proof.
  intros I. induction s as [|c s IH]; simpl; [reflexivity|].
  intros H. apply andb_true_iff in H as [Hc Hs]. now rewrite (I _ Hc), IH.
Qed.

Lemma ident_char_plain c :
  Js.ident_char c = true ->
  negb (Ascii.eqb c "/") = true /\ negb (Ascii.eqb c "\") = true
  /\ negb (Ascii.eqb c ".") = true.
Proof. destruct c as [[] [] [] [] [] [] [] []]; cbv; intros; try discriminate; auto. Qed.

Lemma valid_identifier_spec s :
  ConfigPanel.valid_identifier s = true ->
  s <> "" /\ Js.forallb_string Js.ident_char s = true.
Proof.
  unfold ConfigPanel.valid_identifier. intros H.
  apply andb_true_iff in H as [H1 H2]. split; [|assumption].
  intros ->. discriminate H1.
Qed.

Lemma ident_not_dotdot s :
  Js.forallb_string Js.ident_char s = true -> String.eqb s ".." = false.
Proof.
  intros H. destruct (String.eqb s "..") eqn:E; [|reflexivity].
  apply String.eqb_eq in E. subst. discriminate H.
Qed.

Lemma string_length_append a b :
  String.length (a +:+ b) = String.length a + String.length b.
Proof. induction a as [|c a IH]; simpl; [reflexivity | now rewrite IH]. Qed.

Lemma suffixed_not_dotdot s : String.eqb (s +:+ ".ak") ".." = false.
Proof.
  apply String.eqb_neq. intros E.
  apply (f_equal String.length) in E. rewrite string_length_append in E.
  simpl in E. lia.
Qed.

Lemma suffixed_not_empty s : String.eqb (s +:+ ".ak") "" = false.
Proof. destruct s; reflexivity. Qed.

Lemma eqb_empty_false s : s <> "" -> String.eqb s "" = false.
Proof. intros. now apply String.eqb_neq. Qed.

(** C6: for a namespace and a project name that are non-empty identifiers
    over [a-z0-9_], every path returned by the fallback generator is relative,
    forward-slash separated and free of [..] (and of empty) segments, the three
    paths are pairwise distinct, the type module is
    [lib/<namespace>/<project_name>/types.ak] and the validator module lies
    under [validators/]. *)
Theorem generateFallback_paths_well_formed (options : gmap string JsValue) (ns name : string) :
  prop options "namespace" = JString ns ->
  prop options "project_name" = JString name ->
  ConfigPanel.valid_identifier ns = true ->
  ConfigPanel.valid_identifier name = true ->
  let paths := map path (generateFallback options) in
  Forall (fun p => safe_relative_path p = true) paths
  /\ NoDup paths
  /\ paths = [ "aiken.toml"; "lib/" +:+ ns +:+ "/" +:+ name +:+ "/types.ak";
               "validators/" +:+ name +:+ ".ak" ]
  /\ Js.split_on "/" ("lib/" +:+ ns +:+ "/" +:+ name +:+ "/types.ak")
     = [ "lib"; ns; name; "types.ak" ]
  /\ Js.split_on "/" ("validators/" +:+ name +:+ ".ak") = [ "validators"; name +:+ ".ak" ].
Proof.
  intros Hns Hname Vns Vname paths.
  apply valid_identifier_spec in Vns as [Nns Ins].
  apply valid_identifier_spec in Vname as [Nname Iname].
  assert (Sns : Js.forallb_string (fun c => negb (Ascii.eqb c "/")) ns = true)
    by (revert Ins; apply forallb_string_impl; intros c Hc; apply (ident_char_plain c Hc)).
  assert (Sname : Js.forallb_string (fun c => negb (Ascii.eqb c "/")) name = true)
    by (revert Iname; apply forallb_string_impl; intros c Hc; apply (ident_char_plain c Hc)).
  assert (Bns : Js.forallb_string (fun c => negb (Ascii.eqb c "\")) ns = true)
    by (revert Ins; apply forallb_string_impl; intros c Hc; apply (ident_char_plain c Hc)).
  assert (Bname : Js.forallb_string (fun c => negb (Ascii.eqb c "\")) name = true)
    by (revert Iname; apply forallb_string_impl; intros c Hc; apply (ident_char_plain c Hc)).
  assert (Slib : Js.split_on "/" ("lib/" +:+ ns +:+ "/" +:+ name +:+ "/types.ak")
                 = [ "lib"; ns; name; "types.ak" ]).
  { change ("lib/" +:+ ns +:+ "/" +:+ name +:+ "/types.ak")
      with ("lib" +:+ String "/" (ns +:+ String "/" (name +:+ String "/" "types.ak"))).
    rewrite !split_on_app, (split_on_no_sep _ ns Sns), (split_on_no_sep _ name Sname).
    reflexivity. }
  assert (Sval : Js.split_on "/" ("validators/" +:+ name +:+ ".ak")
                 = [ "validators"; name +:+ ".ak" ]).
  { change ("validators/" +:+ name +:+ ".ak")
      with ("validators" +:+ String "/" (name +:+ ".ak")).
    rewrite split_on_app, (split_on_no_sep _ (name +:+ ".ak")); [reflexivity|].
    rewrite forallb_string_app, Sname. reflexivity. }
  assert (P : paths = [ "aiken.toml"; "lib/" +:+ ns +:+ "/" +:+ name +:+ "/types.ak";
                        "validators/" +:+ name +:+ ".ak" ]).
  { unfold paths. rewrite generateFallback_paths, Hns, Hname. reflexivity. }
  split; [|split; [|split; [exact P|split; assumption]]].
  - rewrite P. repeat constructor.
    + unfold safe_relative_path. rewrite Slib.
      change ("lib/" +:+ ns +:+ "/" +:+ name +:+ "/types.ak")
        with ("lib/" +:+ (ns +:+ ("/" +:+ (name +:+ "/types.ak")))).
      rewrite !forallb_string_app, Bns, Bname.
      cbn [forallb]. rewrite (ident_not_dotdot ns Ins), (ident_not_dotdot name Iname),
        (eqb_empty_false ns Nns), (eqb_empty_false name Nname).
      reflexivity.
    + unfold safe_relative_path. rewrite Sval.
      change ("validators/" +:+ name +:+ ".ak")
        with ("validators/" +:+ (name +:+ ".ak")).
      rewrite !forallb_string_app, Bname.
      cbn [forallb]. rewrite suffixed_not_dotdot, suffixed_not_empty.
      reflexivity.
  - rewrite P. repeat apply NoDup_cons_2; [ | | | apply NoDup_nil_2];
      rewrite ?not_elem_of_cons; repeat split;
      try (simpl; discriminate); apply not_elem_of_nil.
Qed.

Lemma generateFallback_paths_well_formed_witness :
  prop Examples.scenario_options "namespace" = JString "myorg" /\
  prop Examples.scenario_options "project_name" = JString "my_vesting" /\
  ConfigPanel.valid_identifier "myorg" = true /\
  ConfigPanel.valid_identifier "my_vesting" = true /\
  NoDup (map path (generateFallback Examples.scenario_options)).
Proof.
  repeat (split; [reflexivity|]).
  exact (proj1 (proj2 (generateFallback_paths_well_formed Examples.scenario_options
                         "myorg" "my_vesting" eq_refl eq_refl eq_refl eq_refl))).
Defined.

(** *** Absence of validation *)

Lemma filter_string_forallb p s : Js.forallb_string p (Js.filter_string p s) = true.
Proof.
  induction s as [|c s IH]; simpl; [reflexivity|].
  destruct (p c) eqn:E; simpl; [now rewrite E|assumption].
Qed.

Lemma filter_string_fixed p s :
  Js.forallb_string p s = true -> Js.filter_string p s = s.
Proof.
  induction s as [|c s IH]; cbn [Js.forallb_string Js.filter_string]; [reflexivity|].
  intros H. apply andb_prop in H as [Hc Hs]. rewrite Hc. now rewrite IH.
Qed.

Lemma filter_string_app p a b :
  Js.filter_string p (a +:+ b) = Js.filter_string p a +:+ Js.filter_string p b.
Proof.
  induction a as [|c a IH]; [reflexivity|].
  change (String c a +:+ b) with (String c (a +:+ b)).
  cbn [Js.filter_string]. rewrite IH. now destruct (p c).
Qed.

(** The character class [a-z0-9_], character by character. *)
Lemma ident_char_class c :
  Js.ident_char c
  = existsb (Ascii.eqb c) (list_ascii_of_string "abcdefghijklmnopqrstuvwxyz0123456789_").
Proof. destruct c as [[] [] [] [] [] [] [] []]; reflexivity. Qed.

(** C7, as the code has it: nothing is rejected. The two text inputs store
    the text with the characters outside [a-z0-9_] taken out and the
    characters of [a-z0-9_] kept where they are: the stored text lies in the
    alphabet, a text of the alphabet is stored as it is, the handler works
    character by character, and a character outside the alphabet leaves
    nothing; so the stored text may well be empty. The fallback generator
    checks nothing either: it renders its three files for every options
    value. *)
Theorem fallback_renders_without_validation :
  (forall c,
     Js.ident_char c
     = existsb (Ascii.eqb c)
         (list_ascii_of_string "abcdefghijklmnopqrstuvwxyz0123456789_"))
  /\ (forall v, Js.forallb_string Js.ident_char (ConfigPanel.onChange_namespace v) = true)
  /\ (forall v, Js.forallb_string Js.ident_char (ConfigPanel.onChange_project_name v) = true)
  /\ (forall v, Js.forallb_string Js.ident_char v = true ->
        ConfigPanel.onChange_namespace v = v /\ ConfigPanel.onChange_project_name v = v)
  /\ (forall a b,
        ConfigPanel.onChange_namespace (a +:+ b)
        = ConfigPanel.onChange_namespace a +:+ ConfigPanel.onChange_namespace b
        /\ ConfigPanel.onChange_project_name (a +:+ b)
           = ConfigPanel.onChange_project_name a +:+ ConfigPanel.onChange_project_name b)
  /\ (forall c, Js.ident_char c = false ->
        ConfigPanel.onChange_namespace (String c "") = ""
        /\ ConfigPanel.onChange_project_name (String c "") = "")
  /\ ConfigPanel.onChange_namespace "" = ""
  /\ ConfigPanel.onChange_project_name "" = ""
  /\ (forall options : gmap string JsValue, length (generateFallback options) = 3)
  /\ (forall JSON_stringify JSON_parse_files (options : gmap string JsValue),
        fst (generate JSON_stringify JSON_parse_files (mkEnv true None) initial_loader options)
        = Ok (generateFallback options)).
Proof.
  split; [exact ident_char_class|].
  split; [intros v; apply filter_string_forallb|].
  split; [intros v; apply filter_string_forallb|].
  split; [intros v H; split; now apply filter_string_fixed|].
  split; [intros a b; split; apply filter_string_app|].
  split.
  { intros c H. unfold ConfigPanel.onChange_namespace, ConfigPanel.onChange_project_name,
      Js.strip_non_ident. cbn [Js.filter_string]. rewrite H. now split. }
  repeat split.
Qed.

(** C7 fails as stated. With the namespace field cleared and a text without
    a single character of the alphabet pasted over the project name, both
    stored names are empty, and no identifiers. The options built from that
    configuration are rendered all the same: the entry point returns the
    three files, with the empty names in their paths, and the wizard shows
    them without an error. *)
Lemma generateFallback_accepts_invalid_names :
  Wizard.namespace Examples.cleared_names = ""
  /\ Wizard.project_name Examples.cleared_names = ""
  /\ ConfigPanel.valid_identifier (Wizard.namespace Examples.cleared_names) = false
  /\ ConfigPanel.valid_identifier (Wizard.project_name Examples.cleared_names) = false
  /\ prop (Wizard.build_options Examples.cleared_names) "namespace" = JString ""
  /\ prop (Wizard.build_options Examples.cleared_names) "project_name" = JString ""
  /\ fst (generate Examples.toy_stringify Examples.toy_parse_files (mkEnv true None)
            initial_loader (Wizard.build_options Examples.cleared_names))
     = Ok (generateFallback (Wizard.build_options Examples.cleared_names))
  /\ map path (generateFallback (Wizard.build_options Examples.cleared_names))
     = [ "aiken.toml"; "lib///types.ak"; "validators/.ak" ]
  /\ map path
       (Wizard.files
          (fst (Wizard.regenerate Examples.toy_stringify Examples.toy_parse_files
                  Examples.toy_parse_validation (mkEnv true None) listTemplatesFallback
                  Examples.cleared_names Wizard.initial_state initial_loader)))
     = [ "aiken.toml"; "lib///types.ak"; "validators/.ak" ]
  /\ Wizard.error
       (fst (Wizard.regenerate Examples.toy_stringify Examples.toy_parse_files
               Examples.toy_parse_validation (mkEnv true None) listTemplatesFallback
               Examples.cleared_names Wizard.initial_state initial_loader))
     = None.
Proof. repeat split; vm_compute; reflexivity. Qed.

End FallbackFacts.

(** ** Feature selection *)

Section SelectionFacts.
Import Wasm CustomConfig.

Lemma includes_In l x : includes l x = true <-> In x l.
Proof.
  unfold includes. rewrite existsb_exists. split.
  - intros (y & Hy & E). apply String.eqb_eq in E. now subst.
  - intros H. exists x. split; [assumption | apply String.eqb_refl].
Qed.

Lemma set_add_all_In acc xs x :
  In x (set_add_all acc xs) <-> In x acc \/ In x xs.
Proof.
  revert acc. induction xs as [|y xs IH]; intros acc; simpl.
  - tauto.
  - rewrite IH. destruct (includes acc y) eqn:E.
    + apply includes_In in E. split; [tauto|].
      intros [H|[<-|H]]; tauto.
    + rewrite in_app_iff. simpl. tauto.
Qed.

Lemma toggleFeature_select_In features sel n x :
  includes sel n = false ->
  In x (toggleFeature features sel n) <-> In x sel \/ x = n \/ In x (deps_of features n).
Proof.
  intros E. unfold toggleFeature, spread_set, deps_of. rewrite E.
  rewrite set_add_all_In, !in_app_iff. simpl. intuition congruence.
Qed.

Lemma toggleFeature_remove features sel n :
  includes sel n = true ->
  toggleFeature features sel n = List.filter (fun f => negb (String.eqb f n)) sel.
Proof. intros E. unfold toggleFeature. now rewrite E. Qed.

Lemma filter_neq_In (sel : list string) n x :
  In x (List.filter (fun f => negb (String.eqb f n)) sel) <-> In x sel /\ x <> n.
Proof.
  induction sel as [|y sel IH]; simpl; [tauto|].
  destruct (String.eqb y n) eqn:E; simpl.
  - apply String.eqb_eq in E. subst. rewrite IH. intuition congruence.
  - apply String.eqb_neq in E. rewrite IH. intuition congruence.
Qed.

Lemma requires_flat features a b :
  flat features -> requires features a b -> b = a \/ In b (deps_of features a).
Proof.
  intros F R. destruct R as [a|a d b Hd R]; [now left|].
  right. destruct R as [d|d e b He R]; [assumption|].
  rewrite (F _ _ Hd) in He. destruct He.
Qed.

Lemma select_keeps_closed features sel n :
  flat features -> includes sel n = false ->
  closed features sel -> closed features (toggleFeature features sel n).
Proof.
  intros F E C s d Hs Hd.
  apply (toggleFeature_select_In features sel n) in Hs; [|assumption].
  apply toggleFeature_select_In; [assumption|].
  destruct Hs as [Hs|[->|Hs]].
  - left. now apply (C s d).
  - now right; right.
  - rewrite (F _ _ Hs) in Hd. destruct Hd.
Qed.

Lemma isDep_false features sel f :
  isDep features sel f = false ->
  forall s, In s sel -> ~ In (name f) (deps_of features s).
Proof.
  unfold isDep, deps_of. intros H s Hs Hd.
  assert (X : existsb
                (fun sel0 => match find_feature features sel0 with
                             | Some feat => includes (depends_on feat) (name f)
                             | None => false
                             end) sel = true).
  { apply existsb_exists. exists s. split; [assumption|].
    destruct (find_feature features s); [now apply includes_In | destruct Hd]. }
  congruence.
Qed.

Lemma remove_keeps_closed features sel f :
  isDep features sel f = false -> closed features sel ->
  closed features (List.filter (fun x => negb (String.eqb x (name f))) sel).
Proof.
  intros D C s d Hs Hd. apply filter_neq_In in Hs as [Hs Hn].
  apply filter_neq_In. split; [now apply (C s d)|].
  intros ->. exact (isDep_false _ _ _ D s Hs Hd).
Qed.

Lemma click_keeps_closed features sel f :
  flat features -> closed features sel -> closed features (click features sel f).
Proof.
  intros F C. unfold click, checkbox_disabled, checked.
  destruct (includes sel (name f)) eqn:E.
  - destruct (isDep features sel f) eqn:D; simpl; [assumption|].
    rewrite toggleFeature_remove by assumption. now apply remove_keeps_closed.
  - rewrite andb_false_r. now apply select_keeps_closed.
Qed.

Lemma deps_of_fallback a d :
  In d (deps_of FALLBACK_FEATURES a) -> d = "datum-continuity".
Proof.
  unfold deps_of, find_feature, FALLBACK_FEATURES. cbn [find name depends_on].
  repeat match goal with
         | |- context [String.eqb ?x a] => destruct (String.eqb x a)
         end; cbn [In depends_on]; intuition congruence.
Qed.

Lemma fallback_flat : flat FALLBACK_FEATURES.
Proof. intros a d H. apply deps_of_fallback in H. now subst. Qed.

Lemma deps_of_fallback_member f :
  In f FALLBACK_FEATURES -> deps_of FALLBACK_FEATURES (name f) = depends_on f.
Proof.
  intros H. cbn [In FALLBACK_FEATURES] in H.
  repeat (destruct H as [<-|H]; [reflexivity|]). destruct H.
Qed.

(** Every selection the checkboxes can reach is closed. *)
Lemma reachable_closed sel :
  reachable FALLBACK_FEATURES sel -> closed FALLBACK_FEATURES sel.
Proof.
  induction 1 as [|sel f R IH Hf].
  - intros s d [].
  - apply click_keeps_closed; [apply fallback_flat | assumption].
Qed.

Lemma closed_requires features sel s d :
  closed features sel -> In s sel -> requires features s d -> In d sel.
Proof.
  intros C Hs R. induction R as [a|a e b He R IH]; [assumption|].
  apply IH. now apply (C a e).
Qed.

Lemma click_unselected features sel f :
  includes sel (name f) = false ->
  click features sel f = toggleFeature features sel (name f).
Proof.
  intros E. unfold click, checkbox_disabled, checked. rewrite E.
  now rewrite andb_false_r.
Qed.

(** C3: the selection the component holds is one the checkboxes have
    produced from the empty selection. Selecting an unselected feature [f] of
    the catalogue there (the checkbox of an unselected feature is never
    disabled, so the click is the call of [toggleFeature]) yields a superset
    of the selection that contains [f], its declared dependencies and its
    transitive dependencies; in the result every dependency, declared or
    transitive, of every selected feature is selected, and the result is
    again a selection of the component. *)
Theorem select_adds_dependencies (f : FeatureInfo) (sel : list string) :
  In f FALLBACK_FEATURES ->
  reachable FALLBACK_FEATURES sel ->
  includes sel (name f) = false ->
  let next := toggleFeature FALLBACK_FEATURES sel (name f) in
  click FALLBACK_FEATURES sel f = next
  /\ (forall x, In x sel -> In x next)
  /\ In (name f) next
  /\ (forall d, In d (depends_on f) -> In d next)
  /\ (forall d, requires FALLBACK_FEATURES (name f) d -> In d next)
  /\ closed FALLBACK_FEATURES next
  /\ (forall s d, In s next -> requires FALLBACK_FEATURES s d -> In d next)
  /\ reachable FALLBACK_FEATURES next.
Proof.
  intros Hf R E next.
  assert (M := fun x => toggleFeature_select_In FALLBACK_FEATURES sel (name f) x E).
  fold next in M.
  assert (K : click FALLBACK_FEATURES sel f = next) by now apply click_unselected.
  assert (C : closed FALLBACK_FEATURES next).
  { apply select_keeps_closed;
      [apply fallback_flat | assumption | now apply reachable_closed]. }
  split; [exact K|]. split; [|split; [|split; [|split; [|split; [exact C|split]]]]].
  - intros x Hx. apply M. now left.
  - apply M. now right; left.
  - intros d Hd. apply M. right; right. now rewrite deps_of_fallback_member.
  - intros d Q. apply M. right.
    destruct (requires_flat _ _ _ fallback_flat Q); [now left | now right].
  - intros s d Hs Q. now apply (closed_requires FALLBACK_FEATURES next s d).
  - rewrite <- K. now apply reachable_click.
Qed.

Lemma select_adds_dependencies_witness :
  In Examples.value_preservation FALLBACK_FEATURES /\
  reachable FALLBACK_FEATURES ["timelock"] /\
  includes ["timelock"] "value-preservation" = false /\
  In "datum-continuity"
     (toggleFeature FALLBACK_FEATURES ["timelock"] "value-preservation") /\
  closed FALLBACK_FEATURES
     (toggleFeature FALLBACK_FEATURES ["timelock"] "value-preservation").
Proof.
  assert (H : In Examples.value_preservation FALLBACK_FEATURES)
    by (cbn; tauto).
  assert (T : In Examples.timelock FALLBACK_FEATURES) by (cbn; tauto).
  assert (R : reachable FALLBACK_FEATURES ["timelock"])
    by exact (reachable_click FALLBACK_FEATURES [] Examples.timelock
                (reachable_init FALLBACK_FEATURES) T).
  split; [exact H|]. split; [exact R|]. split; [reflexivity|].
  pose proof (select_adds_dependencies Examples.value_preservation
                ["timelock"] H R eq_refl) as S.
  cbv zeta in S.
  split.
  - apply (proj1 (proj2 (proj2 (proj2 S)))). cbn. tauto.
  - exact (proj1 (proj2 (proj2 (proj2 (proj2 (proj2 S)))))).
Defined.

(** The restriction to the selections of the component matters:
    [toggleFeature] adds to the selection it is given and does not repair it.
    A selection that lacks a dependency of one of its members, which no
    sequence of clicks produces, keeps lacking it. *)
Lemma toggleFeature_does_not_repair :
  ~ reachable FALLBACK_FEATURES ["value-preservation"]
  /\ toggleFeature FALLBACK_FEATURES ["value-preservation"] "timelock"
     = ["value-preservation"; "timelock"]
  /\ ~ closed FALLBACK_FEATURES
         (toggleFeature FALLBACK_FEATURES ["value-preservation"] "timelock").
Proof.
  split; [|split; [reflexivity|]].
  - intros R. apply reachable_closed in R.
    specialize (R "value-preservation" "datum-continuity").
    cbn in R. destruct R as [R|[]]; try tauto. discriminate R.
  - intros C. specialize (C "value-preservation" "datum-continuity").
    cbn in C. destruct C as [C|[C|[]]]; try discriminate C; tauto.
Qed.




End SelectionFacts.

(** ** The wizard page *)

Section WizardFacts.
Import Wasm Wizard.

Lemma filter_all_true {A} (p : A -> bool) l :
  Forall (fun x => p x = true) l -> List.filter p l = l.
Proof.
  induction 1 as [|x l Hx _ IH]; simpl; [reflexivity|]. now rewrite Hx, IH.
Qed.

Lemma filter_all_false {A} (p : A -> bool) l :
  Forall (fun x => p x = false) l -> List.filter p l = [].
Proof.
  induction 1 as [|x l Hx _ IH]; simpl; [reflexivity|]. now rewrite Hx.
Qed.

Lemma field_literal_length f : 0 < String.length (field_literal f).
Proof.
  unfold field_literal. rewrite string_length_append. simpl. lia.
Qed.

Lemma join_length_pos sep p ps :
  0 < String.length p -> 0 < String.length (Js.join sep (p :: ps)).
Proof.
  intros H. simpl. destruct ps; [assumption|].
  rewrite string_length_append. lia.
Qed.

(** One action, as the callback of [map] renders it. *)
Lemma serialize_action (a : ActionSpec) :
  match fields a with
  | [] => action_name a
  | _ =>
      let fieldStr :=
        Js.join ","
          (map field_literal
             (List.filter (fun f => non_blank (field_name f)) (fields a))) in
      if 0 <? String.length fieldStr
      then action_name a +:+ "(" +:+ fieldStr +:+ ")"
      else action_name a
  end
  = action_literal (mkAction (action_name a) (named_fields (fields a))).
Proof.
  unfold action_literal, named_fields, field_list_literal. cbn [fields action_name].
  destruct (fields a) as [|f fs] eqn:E; [reflexivity|].
  destruct (List.filter _ (f :: fs)) as [|g gs] eqn:F; [reflexivity|].
  cbn zeta.
  pose proof (join_length_pos "," (field_literal g) (map field_literal gs)
                (field_literal_length g)) as L.
  apply Nat.ltb_lt in L. cbn [map]. now rewrite L.
Qed.

Lemma serializeRedeemerActions_refines actions :
  serializeRedeemerActions actions = action_list_literal (named_actions actions).
Proof.
  unfold serializeRedeemerActions, action_list_literal, named_actions.
  rewrite map_map. f_equal. apply map_ext. intros a. apply serialize_action.
Qed.

(** C8: on fields whose names are not blank, [serializeDatumFields] is the
    comma-joined [name:Type] list of the fields, in order; and
    [serializeRedeemerActions] writes the action list of the grammar for the
    named actions, an action without named fields being written as its bare
    name. *)
Theorem serializers_follow_grammar (fs : list FieldSpec) (actions : list ActionSpec) :
  (Forall (fun f => non_blank (field_name f) = true) fs ->
   serializeDatumFields fs = field_list_literal fs)
  /\ serializeRedeemerActions actions = action_list_literal (named_actions actions)
  /\ Forall
       (fun a =>
          Forall (fun f => non_blank (field_name f) = false) (fields a) ->
          action_literal (mkAction (action_name a) (named_fields (fields a)))
          = action_name a)
       actions.
Proof.
  split; [|split].
  - intros H. unfold serializeDatumFields, field_list_literal.
    now rewrite filter_all_true.
  - apply serializeRedeemerActions_refines.
  - apply Forall_forall. intros a _ H.
    unfold action_literal, named_fields. cbn [fields action_name].
    now rewrite filter_all_false.
Qed.

Lemma serializers_follow_grammar_witness :
  Forall (fun f => non_blank (field_name f) = true)
    [mkField "admin" "ByteArray"; mkField "amount" "Int"]
  /\ serializeDatumFields [mkField "admin" "ByteArray"; mkField "amount" "Int"]
     = "admin:ByteArray,amount:Int"
  /\ serializeRedeemerActions
       [mkAction "Claim" []; mkAction "Cancel" [mkField "reason" "ByteArray"];
        mkAction "Close" [mkField "  " "Int"]]
     = "Claim,Cancel(reason:ByteArray),Close".
Proof.
  assert (H : Forall (fun f => non_blank (field_name f) = true)
                [mkField "admin" "ByteArray"; mkField "amount" "Int"])
    by (repeat constructor).
  split; [exact H|]. split.
  - rewrite (proj1 (serializers_follow_grammar
                      [mkField "admin" "ByteArray"; mkField "amount" "Int"] []) H).
    reflexivity.
  - reflexivity.
Defined.

(** *** SDK gating *)

Section Gating.

Variable JSON_stringify : gmap string JsValue -> string.
Variable JSON_parse_files : string -> Outcome (list GeneratedFile).
Variable JSON_parse_validation : string -> Outcome ValidationResult.
Variable env : Env.
Variable templates : list TemplateInfo.

Lemma regenerate_try_unsupported cfg w ld :
  templateSupportsSdk templates (template cfg) = false ->
  let r := regenerate_try JSON_stringify JSON_parse_files JSON_parse_validation env
             templates cfg w ld in
  error (fst (fst r)) = error w /\
  match snd (fst r) with
  | None => sdkFiles (fst (fst r)) = []
  | Some _ => sdkFiles (fst (fst r)) = sdkFiles w
  end.
Proof.
  intros U. unfold regenerate_try. rewrite U, andb_false_r.
  assert (G : forall ld1,
    let r := match generate JSON_stringify JSON_parse_files env ld1 (build_options cfg) with
             | (Throw e, ld2) => (w, Some e, ld2)
             | (Ok generated, ld2) =>
                 (setSdkFiles []
                    match generated with
                    | [] => setFiles generated w
                    | first :: _ =>
                        if String.eqb (activeFile w) ""
                        then match find (fun f => Js.startsWith "validators/" (path f)) generated with
                             | Some validator => setActiveFile (path validator) (setFiles generated w)
                             | None => setActiveFile (path first) (setFiles generated w)
                             end
                        else setFiles generated w
                    end, None, ld2)
             end in
    error (fst (fst r)) = error w /\
    match snd (fst r) with
    | None => sdkFiles (fst (fst r)) = []
    | Some _ => sdkFiles (fst (fst r)) = sdkFiles w
    end).
  { intros ld1. cbn zeta.
    destruct (generate _ _ _ _ _) as [[g|e] ld2]; [|split; reflexivity].
    split; [|reflexivity]. cbn [fst snd].
    destruct g as [|first g]; [reflexivity|].
    destruct (String.eqb (activeFile w) ""); [|reflexivity].
    destruct (find _ _); reflexivity. }
  destruct (strict_eq _ _).
  - destruct (validateCustom _ _ _ _ _) as [[v|e] ld1]; [|split; reflexivity].
    destruct (valid v); [|split; reflexivity].
    apply G.
  - apply G.
Qed.

Lemma regenerate_ignores_flag_when_unsupported cfg w ld v :
  templateSupportsSdk templates (template cfg) = false ->
  regenerate JSON_stringify JSON_parse_files JSON_parse_validation env templates
    (set_generate_sdk v cfg) w ld
  = regenerate JSON_stringify JSON_parse_files JSON_parse_validation env templates
      (set_generate_sdk None cfg) w ld.
Proof.
  intros U. unfold regenerate, regenerate_try. cbn [template set_generate_sdk generate_sdk].
  rewrite U, !andb_false_r. reflexivity.
Qed.

Lemma regenerate_unsupported cfg w ld :
  templateSupportsSdk templates (template cfg) = false ->
  let w' := fst (regenerate JSON_stringify JSON_parse_files JSON_parse_validation env
                   templates cfg w ld) in
  (error w' = None -> sdkFiles w' = [])
  /\ (error w' <> None -> sdkFiles w' = sdkFiles w).
Proof.
  intros U. cbn zeta. unfold regenerate.
  pose proof (regenerate_try_unsupported cfg (setError None (setLoading true w)) ld U) as T.
  cbn zeta in T.
  destruct T as [Te T].
  destruct (regenerate_try _ _ _ _ _ _ _ _) as [[w1 [e|]] ld1]; cbn in *.
  - split; [discriminate | intros _; exact T].
  - split; [intros _; exact T | congruence].
Qed.

Lemma sdk_flag_effect_resets config :
  templateSupportsSdk templates (template config) = false ->
  flag (generate_sdk (sdk_flag_effect templates config)) = false.
Proof.
  intros U. unfold sdk_flag_effect. rewrite U. cbn [negb]. rewrite andb_true_r.
  destruct (flag (generate_sdk config)) eqn:F; [reflexivity | assumption].
Qed.

End Gating.

Lemma fallback_sdk_support :
  Forall (fun s => templateSupportsSdk listTemplatesFallback s = false
                   /\ inferSdkSupport s = false) sdk_unsupported_slugs
  /\ Forall (fun s => templateSupportsSdk listTemplatesFallback s = true)
       [ "mint"; "vesting"; "escrow"; "treasury"; "marketplace"; "staking";
         "oracle"; "referral" ].
Proof. split; repeat constructor. Qed.

(** C5, as the code has it: when the template does not support the SDK (in
    the fallback catalogue: dex, lending, governance, streaming and custom),
    [regenerate] never asks for SDK files, whatever the [generate_sdk] flag
    says; a run that ends without an error leaves the SDK file list empty, a
    run that ends with an error leaves the list as it was; and the effect on
    the flag switches [generate_sdk] off. *)
Theorem regenerate_sdk_gating
    (JSON_stringify : gmap string JsValue -> string)
    (JSON_parse_files : string -> Outcome (list GeneratedFile))
    (JSON_parse_validation : string -> Outcome ValidationResult)
    (env : Env) (templates : list TemplateInfo)
    (cfg : WizardConfig) (w : State) (ld : Loader) :
  templateSupportsSdk templates (template cfg) = false ->
  let run := regenerate JSON_stringify JSON_parse_files JSON_parse_validation env templates in
  let w' := fst (run cfg w ld) in
  (error w' = None -> sdkFiles w' = [])
  /\ (error w' <> None -> sdkFiles w' = sdkFiles w)
  /\ (forall v, run (set_generate_sdk v cfg) w ld = run (set_generate_sdk None cfg) w ld)
  /\ flag (generate_sdk (sdk_flag_effect templates cfg)) = false
  /\ Forall (fun s => templateSupportsSdk listTemplatesFallback s = false)
       sdk_unsupported_slugs.
Proof.
  intros U run w'.
  destruct (regenerate_unsupported JSON_stringify JSON_parse_files JSON_parse_validation
              env templates cfg w ld U) as [A B].
  split; [exact A|]. split; [exact B|]. split.
  - intros v. now apply regenerate_ignores_flag_when_unsupported.
  - split; [now apply sdk_flag_effect_resets|].
    repeat constructor.
Qed.

Lemma regenerate_sdk_gating_witness :
  templateSupportsSdk listTemplatesFallback "dex" = false /\
  sdkFiles
    (fst (regenerate Examples.toy_stringify Examples.toy_parse_files
            Examples.toy_parse_validation Examples.toy_env listTemplatesFallback
            (mkConfig "dex" "myorg" "my_token" None None None None None None None (Some true))
            initial_state initial_loader)) = [].
Proof.
  split; [reflexivity|].
  apply (proj1 (regenerate_sdk_gating Examples.toy_stringify Examples.toy_parse_files
                  Examples.toy_parse_validation Examples.toy_env listTemplatesFallback
                  (mkConfig "dex" "myorg" "my_token" None None None None None None None
                     (Some true))
                  initial_state initial_loader eq_refl)).
  reflexivity.
Defined.

(** C5 fails as stated: generation for the unsupported template [dex] ends in
    an error, and the SDK files of the previous template stay in the list. *)
Lemma regenerate_keeps_stale_sdk_files :
  templateSupportsSdk listTemplatesFallback (template Examples.dex_without_namespace) = false
  /\ sdkFiles (fst Examples.after_mint)
     = [mkFile "sdk/client.ts" "export class MintClient {}"]
  /\ error (fst Examples.after_dex) = Some "namespace must not be empty"
  /\ sdkFiles (fst Examples.after_dex)
     = [mkFile "sdk/client.ts" "export class MintClient {}"]
  /\ sdkFiles (fst Examples.after_dex) <> [].
Proof. repeat split; try reflexivity. discriminate. Qed.

End WizardFacts.

(** ** The file tree *)

Section TreeFacts.
Import Wasm FileTree.

Lemma TreeNode_rect_forest (P : TreeNode -> Prop) :
  (forall name full p children, Forall P children -> P (Node name full p children)) ->
  forall n, P n.
Proof.
  intros H. fix IH 1. intros [name full p children]. apply H.
  induction children as [|c cs IHcs]; constructor; [apply IH | exact IHcs].
Qed.

Lemma join_cons_char sep c seg segs :
  Js.join sep (String c seg :: segs) = String c (Js.join sep (seg :: segs)).
Proof. destruct segs; reflexivity. Qed.

(** [split] loses nothing: joining the segments gives the path back. *)
Lemma join_split s : Js.join "/" (Js.split_on "/" s) = s.
Proof.
  induction s as [|c s IH]; [reflexivity|].
  cbn [Js.split_on].
  pose proof (split_on_nonempty "/" s) as N.
  destruct (Js.split_on "/" s) as [|seg segs] eqn:E; [contradiction|].
  destruct (Ascii.eqb c "/") eqn:C.
  - apply Ascii.eqb_eq in C. subst c.
    change (Js.join "/" ("" :: seg :: segs)) with (String "/" (Js.join "/" (seg :: segs))).
    now rewrite IH.
  - now rewrite join_cons_char, IH.
Qed.

Lemma split_on_inj p q : Js.split_on "/" p = Js.split_on "/" q -> p = q.
Proof. intros E. rewrite <- (join_split p), <- (join_split q). now rewrite E. Qed.

(** *** One step of the walk *)

Lemma step_into_cases name acc lp k current :
  (exists before n after,
      current = before ++ n :: after
      /\ find_node name current = Some n
      /\ step_into name acc lp k current
         = before ++ with_children n (k (node_children n)) :: after)
  \/ (find_node name current = None
      /\ step_into name acc lp k current = current ++ [Node name acc lp (k [])]).
Proof.
  unfold find_node.
  induction current as [|m ms IH]; simpl.
  - right. split; reflexivity.
  - destruct (String.eqb (node_name m) name) eqn:E.
    + left. exists [], m, ms. repeat split.
    + destruct IH as [(before & n & after & -> & F & S)|[F S]].
      * left. exists (m :: before), n, after. rewrite S. repeat split. exact F.
      * right. rewrite S. split; [exact F | reflexivity].
Qed.

Lemma find_node_name name current n :
  find_node name current = Some n -> In n current /\ node_name n = name.
Proof.
  unfold find_node. intros H. apply find_some in H as [H E].
  apply String.eqb_eq in E. now split.
Qed.

Lemma all_nodes_app a b : all_nodes (a ++ b) = all_nodes a ++ all_nodes b.
Proof. apply flat_map_app. Qed.

Lemma all_nodes_cons n rest :
  all_nodes (n :: rest) = n :: all_nodes (node_children n) ++ all_nodes rest.
Proof. destruct n. reflexivity. Qed.

Lemma node_paths_app a b : node_paths (a ++ b) = node_paths a ++ node_paths b.
Proof. unfold node_paths. now rewrite all_nodes_app, flat_map_app. Qed.

Lemma node_paths_cons n rest :
  node_paths (n :: rest) = path_list n ++ node_paths (node_children n) ++ node_paths rest.
Proof.
  unfold node_paths. rewrite all_nodes_cons. cbn [flat_map].
  now rewrite flat_map_app.
Qed.

Lemma entries_app a b : entries (a ++ b) = entries a ++ entries b.
Proof. apply flat_map_app. Qed.

Lemma entries_cons n rest :
  entries (n :: rest)
  = ([node_name n], node_path n)
      :: map (fun e => (node_name n :: fst e, snd e)) (entries (node_children n))
      ++ entries rest.
Proof. destruct n. reflexivity. Qed.

Lemma insert_parts_nonempty p name rest acc current :
  insert_parts p (name :: rest) acc current <> [].
Proof.
  cbn [insert_parts].
  destruct (step_into_cases name
              (if negb (String.eqb acc "") then acc +:+ "/" +:+ name else name)
              (if match rest with [] => true | _ => false end then Some p else None)
              (insert_parts p rest
                 (if negb (String.eqb acc "") then acc +:+ "/" +:+ name else name))
              current) as [(before & n & after & _ & _ & ->)|[_ ->]];
    now destruct before || now destruct current.
Qed.

(** When the walk fits, the loop adds one [path] and keeps the others. *)
Lemma insert_parts_paths p parts : forall acc current,
  fits parts current = true ->
  Permutation (node_paths (insert_parts p parts acc current)) (p :: node_paths current).
Proof.
  induction parts as [|name rest IH]; intros acc current H; [discriminate|].
  cbn [insert_parts fits] in *.
  set (acc' := if negb (String.eqb acc "") then acc +:+ "/" +:+ name else name).
  destruct (step_into_cases name acc'
              (if match rest with [] => true | _ => false end then Some p else None)
              (insert_parts p rest acc') current)
    as [(before & n & after & -> & F & ->)|[F ->]]; rewrite F in H.
  - destruct (node_path n) eqn:P; [discriminate|].
    destruct rest as [|r rs]; [discriminate|].
    rewrite !node_paths_app, !node_paths_cons.
    cbn [node_children with_children]. unfold path_list. cbn [node_path with_children].
    rewrite P. cbn [app].
    rewrite (IH acc' (node_children n) H).
    cbn [app]. symmetry. apply Permutation_middle.
  - rewrite node_paths_app, node_paths_cons. cbn [node_children node_paths all_nodes flat_map].
    rewrite app_nil_r.
    destruct rest as [|r rs].
    + cbn [insert_parts]. unfold path_list. cbn.
      symmetry. apply Permutation_cons_append.
    + unfold path_list. cbn [node_path app].
      change (flat_map (fun n => match node_path n with Some p0 => [p0] | None => [] end)
                (flat_map nodes_of (insert_parts p (r :: rs) acc' [])))
        with (node_paths (insert_parts p (r :: rs) acc' [])).
      rewrite (IH acc' [] eq_refl). cbn [node_paths all_nodes flat_map].
      symmetry. apply Permutation_cons_append.
Qed.

Lemma forallb_wf_app a b :
  forallb wf_node (a ++ b) = forallb wf_node a && forallb wf_node b.
Proof. apply forallb_app. Qed.

(** When the walk fits, files stay files and folders stay folders. *)
Lemma insert_parts_wf p parts : forall acc current,
  forallb wf_node current = true -> fits parts current = true ->
  forallb wf_node (insert_parts p parts acc current) = true.
Proof.
  induction parts as [|name rest IH]; intros acc current W H; [discriminate|].
  cbn [insert_parts fits] in *.
  set (acc' := if negb (String.eqb acc "") then acc +:+ "/" +:+ name else name).
  destruct (step_into_cases name acc'
              (if match rest with [] => true | _ => false end then Some p else None)
              (insert_parts p rest acc') current)
    as [(before & n & after & -> & F & ->)|[F ->]]; rewrite F in H.
  - destruct (node_path n) eqn:P; [discriminate|].
    destruct rest as [|r rs]; [discriminate|].
    rewrite forallb_wf_app in *. cbn [forallb] in *.
    apply andb_true_iff in W as [W1 W2]. apply andb_true_iff in W2 as [Wn W2].
    rewrite W1, W2, andb_true_r. cbn [andb].
    destruct n as [x full q children]. cbn in P. subst q.
    cbn [with_children node_name node_fullPath node_path node_children wf_node] in *.
    pose proof (insert_parts_nonempty p r rs acc' children) as N.
    destruct children as [|c cs]; [discriminate|].
    specialize (IH acc' (c :: cs) Wn H).
    destruct (insert_parts p (r :: rs) acc' (c :: cs)); [contradiction | exact IH].
  - rewrite forallb_wf_app, W. cbn [forallb andb]. rewrite andb_true_r.
    destruct rest as [|r rs]; [reflexivity|].
    cbn [wf_node].
    pose proof (insert_parts_nonempty p r rs acc' []) as N.
    specialize (IH acc' [] eq_refl eq_refl).
    destruct (insert_parts p (r :: rs) acc' []); [contradiction | exact IH].
Qed.

Lemma is_prefix_cons x a b : is_prefix (x :: a) (x :: b) = is_prefix a b.
Proof. cbn [is_prefix]. now rewrite String.eqb_refl. Qed.

Lemma proper_prefix_cons x a b :
  proper_prefix (x :: a) (x :: b) = proper_prefix a b.
Proof. unfold proper_prefix. cbn. now rewrite String.eqb_refl. Qed.

(** The nodes after an insertion: the old ones, new folders along [parts]
    and a new file at [parts]. *)
Lemma insert_parts_entries p parts : forall acc current e,
  In e (entries (insert_parts p parts acc current)) ->
  In e (entries current)
  \/ (snd e = None /\ proper_prefix (fst e) parts = true)
  \/ e = (parts, Some p).
Proof.
  induction parts as [|name rest IH]; intros acc current e H; [now left|].
  cbn [insert_parts] in H.
  set (acc' := if negb (String.eqb acc "") then acc +:+ "/" +:+ name else name) in *.
  assert (Sub : forall children c o,
            In (c, o) (entries (insert_parts p rest acc' children)) ->
            In (c, o) (entries children)
            \/ (o = None /\ proper_prefix (name :: c) (name :: rest) = true)
            \/ (name :: c, o) = (name :: rest, Some p)).
  { intros children c o Hc. destruct (IH acc' children (c, o) Hc) as [A|[[A1 A2]|A]].
    - now left.
    - right; left. cbn in *. now rewrite proper_prefix_cons.
    - right; right. now injection A as -> ->. }
  destruct (step_into_cases name acc'
              (if match rest with [] => true | _ => false end then Some p else None)
              (insert_parts p rest acc') current)
    as [(before & n & after & -> & F & S)|[F S]]; rewrite S in H; clear S.
  - apply find_node_name in F as [_ Nn].
    rewrite entries_app, entries_cons in H. rewrite entries_app, entries_cons.
    cbn [with_children node_name node_path node_children] in H.
    rewrite !in_app_iff in *. cbn [In] in *. rewrite !in_app_iff in *.
    destruct H as [H|[H|[H|H]]]; try tauto.
    apply in_map_iff in H as ([c o] & <- & Hc). cbn [fst snd].
    destruct (Sub _ _ _ Hc) as [A|[A|A]].
    + left. right. right. left. apply in_map_iff. now exists (c, o).
    + right. left. now rewrite Nn.
    + right. right. now rewrite Nn.
  - rewrite entries_app, entries_cons in H.
    cbn [node_name node_path node_children entries flat_map] in H.
    rewrite app_nil_r in H.
    rewrite in_app_iff in H. cbn [In] in H.
    destruct H as [H|[H|H]]; [now left| |].
    + subst e. destruct rest as [|r rs]; [now right; right|].
      right; left. split; [reflexivity|]. cbn [fst]. now rewrite proper_prefix_cons.
    + apply in_map_iff in H as ([c o] & <- & Hc). cbn [fst snd].
      destruct (Sub _ _ _ Hc) as [[]|[A|A]]; [now right; left | now right; right].
Qed.

Lemma entries_member n current :
  In n current -> In ([node_name n], node_path n) (entries current).
Proof.
  intros H. unfold entries. apply in_flat_map. exists n. split; [assumption|].
  destruct n. now left.
Qed.

Lemma entries_below n current c o :
  In n current -> In (c, o) (entries (node_children n)) ->
  In (node_name n :: c, o) (entries current).
Proof.
  intros H Hc. unfold entries. apply in_flat_map. exists n. split; [assumption|].
  destruct n as [x full q children]. right. apply in_map_iff. now exists (c, o).
Qed.

(** When the walk does not fit, it runs into a node with a [path] or ends on
    a node without one. *)
Lemma not_fits parts : forall current,
  parts <> [] -> fits parts current = false ->
  exists c o, In (c, o) (entries current)
              /\ ((o <> None /\ is_prefix c parts = true) \/ (o = None /\ c = parts)).
Proof.
  induction parts as [|name rest IH]; intros current N H; [contradiction|].
  cbn [fits] in H.
  destruct (find_node name current) as [n|] eqn:F; [|discriminate].
  apply find_node_name in F as [Hn <-].
  destruct (node_path n) as [q|] eqn:P.
  - exists [node_name n], (Some q). split.
    + rewrite <- P. now apply entries_member.
    + left. split; [discriminate|]. now rewrite is_prefix_cons.
  - destruct rest as [|r rs].
    + exists [node_name n], None. split; [|now right].
      rewrite <- P. now apply entries_member.
    + destruct (IH (node_children n) ltac:(discriminate) H) as (c & o & Hc & Ho).
      exists (node_name n :: c), o. split; [now apply entries_below|].
      destruct Ho as [[Ho Hp]|[Ho ->]]; [left|now right].
      split; [assumption|]. now rewrite is_prefix_cons.
Qed.

Lemma is_prefix_cases a : forall b,
  is_prefix a b = true -> a = b \/ proper_prefix a b = true.
Proof.
  unfold proper_prefix.
  induction a as [|x a IH]; intros [|y b] H; cbn in *; try discriminate; auto.
  apply andb_true_iff in H as [E H]. apply String.eqb_eq in E. subst y.
  rewrite String.eqb_refl. destruct (IH b H) as [->|P]; [now left|right].
  apply andb_true_iff in P as [P1 P2]. now rewrite P1.
Qed.

(** One more file, unrelated to the ones already in the tree. *)
Lemma tree_inv_step done forest file :
  tree_inv done forest ->
  (forall q, In q done ->
     q <> path file /\ folder_of (path file) q = false /\ folder_of q (path file) = false) ->
  tree_inv (done ++ [path file]) (insert_file forest file).
Proof.
  intros (W & P & E) Fresh. unfold insert_file.
  set (p := path file) in *. set (parts := Js.split_on "/" p).
  assert (Fit : fits parts forest = true).
  { destruct (fits parts forest) eqn:Fit; [reflexivity|exfalso].
    destruct (not_fits parts forest (split_on_nonempty "/" p) Fit)
      as (c & o & Hc & [[Ho Hp]|[-> ->]]); specialize (E _ _ Hc).
    - destruct o as [q|]; [|contradiction]. destruct E as [Hq ->].
      destruct (Fresh q Hq) as (Nq & _ & Fq).
      destruct (is_prefix_cases _ _ Hp) as [Eq|Pr].
      + apply split_on_inj in Eq. contradiction.
      + unfold folder_of in Fq. fold parts in Fq. congruence.
    - destruct E as (q & Hq & Pr).
      destruct (Fresh q Hq) as (_ & Fq & _). unfold folder_of in Fq.
      fold parts in Fq. congruence. }
  split; [|split].
  - now apply insert_parts_wf.
  - rewrite (insert_parts_paths p parts "" forest Fit), P.
    apply Permutation_cons_append.
  - intros c o Hc.
    destruct (insert_parts_entries p parts "" forest (c, o) Hc) as [A|[[A1 A2]|A]].
    + specialize (E _ _ A). destruct o as [q|].
      * destruct E as [Hq ->]. split; [|reflexivity]. apply in_app_iff. now left.
      * destruct E as (q & Hq & Pr). exists q. split; [|assumption].
        apply in_app_iff. now left.
    + cbn in A1, A2. subst o. exists p. split; [|assumption].
      apply in_app_iff. right. now left.
    + injection A as -> ->. split; [|reflexivity]. apply in_app_iff. right. now left.
Qed.

Lemma tree_inv_fold files : forall done forest,
  tree_inv done forest ->
  List.NoDup (done ++ map path files) ->
  (forall p q, In p (done ++ map path files) -> In q (done ++ map path files) ->
               folder_of p q = false) ->
  tree_inv (done ++ map path files) (fold_left insert_file files forest).
Proof.
  induction files as [|file files IH]; intros done forest I N L; cbn [map fold_left].
  - now rewrite app_nil_r.
  - cbn [map] in N, L.
    replace (done ++ path file :: map path files)
      with ((done ++ [path file]) ++ map path files) in *
      by (now rewrite <- app_assoc).
    apply IH; [|assumption|assumption].
    apply tree_inv_step; [assumption|].
    intros q Hq.
    assert (Iq : In q ((done ++ [path file]) ++ map path files))
      by (apply in_app_iff; left; apply in_app_iff; now left).
    assert (Ip : In (path file) ((done ++ [path file]) ++ map path files))
      by (apply in_app_iff; left; apply in_app_iff; right; now left).
    split; [|split; now apply L].
    intros ->. rewrite <- app_assoc in N. cbn [app] in N.
    apply List.NoDup_remove_2 in N. apply N. apply in_app_iff. now left.
Qed.

Lemma tree_inv_empty : tree_inv [] [].
Proof. split; [reflexivity|]. split; [constructor|]. intros c o []. Qed.

Lemma buildTree_inv files :
  NoDup (map path files) -> layout_consistent files ->
  tree_inv (map path files) (buildTree files).
Proof.
  intros N L. apply NoDup_ListNoDup in N.
  apply (tree_inv_fold files [] [] tree_inv_empty N).
  cbn [app]. intros p q Hp Hq.
  apply in_map_iff in Hp as (f & <- & Hf). apply in_map_iff in Hq as (g & <- & Hg).
  now apply L.
Qed.

(** *** Folders of a well-formed tree *)

Lemma collect_forest children :
  Forall (fun c => wf_node c = true ->
                   collectFolderPaths_node c
                   = map node_fullPath (List.filter is_folder (nodes_of c))) children ->
  forallb wf_node children = true ->
  flat_map collectFolderPaths_node children
  = map node_fullPath (List.filter is_folder (flat_map nodes_of children)).
Proof.
  induction 1 as [|c cs Hc _ IH]; intros W; [reflexivity|].
  cbn [forallb] in W. apply andb_true_iff in W as [Wc Ws].
  cbn [flat_map]. rewrite List.filter_app, map_app, (Hc Wc), (IH Ws). reflexivity.
Qed.

Lemma collect_node n :
  wf_node n = true ->
  collectFolderPaths_node n = map node_fullPath (List.filter is_folder (nodes_of n)).
Proof.
  induction n as [x full p children IH] using TreeNode_rect_forest. intros W.
  destruct p as [q|]; cbn [wf_node] in W.
  - destruct children; [|discriminate].
    cbn. now destruct (String.eqb q "").
  - destruct children as [|c cs]; [discriminate|].
    change (collectFolderPaths_node (Node x full None (c :: cs)))
      with (full :: flat_map collectFolderPaths_node (c :: cs)).
    change (map node_fullPath (List.filter is_folder (nodes_of (Node x full None (c :: cs)))))
      with (full :: map node_fullPath
                      (List.filter is_folder (flat_map nodes_of (c :: cs)))).
    f_equal. now apply collect_forest.
Qed.

Lemma collectFolderPaths_wf forest :
  forallb wf_node forest = true -> collectFolderPaths forest = folder_paths forest.
Proof.
  intros W. unfold collectFolderPaths, folder_paths, all_nodes.
  apply collect_forest; [|assumption].
  apply Forall_forall. intros n _. apply collect_node.
Qed.

Lemma file_nodes_count (nodes : list TreeNode) p :
  length (List.filter (has_path p) nodes)
  = count_occ string_dec (flat_map path_list nodes) p.
Proof.
  induction nodes as [|n nodes IH]; [reflexivity|].
  cbn [List.filter flat_map].
  replace (has_path p n) with (match node_path n with
                               | Some q => String.eqb q p
                               | None => false
                               end) by reflexivity.
  unfold path_list at 1.
  destruct (node_path n) as [q|]; cbn [app]; [|assumption].
  cbn [count_occ]. destruct (string_dec q p) as [->|Ne].
  - rewrite String.eqb_refl. cbn [length]. now rewrite IH.
  - apply String.eqb_neq in Ne. now rewrite Ne.
Qed.

(** C10, as the code has it: when the paths are pairwise distinct and no
    file is at the same time a folder of another file, the tree holds for each
    file exactly one node whose [path] is the path of the file, it holds no
    other [path], and [collectFolderPaths] lists the full paths of exactly the
    nodes that have children and no [path] (in the order of the tree). *)
Theorem buildTree_files_and_folders (files : list GeneratedFile) :
  NoDup (map path files) ->
  layout_consistent files ->
  let tree := buildTree files in
  (forall f, In f files -> length (file_nodes tree (path f)) = 1)
  /\ Permutation (node_paths tree) (map path files)
  /\ collectFolderPaths tree = folder_paths tree.
Proof.
  intros N L tree.
  destruct (buildTree_inv files N L) as (W & P & _). fold tree in W, P.
  split; [|split; [exact P | now apply collectFolderPaths_wf]].
  intros f Hf. unfold file_nodes. rewrite file_nodes_count.
  fold (node_paths tree).
  rewrite (Permutation_count_occ string_dec) in P. rewrite P.
  apply NoDup_ListNoDup in N.
  apply (proj1 (List.NoDup_count_occ' string_dec (map path files)) N).
  now apply in_map.
Qed.

Lemma buildTree_files_and_folders_witness :
  NoDup (map path Examples.sample_project)
  /\ layout_consistent Examples.sample_project
  /\ collectFolderPaths (buildTree Examples.sample_project)
     = [ "lib"; "lib/myorg"; "lib/myorg/my_token"; "validators" ].
Proof.
  assert (N : NoDup (map path Examples.sample_project)).
  { cbn. repeat apply NoDup_cons_2; [ | | | apply NoDup_nil_2];
      rewrite ?not_elem_of_cons; repeat split; try discriminate; apply not_elem_of_nil. }
  assert (L : layout_consistent Examples.sample_project).
  { intros f g Hf Hg. cbn in Hf, Hg.
    destruct Hf as [<-|[<-|[<-|[]]]]; destruct Hg as [<-|[<-|[<-|[]]]]; reflexivity. }
  split; [exact N|]. split; [exact L|].
  rewrite (proj2 (proj2 (buildTree_files_and_folders Examples.sample_project N L))).
  reflexivity.
Defined.

(** C10 fails as stated: with distinct paths, a file listed after a file
    below it gets no node, and a folder below a file is not collected. *)
Lemma buildTree_drops_file :
  NoDup (map path Examples.file_after_its_folder)
  /\ buildTree Examples.file_after_its_folder
     = [ Node "a" "a" None [ Node "b" "a/b" (Some "a/b") [] ] ]
  /\ file_nodes (buildTree Examples.file_after_its_folder) "a" = []
  /\ NoDup (map path Examples.file_before_its_folder)
  /\ collectFolderPaths (buildTree Examples.file_before_its_folder) = []
  /\ folder_paths (buildTree Examples.file_before_its_folder) = [ "a/b" ].
Proof.
  repeat split; try reflexivity;
    cbn; repeat apply NoDup_cons_2; try apply NoDup_nil_2;
    rewrite ?not_elem_of_cons; repeat split; try discriminate; apply not_elem_of_nil.
Qed.

End TreeFacts.

(** * Further properties of the code *)

(** ** Long and short slugs *)

Section SlugRoundTrip.
Import TemplateIcons Wasm Wizard.

Lemma reverse_alias_short t l :
  assoc t REVERSE_SLUG_ALIASES = Some l ->
  toShortTemplateSlug l = JString t /\ toLongTemplateSlug l = JString l.
Proof.
  intros A. apply assoc_In in A. cbn in A.
  repeat (destruct A as [A|A]; [injection A as <- <-; split; reflexivity|]).
  destruct A.
Qed.

(** X1: whenever [toLongTemplateSlug] yields a string, that long slug
    normalises back to the short slug of the input, and it is a fixed point of
    [toLongTemplateSlug]: the wizard can pass either spelling around. *)
Theorem long_slug_round_trip (s l : string) :
  toLongTemplateSlug s = JString l ->
  toShortTemplateSlug l = toShortTemplateSlug s
  /\ toLongTemplateSlug l = JString l.
Proof.
  unfold toLongTemplateSlug at 1.
  destruct (toShortTemplateSlug_cases s) as [[t Ht]|[Hp K]].
  - rewrite Ht. cbn [js_String]. unfold object_get.
    destruct (assoc t REVERSE_SLUG_ALIASES) as [l'|] eqn:A.
    + cbn [nullish_or]. intros [= <-].
      destruct (reverse_alias_short _ _ A) as [S L]. now rewrite S.
    + destruct (existsb (String.eqb t) Object_prototype_keys) eqn:E;
        cbn [nullish_or]; [discriminate|].
      intros [= <-]. pose proof (toShortTemplateSlug_string_idem _ _ Ht) as I.
      split; [assumption|].
      unfold toLongTemplateSlug. rewrite I. cbn [js_String]. unfold object_get.
      now rewrite A, E.
  - rewrite Hp. destruct K as [K|K]; rewrite K; cbn; discriminate.
Qed.

Lemma long_slug_round_trip_witness :
  toLongTemplateSlug "Staking" = JString "staking_pool"
  /\ toShortTemplateSlug "staking_pool" = toShortTemplateSlug "Staking".
Proof.
  split; [reflexivity|].
  exact (proj1 (long_slug_round_trip "Staking" "staking_pool" eq_refl)).
Defined.

Lemma strict_eq_JString a b : strict_eq (JString a) (JString b) = String.eqb a b.
Proof.
  unfold strict_eq. destruct (String.eqb_spec a b) as [->|N].
  - now apply bool_decide_eq_true.
  - apply bool_decide_eq_false. congruence.
Qed.

Lemma strict_eq_JString_JProto a k : strict_eq (JString a) (JProto k) = false.
Proof. unfold strict_eq. now apply bool_decide_eq_false. Qed.

(** The fallback catalogue against a short slug that is no alias source. *)
Lemma fallback_support_of_short n :
  assoc n SLUG_ALIASES = None ->
  match find (fun t => strict_eq (toShortTemplateSlug (slug t)) (JString n))
          listTemplatesFallback with
  | Some t => default false (supports_sdk t)
  | None => false
  end = set_has SDK_SUPPORTED_SLUGS n.
Proof.
  intros A. unfold SLUG_ALIASES in A. cbn [assoc] in A.
  repeat match type of A with
         | context [String.eqb ?c n] =>
             destruct (String.eqb_spec c n) as [E|?]; [cbn in A; discriminate A|]
         end.
  clear A.
  unfold listTemplatesFallback, FALLBACK_TEMPLATES.
  cbn [map normalizeTemplateInfo slug supports_sdk find].
  repeat match goal with
         | |- context [toShortTemplateSlug ?c] =>
             change (toShortTemplateSlug c) with (JString c)
         end.
  rewrite !strict_eq_JString.
  unfold set_has, SDK_SUPPORTED_SLUGS. cbn [existsb].
  repeat match goal with
         | |- context [String.eqb n ?c] => rewrite (String.eqb_sym n c)
         end.
  repeat match goal with
         | |- context [String.eqb ?c n] =>
             destruct (String.eqb_spec c n) as [<-|?]; try congruence
         end; reflexivity.
Qed.

(** X2: for every spelling of a slug, the SDK support the wizard reads from
    the fallback catalogue is the one [inferSdkSupport] infers from the slug:
    the explicit flags of the catalogue and the set of supported slugs agree,
    on short slugs, on long slugs and on slugs of neither kind. *)
Theorem catalogue_agrees_with_inference (s : string) :
  templateSupportsSdk listTemplatesFallback s = inferSdkSupport s.
Proof.
  unfold templateSupportsSdk, inferSdkSupport.
  change (Js.replace_dashes (Js.toLowerCase s)) with (normalizeSlug s).
  unfold toShortTemplateSlug at 2. unfold object_get.
  destruct (assoc (normalizeSlug s) SLUG_ALIASES) as [v|] eqn:A.
  - apply assoc_In in A. cbn in A.
    repeat (destruct A as [A|A]; [injection A as <- <-; reflexivity|]).
    destruct A.
  - destruct (existsb (String.eqb (normalizeSlug s)) Object_prototype_keys) eqn:E;
      cbn [nullish_or].
    + destruct (normalized_inherited_key s E) as [K|K]; rewrite K; reflexivity.
    + now apply fallback_support_of_short.
Qed.

End SlugRoundTrip.

(** ** The loader and the entry points without a core *)

Section LoaderFacts.
Import Wasm Catalogue.

Lemma loads_settled env envs : forall st,
  fold_left (fun st e => loadWasm e st) envs (loadWasm env st) = loadWasm env st.
Proof.
  induction envs as [|e envs IH]; intros st; cbn [fold_left]; [reflexivity|].
  now rewrite loadWasm_settled.
Qed.

(** X3: the import is attempted once. After the first call of any entry
    point the loader is settled for good, whatever later calls find in their
    surroundings: either the core is held and no failure is recorded, or the
    failure is recorded and no core is held. *)
Theorem loader_settles_after_first_call (env : Env) (envs : list Env) :
  let st := fold_left (fun st e => loadWasm e st) (env :: envs) initial_loader in
  st = loadWasm env initial_loader
  /\ (wasm st = None <-> wasmFailed st = true)
  /\ (wasm st = None <-> import_core env = None)
  /\ loading st = true.
Proof.
  cbn zeta. cbn [fold_left]. rewrite loads_settled.
  split; [reflexivity|].
  unfold loadWasm, initial_loader. cbn.
  destruct (import_core env); cbn; repeat split; intros; congruence.
Qed.

Lemma loadWasm_no_core env st :
  import_core env = None -> wasm st = None -> wasm (loadWasm env st) = None.
Proof.
  intros I W. unfold loadWasm. rewrite W, I.
  destruct (wasmFailed st); [assumption|]. now destruct (loading st).
Qed.

(** X4: when no core can be had, the build mode decides everything. Outside
    the development build every entry point throws and hands out no data; in
    the development build each one answers with its fallback: the sample
    project, no SDK files, a failed validation, and the two catalogues. *)
Theorem entry_points_without_core
    (JSON_stringify : gmap string JsValue -> string)
    (JSON_parse_files : string -> Outcome (list GeneratedFile))
    (JSON_parse_validation : string -> Outcome ValidationResult)
    (core_list_templates : KaidoCore -> Outcome string)
    (core_list_features : KaidoCore -> Outcome string)
    (JSON_parse_templates : string -> Outcome (list TemplateInfo))
    (JSON_parse_features : string -> Outcome (list FeatureInfo))
    (env : Env) (st : Loader) (options : gmap string JsValue) :
  import_core env = None -> wasm st = None ->
  let gen := fst (generate JSON_stringify JSON_parse_files env st options) in
  let sdk := fst (generateSdk JSON_stringify JSON_parse_files env st options) in
  let val := fst (validateCustom JSON_stringify JSON_parse_validation env st options) in
  let tpl := fst (listTemplates core_list_templates JSON_parse_templates env st) in
  let fea := fst (listFeatures core_list_features JSON_parse_features env st) in
  (DEV env = false ->
   is_throw gen /\ is_throw sdk /\ is_throw val /\ is_throw tpl /\ is_throw fea)
  /\ (DEV env = true ->
      gen = Ok (generateFallback options) /\ sdk = Ok []
      /\ val = Ok (mkValidation false ["WASM validator unavailable in dev fallback mode."])
      /\ tpl = Ok FALLBACK_TEMPLATES /\ fea = Ok FALLBACK_FEATURES).
Proof.
  intros I W. cbn zeta.
  unfold generate, generateSdk, validateCustom, listTemplates, listFeatures.
  rewrite (loadWasm_no_core env st I W).
  split; intros D; rewrite D; cbn; repeat split.
Qed.

Lemma entry_points_without_core_witness :
  import_core (mkEnv false None) = None /\ wasm initial_loader = None /\
  is_throw (fst (generate (fun _ => "") (fun _ => Ok []) (mkEnv false None)
                   initial_loader Examples.scenario_options)).
Proof.
  split; [reflexivity|]. split; [reflexivity|].
  exact (proj1 (proj1 (entry_points_without_core (fun _ => "") (fun _ => Ok [])
                         (fun _ => Ok (mkValidation true [])) (fun _ => Ok "")
                         (fun _ => Ok "") (fun _ => Ok []) (fun _ => Ok [])
                         (mkEnv false None) initial_loader Examples.scenario_options
                         eq_refl eq_refl) eq_refl)).
Defined.

(** X5: in the development build without a core, [getTemplateInfo] compares
    the slug as it is given: a slug of the catalogue gets its own template,
    every other string (a long alias, another spelling) gets the first
    template of the catalogue, mint; the answer always carries an SDK flag. *)
Theorem getTemplateInfo_fallback
    (core_get_template_info : KaidoCore -> string -> Outcome string)
    (JSON_parse_template : string -> Outcome TemplateInfo)
    (env : Env) (st : Loader) (slug_ : string) :
  DEV env = true -> import_core env = None -> wasm st = None ->
  exists t,
    fst (getTemplateInfo core_get_template_info JSON_parse_template env st slug_) = Ok t
    /\ In t listTemplatesFallback
    /\ supports_sdk t <> None
    /\ (In slug_ (map slug FALLBACK_TEMPLATES) -> slug t = slug_)
    /\ (~ In slug_ (map slug FALLBACK_TEMPLATES) -> slug t = "mint").
Proof.
  intros D I W. unfold getTemplateInfo.
  rewrite (loadWasm_no_core env st I W), D.
  destruct (find (fun t => String.eqb (slug t) slug_) FALLBACK_TEMPLATES) as [t|] eqn:F.
  - apply find_some in F as [Ht E]. apply String.eqb_eq in E.
    exists (normalizeTemplateInfo t). cbn [fst]. split; [reflexivity|].
    split; [now apply in_map|]. split; [discriminate|].
    split; [intros _; exact E|].
    intros N. exfalso. apply N. rewrite <- E. now apply in_map.
  - exists (normalizeTemplateInfo
              (mkTemplate "mint"
                 "CIP-25 minting policy with admin signature and optional time-lock"
                 None (Some true))).
    split; [reflexivity|]. split; [now left|]. split; [discriminate|].
    split; [|reflexivity].
    intros Hin. apply in_map_iff in Hin as (t & E & Ht).
    pose proof (find_none _ _ F t Ht) as X. cbn beta in X.
    rewrite E, String.eqb_refl in X. discriminate X.
Qed.

Lemma getTemplateInfo_fallback_witness :
  DEV (mkEnv true None) = true /\ import_core (mkEnv true None) = None
  /\ wasm initial_loader = None
  /\ exists t,
       fst (getTemplateInfo (fun _ _ => Ok "") (fun _ => Throw "unused")
              (mkEnv true None) initial_loader "dex_pool") = Ok t
       /\ slug t = "mint".
Proof.
  repeat (split; [reflexivity|]).
  destruct (getTemplateInfo_fallback (fun _ _ => Ok "") (fun _ => Throw "unused")
              (mkEnv true None) initial_loader "dex_pool" eq_refl eq_refl eq_refl)
    as (t & E & _ & _ & _ & N).
  exists t. split; [exact E|]. apply N. cbn. intuition discriminate.
Defined.

End LoaderFacts.

(** ** Regeneration *)

Section RegenerateFacts.
Import TemplateIcons Wasm Wizard CodePreview.

Lemma string_append_assoc a b c : (a +:+ b) +:+ c = a +:+ b +:+ c.
Proof.
  induction a as [|x a IH]; [reflexivity|].
  change (String x ((a +:+ b) +:+ c) = String x (a +:+ b +:+ c)).
  now rewrite IH.
Qed.

Lemma build_options_names cfg :
  prop (build_options cfg) "namespace" = JString (namespace cfg)
  /\ prop (build_options cfg) "project_name" = JString (project_name cfg)
  /\ prop (build_options cfg) "template" = toLongTemplateSlug (template cfg).
Proof.
  unfold build_options, prop.
  repeat match goal with
         | |- context [if ?b then _ else _] => destruct b
         end; repeat split; now simplify_map_eq.
Qed.

Lemma build_options_toggles cfg :
  strict_eq (toShortTemplateSlug (template cfg)) (JString "custom") = false ->
  truthy (prop (build_options cfg) "time_lock")
  = strict_eq (toShortTemplateSlug (template cfg)) (JString "mint") && flag (time_lock cfg)
  /\ truthy (prop (build_options cfg) "cancellable")
     = strict_eq (toShortTemplateSlug (template cfg)) (JString "vesting")
       && flag (cancellable cfg).
Proof.
  intros C. unfold build_options, prop. rewrite C.
  repeat match goal with
         | |- context [if ?b then _ else _] => destruct b eqn:?
         end; split; simplify_map_eq; try reflexivity;
    repeat match goal with
           | H : _ && _ = _ |- _ => rewrite H
           | H : strict_eq _ _ = _ |- _ => rewrite H
           | H : flag _ = _ |- _ => rewrite H
           end; try reflexivity; cbn; try (symmetry; assumption).
Qed.

Section DevFallback.

Variable JSON_stringify : gmap string JsValue -> string.
Variable JSON_parse_files : string -> Outcome (list GeneratedFile).
Variable JSON_parse_validation : string -> Outcome ValidationResult.
Variable env : Env.
Variable templates : list TemplateInfo.
Hypothesis dev : DEV env = true.
Hypothesis no_core : import_core env = None.

Lemma dev_generate ld options :
  wasm ld = None ->
  generate JSON_stringify JSON_parse_files env ld options
  = (Ok (generateFallback options), loadWasm env ld).
Proof.
  intros W. unfold generate. now rewrite (loadWasm_no_core env ld no_core W), dev.
Qed.

Lemma dev_generateSdk ld options :
  wasm ld = None ->
  generateSdk JSON_stringify JSON_parse_files env ld options = (Ok [], loadWasm env ld).
Proof.
  intros W. unfold generateSdk. now rewrite (loadWasm_no_core env ld no_core W), dev.
Qed.

Lemma dev_validateCustom ld options :
  wasm ld = None ->
  validateCustom JSON_stringify JSON_parse_validation env ld options
  = (Ok (mkValidation false ["WASM validator unavailable in dev fallback mode."]),
     loadWasm env ld).
Proof.
  intros W. unfold validateCustom. now rewrite (loadWasm_no_core env ld no_core W), dev.
Qed.

Lemma regenerate_dev_plain cfg w ld :
  wasm ld = None ->
  strict_eq (toShortTemplateSlug (template cfg)) (JString "custom") = false ->
  fst (regenerate JSON_stringify JSON_parse_files JSON_parse_validation env templates
         cfg w ld)
  = mkState (generateFallback (build_options cfg)) []
      (if String.eqb (activeFile w) ""
       then "validators/" +:+ project_name cfg +:+ ".ak" else activeFile w)
      None false.
Proof.
  intros W C. unfold regenerate, regenerate_try. rewrite C.
  rewrite (dev_generate ld _ W).
  assert (W1 : wasm (loadWasm env ld) = None) by now apply loadWasm_no_core.
  rewrite (dev_generateSdk _ _ W1).
  destruct (build_options_names cfg) as (Hs & Hn & _).
  unfold generateFallback. rewrite Hs, Hn. cbn [nullish_or js_String].
  cbn [setError setLoading setFiles setSdkFiles setActiveFile files sdkFiles activeFile
       error loading_ fst snd].
  destruct (String.eqb (activeFile w) "") eqn:E;
    destruct (flag (generate_sdk cfg) && templateSupportsSdk templates (template cfg));
    reflexivity.
Qed.

End DevFallback.

(** X6: in the development build without a core, regenerating a template
    other than custom always succeeds: the preview holds the three files of
    the fallback generator for the options built from the configuration, the
    SDK list is empty even when the SDK is requested and supported, and an
    unset active file becomes [validators/<project_name>.ak]. *)
Theorem regenerate_in_dev_fallback
    (JSON_stringify : gmap string JsValue -> string)
    (JSON_parse_files : string -> Outcome (list GeneratedFile))
    (JSON_parse_validation : string -> Outcome ValidationResult)
    (env : Env) (templates : list TemplateInfo)
    (cfg : WizardConfig) (w : State) (ld : Loader) :
  DEV env = true -> import_core env = None -> wasm ld = None ->
  strict_eq (toShortTemplateSlug (template cfg)) (JString "custom") = false ->
  let w' := fst (regenerate JSON_stringify JSON_parse_files JSON_parse_validation env
                   templates cfg w ld) in
  files w' = generateFallback (build_options cfg)
  /\ map path (files w')
     = [ "aiken.toml";
         "lib/" +:+ namespace cfg +:+ "/" +:+ project_name cfg +:+ "/types.ak";
         "validators/" +:+ project_name cfg +:+ ".ak" ]
  /\ sdkFiles w' = []
  /\ error w' = None /\ loading_ w' = false
  /\ activeFile w'
     = (if String.eqb (activeFile w) ""
        then "validators/" +:+ project_name cfg +:+ ".ak" else activeFile w).
Proof.
  intros D I W C. cbn zeta.
  rewrite (regenerate_dev_plain JSON_stringify JSON_parse_files JSON_parse_validation
             env templates D I cfg w ld W C).
  cbn [files sdkFiles error loading_ activeFile].
  repeat split.
  rewrite generateFallback_paths.
  destruct (build_options_names cfg) as (Hs & Hn & _). now rewrite Hs, Hn.
Qed.

Lemma regenerate_in_dev_fallback_witness :
  DEV (mkEnv true None) = true /\ import_core (mkEnv true None) = None
  /\ wasm initial_loader = None
  /\ strict_eq (toShortTemplateSlug (template Examples.mint_with_sdk)) (JString "custom")
     = false
  /\ sdkFiles
       (fst (regenerate (fun _ => "") (fun _ => Ok []) (fun _ => Ok (mkValidation true []))
               (mkEnv true None) listTemplatesFallback Examples.mint_with_sdk
               initial_state initial_loader)) = [].
Proof.
  repeat (split; [reflexivity|]).
  exact (proj1 (proj2 (proj2 (regenerate_in_dev_fallback (fun _ => "") (fun _ => Ok [])
                                (fun _ => Ok (mkValidation true []))
                                (mkEnv true None) listTemplatesFallback
                                Examples.mint_with_sdk initial_state initial_loader
                                eq_refl eq_refl eq_refl eq_refl)))).
Defined.

(** X7: the wizard sends the long slug, and the fallback generator only
    knows the short ones. For the mint template (long slug [simple_mint]) the
    development preview is therefore the generic [Datum]/[Redeemer] module
    and the generic spending validator over these two types, whatever the
    time-lock toggle says. *)
Theorem mint_preview_is_generic_in_dev_fallback
    (JSON_stringify : gmap string JsValue -> string)
    (JSON_parse_files : string -> Outcome (list GeneratedFile))
    (JSON_parse_validation : string -> Outcome ValidationResult)
    (env : Env) (templates : list TemplateInfo)
    (cfg : WizardConfig) (w : State) (ld : Loader) :
  DEV env = true -> import_core env = None -> wasm ld = None ->
  toShortTemplateSlug (template cfg) = JString "mint" ->
  let w' := fst (regenerate JSON_stringify JSON_parse_files JSON_parse_validation env
                   templates cfg w ld) in
  prop (build_options cfg) "template" = JString "simple_mint"
  /\ exists manifest,
       files w'
       = [ mkFile "aiken.toml" manifest;
           mkFile ("lib/" +:+ namespace cfg +:+ "/" +:+ project_name cfg +:+ "/types.ak")
             (unlines
                [ "pub type Datum {";
                  "  admin: ByteArray,";
                  "}";
                  "";
                  "pub type Redeemer {";
                  "  Execute";
                  "}" ]);
           mkFile ("validators/" +:+ project_name cfg +:+ ".ak")
             (unlines
                [ "use cardano/transaction.{Transaction}";
                  "use " +:+ namespace cfg +:+ "/" +:+ project_name cfg
                    +:+ "/types.{Datum, Redeemer}";
                  "";
                  "validator " +:+ project_name cfg +:+ " {";
                  "  spend(datum_opt: Option<Datum>, redeemer: Redeemer, _input: Data, self: Transaction) {";
                  "    expect Some(datum) = datum_opt";
                  "    when redeemer is {";
                  "      Redeemer.Execute -> {";
                  "        list.has(self.extra_signatories, datum.admin)";
                  "      }";
                  "    }";
                  "  }";
                  "";
                  "  else(_) {";
                  "    fail";
                  "  }";
                  "}" ]) ].
Proof.
  intros D I W M. cbn zeta.
  assert (C : strict_eq (toShortTemplateSlug (template cfg)) (JString "custom") = false)
    by now rewrite M.
  rewrite (regenerate_dev_plain JSON_stringify JSON_parse_files JSON_parse_validation
             env templates D I cfg w ld W C).
  cbn [files].
  destruct (build_options_names cfg) as (Hs & Hn & Ht).
  assert (L : toLongTemplateSlug (template cfg) = JString "simple_mint")
    by (unfold toLongTemplateSlug; now rewrite M).
  rewrite L in Ht. split; [exact Ht|].
  unfold generateFallback. rewrite Hs, Hn, Ht. cbn [nullish_or js_String].
  eexists.
  replace ("use " +:+ namespace cfg +:+ "/" +:+ project_name cfg
           +:+ "/types.{Datum, Redeemer}")
    with ("use " +:+ (namespace cfg +:+ "/" +:+ project_name cfg +:+ "/types")
          +:+ ".{Datum, Redeemer}")
    by (rewrite !string_append_assoc; reflexivity).
  reflexivity.
Qed.

Lemma mint_preview_is_generic_in_dev_fallback_witness :
  DEV (mkEnv true None) = true /\ import_core (mkEnv true None) = None
  /\ wasm initial_loader = None
  /\ toShortTemplateSlug (template DEFAULT_CONFIG) = JString "mint"
  /\ prop (build_options DEFAULT_CONFIG) "template" = JString "simple_mint"
  /\ map (fun f => AikenText.includes (content f) "MintRedeemer")
       (tl (files
              (fst (regenerate (fun _ => "") (fun _ => Ok [])
                      (fun _ => Ok (mkValidation true [])) (mkEnv true None)
                      listTemplatesFallback DEFAULT_CONFIG initial_state
                      initial_loader))))
     = [false; false].
Proof.
  destruct (mint_preview_is_generic_in_dev_fallback (fun _ => "") (fun _ => Ok [])
              (fun _ => Ok (mkValidation true [])) (mkEnv true None)
              listTemplatesFallback DEFAULT_CONFIG initial_state initial_loader
              eq_refl eq_refl eq_refl eq_refl) as (T & manifest & E).
  split; [reflexivity|]. split; [reflexivity|]. split; [reflexivity|].
  split; [reflexivity|]. split; [exact T|].
  rewrite E. reflexivity.
Defined.

(** X8: in the development build without a core the custom template cannot
    be previewed: validation is answered with a failure, so regeneration ends
    with that message as the error and leaves the files, the SDK files and
    the active file as they were. *)
Theorem custom_fails_in_dev_fallback
    (JSON_stringify : gmap string JsValue -> string)
    (JSON_parse_files : string -> Outcome (list GeneratedFile))
    (JSON_parse_validation : string -> Outcome ValidationResult)
    (env : Env) (templates : list TemplateInfo)
    (cfg : WizardConfig) (w : State) (ld : Loader) :
  DEV env = true -> import_core env = None -> wasm ld = None ->
  toShortTemplateSlug (template cfg) = JString "custom" ->
  fst (regenerate JSON_stringify JSON_parse_files JSON_parse_validation env templates
         cfg w ld)
  = mkState (files w) (sdkFiles w) (activeFile w)
      (Some "WASM validator unavailable in dev fallback mode.") false.
Proof.
  intros D I W C. unfold regenerate, regenerate_try. rewrite C.
  change (strict_eq (JString "custom") (JString "custom")) with true. cbn match.
  rewrite (dev_validateCustom JSON_stringify JSON_parse_validation env D I ld _ W).
  reflexivity.
Qed.

Lemma custom_fails_in_dev_fallback_witness :
  DEV (mkEnv true None) = true /\ import_core (mkEnv true None) = None
  /\ wasm initial_loader = None
  /\ toShortTemplateSlug "Custom" = JString "custom"
  /\ error
       (fst (regenerate (fun _ => "") (fun _ => Ok []) (fun _ => Ok (mkValidation true []))
               (mkEnv true None) listTemplatesFallback
               (mkConfig "Custom" "myorg" "my_token" None None None None None None None None)
               initial_state initial_loader))
     = Some "WASM validator unavailable in dev fallback mode.".
Proof.
  repeat (split; [reflexivity|]).
  rewrite (custom_fails_in_dev_fallback (fun _ => "") (fun _ => Ok [])
             (fun _ => Ok (mkValidation true [])) (mkEnv true None) listTemplatesFallback
             (mkConfig "Custom" "myorg" "my_token" None None None None None None None None)
             initial_state initial_loader eq_refl eq_refl eq_refl eq_refl).
  reflexivity.
Defined.

(** X9: for the vesting template (which has no long alias) the development
    preview follows the toggle: the [VestingRedeemer] of the type module lists
    [Cancel] exactly when [cancellable] is switched on. *)
Theorem vesting_preview_follows_toggle
    (JSON_stringify : gmap string JsValue -> string)
    (JSON_parse_files : string -> Outcome (list GeneratedFile))
    (JSON_parse_validation : string -> Outcome ValidationResult)
    (env : Env) (templates : list TemplateInfo)
    (cfg : WizardConfig) (w : State) (ld : Loader) :
  DEV env = true -> import_core env = None -> wasm ld = None ->
  toShortTemplateSlug (template cfg) = JString "vesting" ->
  let w' := fst (regenerate JSON_stringify JSON_parse_files JSON_parse_validation env
                   templates cfg w ld) in
  exists manifest validator,
    files w'
    = [ mkFile "aiken.toml" manifest;
        mkFile ("lib/" +:+ namespace cfg +:+ "/" +:+ project_name cfg +:+ "/types.ak")
          (unlines
             [ "pub type VestingDatum {";
               "  owner: ByteArray,";
               "  beneficiary: ByteArray,";
               "  deadline: Int,";
               "  amount: Int,";
               "}";
               "";
               "pub type VestingRedeemer {";
               "  Claim" ]
           +:+ (if flag (cancellable cfg) then "  Cancel" +:+ nl else "")
           +:+ "}" +:+ nl);
        mkFile ("validators/" +:+ project_name cfg +:+ ".ak") validator ].
Proof.
  intros D I W V. cbn zeta.
  assert (C : strict_eq (toShortTemplateSlug (template cfg)) (JString "custom") = false)
    by now rewrite V.
  rewrite (regenerate_dev_plain JSON_stringify JSON_parse_files JSON_parse_validation
             env templates D I cfg w ld W C).
  cbn [files].
  destruct (build_options_names cfg) as (Hs & Hn & Ht).
  destruct (build_options_toggles cfg C) as (_ & Hc).
  assert (L : toLongTemplateSlug (template cfg) = JString "vesting")
    by (unfold toLongTemplateSlug; now rewrite V).
  rewrite L in Ht. rewrite V in Hc.
  change (strict_eq (JString "vesting") (JString "vesting")) with true in Hc.
  cbn [andb] in Hc.
  unfold generateFallback, generateTypesFile. rewrite Hs, Hn, Ht, Hc.
  cbn [nullish_or js_String].
  do 2 eexists. reflexivity.
Qed.

Lemma vesting_preview_follows_toggle_witness :
  DEV (mkEnv true None) = true /\ import_core (mkEnv true None) = None
  /\ wasm initial_loader = None
  /\ toShortTemplateSlug "vesting" = JString "vesting"
  /\ length
       (files
          (fst (regenerate (fun _ => "") (fun _ => Ok [])
                  (fun _ => Ok (mkValidation true [])) (mkEnv true None)
                  listTemplatesFallback
                  (mkConfig "vesting" "myorg" "my_vesting" None None (Some true) None
                     None None None None)
                  initial_state initial_loader))) = 3.
Proof.
  repeat (split; [reflexivity|]).
  destruct (vesting_preview_follows_toggle (fun _ => "") (fun _ => Ok [])
              (fun _ => Ok (mkValidation true [])) (mkEnv true None)
              listTemplatesFallback
              (mkConfig "vesting" "myorg" "my_vesting" None None (Some true) None
                 None None None None)
              initial_state initial_loader eq_refl eq_refl eq_refl eq_refl)
    as (manifest & validator & E).
  rewrite E. reflexivity.
Defined.

(** X10: a failure before the files are stored keeps the preview: when
    generation throws for a template other than custom, or when the
    validation of a custom configuration is answered as invalid, the state
    after [regenerate] is the state before it with the message as the error
    and the loading flag off. *)
Theorem failed_regenerate_keeps_preview
    (JSON_stringify : gmap string JsValue -> string)
    (JSON_parse_files : string -> Outcome (list GeneratedFile))
    (JSON_parse_validation : string -> Outcome ValidationResult)
    (env : Env) (templates : list TemplateInfo)
    (cfg : WizardConfig) (w : State) (ld : Loader) :
  (forall e,
     strict_eq (toShortTemplateSlug (template cfg)) (JString "custom") = false ->
     fst (generate JSON_stringify JSON_parse_files env ld (build_options cfg)) = Throw e ->
     fst (regenerate JSON_stringify JSON_parse_files JSON_parse_validation env templates
            cfg w ld)
     = mkState (files w) (sdkFiles w) (activeFile w) (Some e) false)
  /\ (forall v,
        strict_eq (toShortTemplateSlug (template cfg)) (JString "custom") = true ->
        fst (validateCustom JSON_stringify JSON_parse_validation env ld (build_options cfg))
        = Ok v ->
        valid v = false ->
        fst (regenerate JSON_stringify JSON_parse_files JSON_parse_validation env templates
               cfg w ld)
        = mkState (files w) (sdkFiles w) (activeFile w) (Some (Js.join nl (errors v)))
            false).
Proof.
  split.
  - intros e C G. unfold regenerate, regenerate_try. rewrite C.
    destruct (generate _ _ _ _ _) as [r ld2]. cbn [fst] in G. subst r. reflexivity.
  - intros v C V I. unfold regenerate, regenerate_try. rewrite C.
    destruct (validateCustom _ _ _ _ _) as [r ld1]. cbn [fst] in V. subst r.
    rewrite I. reflexivity.
Qed.

Lemma failed_regenerate_keeps_preview_witness :
  strict_eq (toShortTemplateSlug (template Examples.dex_without_namespace))
    (JString "custom") = false
  /\ fst (generate Examples.toy_stringify Examples.toy_parse_files Examples.toy_env
            (snd Examples.after_mint) (build_options Examples.dex_without_namespace))
     = Throw "namespace must not be empty"
  /\ files (fst Examples.after_dex) = files (fst Examples.after_mint).
Proof.
  split; [reflexivity|]. split; [reflexivity|].
  unfold Examples.after_dex.
  rewrite (proj1 (failed_regenerate_keeps_preview Examples.toy_stringify
                    Examples.toy_parse_files Examples.toy_parse_validation
                    Examples.toy_env listTemplatesFallback
                    Examples.dex_without_namespace (fst Examples.after_mint)
                    (snd Examples.after_mint))
             "namespace must not be empty" eq_refl eq_refl).
  reflexivity.
Defined.

Lemma generate_after_load JSON_stringify JSON_parse_files env ld options :
  generate JSON_stringify JSON_parse_files env (loadWasm env ld) options
  = generate JSON_stringify JSON_parse_files env ld options.
Proof. unfold generate. now rewrite loadWasm_settled. Qed.

Lemma validateCustom_loader JSON_stringify JSON_parse_validation env st options :
  snd (validateCustom JSON_stringify JSON_parse_validation env st options)
  = loadWasm env st.
Proof.
  unfold validateCustom.
  destruct (wasm (loadWasm env st)); [reflexivity | now destruct (DEV env)].
Qed.

(** X11: when generation succeeds with at least one file and no file is
    active, [regenerate] makes a generated file the active one: the first one
    under [validators/] if there is any, the first file otherwise; so the
    preview, which looks the active file up by its path among the files and
    the SDK files, always finds a file to show. This holds for every
    template, the custom one included, where generation is reached after
    [validateCustom] has answered with a valid result; and it holds even if
    the SDK step throws afterwards. *)
Theorem regenerate_selects_a_generated_file
    (JSON_stringify : gmap string JsValue -> string)
    (JSON_parse_files : string -> Outcome (list GeneratedFile))
    (JSON_parse_validation : string -> Outcome ValidationResult)
    (env : Env) (templates : list TemplateInfo)
    (cfg : WizardConfig) (w : State) (ld : Loader)
    (first : GeneratedFile) (rest : list GeneratedFile) :
  (strict_eq (toShortTemplateSlug (template cfg)) (JString "custom") = true ->
   exists v,
     fst (validateCustom JSON_stringify JSON_parse_validation env ld (build_options cfg))
     = Ok v /\ valid v = true) ->
  fst (generate JSON_stringify JSON_parse_files env ld (build_options cfg))
  = Ok (first :: rest) ->
  activeFile w = "" ->
  let w' := fst (regenerate JSON_stringify JSON_parse_files JSON_parse_validation env
                   templates cfg w ld) in
  files w' = first :: rest
  /\ activeFile w'
     = match find (fun f => Js.startsWith "validators/" (path f)) (first :: rest) with
       | Some validator => path validator
       | None => path first
       end
  /\ In (activeFile w') (map path (first :: rest))
  /\ exists shown,
       preview_file (files w' ++ sdkFiles w') (activeFile w') = Some shown
       /\ In shown (first :: rest) /\ path shown = activeFile w'.
Proof.
  intros Hv G A. cbn zeta.
  set (chosen := match find (fun f => Js.startsWith "validators/" (path f)) (first :: rest) with
                 | Some validator => path validator
                 | None => path first
                 end).
  assert (Hin : In chosen (map path (first :: rest))).
  { unfold chosen. destruct (find _ (first :: rest)) as [v|] eqn:F.
    - apply find_some in F as [F _]. now apply in_map.
    - now left. }
  assert (S : exists sdk e,
            fst (regenerate JSON_stringify JSON_parse_files JSON_parse_validation env
                   templates cfg w ld)
            = mkState (first :: rest) sdk chosen e false).
  { assert (V : exists ldv,
              (if strict_eq (toShortTemplateSlug (template cfg)) (JString "custom") then
                 match validateCustom JSON_stringify JSON_parse_validation env ld
                         (build_options cfg) with
                 | (Ok validation, ld1) =>
                     if valid validation then (Ok tt, ld1)
                     else (Throw (Js.join nl (errors validation)), ld1)
                 | (Throw e, ld1) => (Throw e, ld1)
                 end
               else (Ok tt, ld)) = (Ok tt, ldv)
              /\ fst (generate JSON_stringify JSON_parse_files env ldv (build_options cfg))
                 = Ok (first :: rest)).
    { destruct (strict_eq (toShortTemplateSlug (template cfg)) (JString "custom")) eqn:C.
      - destruct (Hv eq_refl) as (v & V1 & V2).
        pose proof (validateCustom_loader JSON_stringify JSON_parse_validation env ld
                      (build_options cfg)) as L.
        destruct (validateCustom _ _ _ _ _) as [r ld1]. cbn [fst snd] in V1, L.
        subst r ld1. rewrite V2. eexists. split; [reflexivity|].
        now rewrite generate_after_load.
      - exists ld. now split. }
    destruct V as (ldv & V & G').
    unfold regenerate, regenerate_try. rewrite V.
    destruct (generate _ _ _ ldv _) as [r ld2]. cbn [fst] in G'. subst r.
    cbn [setError setLoading activeFile]. rewrite A. cbn [String.eqb].
    fold chosen.
    assert (W2 : (match find (fun f => Js.startsWith "validators/" (path f)) (first :: rest) with
                  | Some validator =>
                      setActiveFile (path validator)
                        (setFiles (first :: rest) (setError None (setLoading true w)))
                  | None =>
                      setActiveFile (path first)
                        (setFiles (first :: rest) (setError None (setLoading true w)))
                  end)
                 = mkState (first :: rest) (sdkFiles w) chosen None true).
    { unfold chosen. destruct (find _ (first :: rest)); reflexivity. }
    rewrite W2.
    destruct (flag (generate_sdk cfg) && templateSupportsSdk templates (template cfg)).
    - destruct (generateSdk _ _ _ _ _) as [[sdk|e] ld3]; do 2 eexists; reflexivity.
    - do 2 eexists; reflexivity. }
  destruct S as (sdk & e & ->). cbn [files activeFile sdkFiles].
  split; [reflexivity|]. split; [reflexivity|]. split; [exact Hin|].
  unfold preview_file.
  destruct (find (fun f => String.eqb (path f) chosen) ((first :: rest) ++ sdk))
    as [shown|] eqn:F.
  - exists shown. split; [reflexivity|].
    apply in_map_iff in Hin as (g & Eg & Hg).
    assert (F1 : find (fun f => String.eqb (path f) chosen) (first :: rest) <> None).
    { intros N. pose proof (find_none _ _ N g Hg) as X. cbn beta in X.
      rewrite Eg, String.eqb_refl in X. discriminate X. }
    destruct (find (fun f => String.eqb (path f) chosen) (first :: rest)) as [s|] eqn:F2;
      [|contradiction].
    assert (shown = s).
    { clear - F F2. revert F F2. generalize (first :: rest) as l.
      induction l as [|x l IH]; cbn; [discriminate|].
      destruct (String.eqb (path x) chosen); [congruence | apply IH]. }
    subst s. apply find_some in F2 as [F2 E2]. apply String.eqb_eq in E2. now split.
  - exfalso. apply in_map_iff in Hin as (g & Eg & Hg).
    assert (Hg' : In g ((first :: rest) ++ sdk)) by (apply in_app_iff; now left).
    pose proof (find_none _ _ F g Hg') as X. cbn beta in X.
    rewrite Eg, String.eqb_refl in X. discriminate X.
Qed.

Lemma regenerate_selects_a_generated_file_witness :
  strict_eq (toShortTemplateSlug (template Examples.custom_with_timelock))
    (JString "custom") = true
  /\ fst (validateCustom Examples.toy_stringify Examples.toy_parse_validation
            Examples.toy_env initial_loader (build_options Examples.custom_with_timelock))
     = Ok (mkValidation true [])
  /\ fst (generate Examples.toy_stringify Examples.toy_parse_files Examples.toy_env
            initial_loader (build_options Examples.custom_with_timelock))
     = Ok [mkFile "aiken.toml" ""; mkFile "validators/my_token.ak" ""]
  /\ activeFile initial_state = ""
  /\ activeFile
       (fst (regenerate Examples.toy_stringify Examples.toy_parse_files
               Examples.toy_parse_validation Examples.toy_env listTemplatesFallback
               Examples.custom_with_timelock initial_state initial_loader))
     = "validators/my_token.ak".
Proof.
  split; [reflexivity|]. split; [reflexivity|]. split; [reflexivity|].
  split; [reflexivity|].
  rewrite (proj1 (proj2 (regenerate_selects_a_generated_file Examples.toy_stringify
                           Examples.toy_parse_files Examples.toy_parse_validation
                           Examples.toy_env listTemplatesFallback
                           Examples.custom_with_timelock
                           initial_state initial_loader
                           (mkFile "aiken.toml" "") [mkFile "validators/my_token.ak" ""]
                           (fun _ => ex_intro _ (mkValidation true [])
                                       (conj eq_refl eq_refl))
                           eq_refl eq_refl))).
  reflexivity.
Defined.

End RegenerateFacts.

(** ** The code preview and the documentation sidebar *)

Section PreviewFacts.
Import Wasm CodePreview DocsSidebar.

Lemma endsWith_unfold suffix s :
  endsWith suffix s
  = if String.eqb s suffix then true
    else match s with
         | EmptyString => false
         | String _ rest => endsWith suffix rest
         end.
Proof. destruct s; reflexivity. Qed.

Lemma endsWith_app suffix a : endsWith suffix (a +:+ suffix) = true.
Proof.
  induction a as [|c a IH]; cbn [String.append]; rewrite endsWith_unfold.
  - now rewrite String.eqb_refl.
  - destruct (String.eqb _ _); [reflexivity | exact IH].
Qed.

Lemma endsWith_prefixed suffix a b : endsWith suffix (a +:+ b +:+ suffix) = true.
Proof. rewrite <- string_append_assoc. apply endsWith_app. Qed.

(** X12: [getLang] only ever names a language the highlighter was created
    with, and on the project of the fallback generator it picks [toml] for the
    manifest and [rust] for the type module and the validator, whatever the
    namespace and the project name are. *)
Theorem getLang_of_generated_files (options : gmap string JsValue) (p : string) :
  In (getLang p) highlighter_langs
  /\ map (fun f => getLang (path f)) (generateFallback options) = [ "toml"; "rust"; "rust" ].
Proof.
  split.
  - unfold getLang, highlighter_langs.
    repeat match goal with |- context [if ?b then _ else _] => destruct b end;
      cbn; tauto.
  - rewrite <- map_map, generateFallback_paths. cbn zeta. cbn [map].
    set (ns := js_String (nullish_or (prop options "namespace") (JString "myorg"))).
    set (name := js_String (nullish_or (prop options "project_name") (JString "my_contract"))).
    assert (H2 : getLang ("lib/" +:+ ns +:+ "/" +:+ name +:+ "/types.ak") = "rust").
    { unfold getLang.
      replace ("lib/" +:+ ns +:+ "/" +:+ name +:+ "/types.ak")
        with (("lib/" +:+ ns +:+ "/" +:+ name +:+ "/types") +:+ ".ak")
        by (rewrite !string_append_assoc; reflexivity).
      now rewrite endsWith_app. }
    assert (H3 : getLang ("validators/" +:+ name +:+ ".ak") = "rust").
    { unfold getLang. now rewrite endsWith_prefixed. }
    now rewrite H2, H3.
Qed.

Lemma startsWith_spec p : forall s,
  Js.startsWith p s = true -> exists r, s = p +:+ r.
Proof.
  induction p as [|a p IH]; intros s H.
  - now exists s.
  - destruct s as [|b s]; [discriminate H|]. cbn [Js.startsWith] in H.
    apply andb_true_iff in H as [E H]. apply Ascii.eqb_eq in E. subst b.
    destruct (IH s H) as [r ->]. now exists r.
Qed.

Lemma startsWith_app p r : Js.startsWith p (p +:+ r) = true.
Proof.
  induction p as [|a p IH]; [reflexivity|].
  change (Ascii.eqb a a && Js.startsWith p (p +:+ r) = true).
  now rewrite Ascii.eqb_refl.
Qed.

Lemma string_append_nil_r s : s +:+ "" = s.
Proof.
  induction s as [|c s IH]; [reflexivity|].
  change (String c (s +:+ "") = String c s). now rewrite IH.
Qed.

Lemma active_getting_started p : active p "/docs" = true -> p = "/docs".
Proof.
  unfold active. change (negb (String.eqb "/docs" "/docs")) with false.
  cbn [andb]. rewrite orb_false_r. apply String.eqb_eq.
Qed.

Lemma active_prefix p to : active p to = true -> exists r, p = to +:+ r.
Proof.
  unfold active. intros H. apply orb_true_iff in H as [H|H].
  - apply String.eqb_eq in H. subst. exists "". now rewrite string_append_nil_r.
  - apply andb_true_iff in H as [_ H]. now apply startsWith_spec.
Qed.

(** X13: whatever the location, the sidebar highlights at most one of its
    links; the Getting Started link is highlighted at [/docs] alone, and every
    other link is highlighted on its page and on every location below it. *)
Theorem sidebar_highlights_one_link (pathname : string) :
  length (active_links pathname) <= 1
  /\ (active pathname "/docs" = true <-> pathname = "/docs")
  /\ Forall (fun link =>
               fst link <> "/docs" ->
               forall below, active (fst link +:+ below) (fst link) = true)
       SIDEBAR_LINKS.
Proof.
  split; [|split].
  - unfold active_links, SIDEBAR_LINKS. cbn [List.filter fst].
    destruct (active pathname "/docs") eqn:E0;
      destruct (active pathname "/docs/cli") eqn:E1;
      destruct (active pathname "/docs/features") eqn:E2;
      destruct (active pathname "/docs/templates") eqn:E3;
      destruct (active pathname "/docs/sdk") eqn:E4;
      cbn [length]; try lia; exfalso;
      try (apply active_getting_started in E0; subst pathname);
      repeat match goal with
             | H : active _ _ = true |- _ =>
                 apply active_prefix in H; destruct H as [? H]
             end;
      repeat match goal with
             | H : ?p = _ +:+ _, H' : ?p = _ +:+ _ |- _ => rewrite H in H'; clear H
             end;
      match goal with
      | H : _ = _ |- _ => cbv in H; discriminate H
      end.
  - split; [apply active_getting_started | now intros ->].
  - unfold SIDEBAR_LINKS.
    repeat (constructor;
            [cbn [fst]; intros N below; unfold active;
             rewrite startsWith_app;
             try (exfalso; now apply N);
             match goal with
             | |- context [negb (String.eqb ?a "/docs")] =>
                 change (negb (String.eqb a "/docs")) with true
             end; now rewrite orb_true_r|]).
    constructor.
Qed.

Lemma sidebar_highlights_one_link_witness :
  fst ("/docs/cli", "CLI Reference") <> "/docs"
  /\ active "/docs/cli/generate" "/docs/cli" = true
  /\ length (active_links "/docs/cli/generate") <= 1.
Proof.
  assert (N : fst ("/docs/cli", "CLI Reference") <> "/docs") by discriminate.
  split; [exact N|]. split.
  - pose proof (proj2 (proj2 (sidebar_highlights_one_link ""))) as F.
    unfold SIDEBAR_LINKS in F. apply Forall_cons in F as [_ F].
    apply Forall_cons in F as [F _]. exact (F N "/generate").
  - exact (proj1 (sidebar_highlights_one_link "/docs/cli/generate")).
Defined.

End PreviewFacts.

(** ** The rows of the custom form *)

Section HandlerFacts.
Import Wizard Handlers.

Lemma mapi_from_Forall {A} (P : A -> Prop) (f : A -> nat -> A) l : forall k,
  (forall x i, P x -> P (f x i)) -> Forall P l -> Forall P (mapi_from k f l).
Proof.
  induction l as [|x l IH]; intros k Hf H; cbn; [constructor|].
  apply Forall_cons in H as [Hx H]. constructor; [now apply Hf | now apply IH].
Qed.

Lemma filteri_from_Forall {A} (P : A -> Prop) (p : A -> nat -> bool) l : forall k,
  Forall P l -> Forall P (filteri_from k p l).
Proof.
  induction l as [|x l IH]; intros k H; cbn; [constructor|].
  apply Forall_cons in H as [Hx H].
  destruct (p x k); [constructor; [assumption|]|]; now apply IH.
Qed.

Lemma mapi_from_past {A} (g : A -> A) idx l : forall k,
  idx < k -> mapi_from k (fun x i => if i =? idx then g x else x) l = l.
Proof.
  induction l as [|x l IH]; intros k H; cbn; [reflexivity|].
  destruct (Nat.eqb_spec k idx); [lia|]. rewrite IH by lia. reflexivity.
Qed.

(** A [map] that tests the index is an update in place. *)
Lemma mapi_from_alter {A} (g : A -> A) idx l : forall k,
  k <= idx ->
  mapi_from k (fun x i => if i =? idx then g x else x) l = alter g (idx - k) l.
Proof.
  induction l as [|x l IH]; intros k H; cbn; [reflexivity|].
  destruct (Nat.eqb_spec k idx) as [->|N].
  - rewrite Nat.sub_diag. cbn. now rewrite mapi_from_past by lia.
  - replace (idx - k) with (S (idx - S k)) by lia. cbn. now rewrite IH by lia.
Qed.

Lemma filteri_from_past {A} idx (l : list A) : forall k,
  idx < k -> filteri_from k (fun _ i => negb (i =? idx)) l = l.
Proof.
  induction l as [|x l IH]; intros k H; cbn; [reflexivity|].
  destruct (Nat.eqb_spec k idx); [lia|]. cbn. now rewrite IH by lia.
Qed.

(** A [filter] that tests the index is the removal of one row. *)
Lemma filteri_from_delete {A} idx (l : list A) : forall k,
  k <= idx -> filteri_from k (fun _ i => negb (i =? idx)) l = delete (idx - k) l.
Proof.
  induction l as [|x l IH]; intros k H; cbn; [reflexivity|].
  destruct (Nat.eqb_spec k idx) as [->|N]; cbn.
  - rewrite Nat.sub_diag. cbn. now rewrite filteri_from_past by lia.
  - replace (idx - k) with (S (idx - S k)) by lia. cbn. now rewrite IH by lia.
Qed.

(** X14: the handlers of the datum rows touch the row they are given and no
    other. [updateDatumField] keeps the number of rows, changes row [idx] by
    [set_field] and leaves every other row alone; [removeDatumField] removes
    row [idx] and shifts the later rows down; an index past the end changes
    nothing in either; and removing the row that [addDatumField] has just
    added gives the rows back. *)
Theorem datum_row_handlers (idx : nat) (key : FieldKey) (value : string)
    (rows : list FieldSpec) :
  updateDatumField idx key value rows = alter (set_field key value) idx rows
  /\ removeDatumField idx rows = delete idx rows
  /\ length (updateDatumField idx key value rows) = length rows
  /\ updateDatumField idx key value rows !! idx = set_field key value <$> rows !! idx
  /\ (forall j, j <> idx -> updateDatumField idx key value rows !! j = rows !! j)
  /\ (forall j, j < idx -> removeDatumField idx rows !! j = rows !! j)
  /\ (forall j, idx <= j -> removeDatumField idx rows !! j = rows !! S j)
  /\ (length rows <= idx ->
      updateDatumField idx key value rows = rows /\ removeDatumField idx rows = rows)
  /\ removeDatumField (length rows) (addDatumField rows) = rows.
Proof.
  assert (U : updateDatumField idx key value rows = alter (set_field key value) idx rows).
  { unfold updateDatumField, mapi. rewrite mapi_from_alter by lia. now rewrite Nat.sub_0_r. }
  assert (R : forall i (l : list FieldSpec), removeDatumField i l = delete i l).
  { intros i l. unfold removeDatumField, filteri.
    rewrite filteri_from_delete by lia. now rewrite Nat.sub_0_r. }
  rewrite U, !R. repeat split.
  - apply length_alter.
  - apply list_lookup_alter_eq.
  - intros j N. now apply list_lookup_alter_ne.
  - intros j L. now apply list_lookup_delete_lt.
  - intros j L. now apply list_lookup_delete_ge.
  - apply list_eq. intros j. destruct (decide (j = idx)) as [->|N].
    + rewrite list_lookup_alter_eq. now rewrite (lookup_ge_None_2 rows idx).
    + now apply list_lookup_alter_ne.
  - apply list_eq. intros j. rewrite list_lookup_delete.
    destruct (decide (j < idx)); [reflexivity|].
    rewrite !lookup_ge_None_2 by lia. reflexivity.
  - unfold addDatumField. rewrite delete_middle. apply app_nil_r.
Qed.

Lemma datum_row_handlers_witness :
  length [mkField "admin" "ByteArray"] <= 3
  /\ updateDatumField 3 key_name "Owner!" [mkField "admin" "ByteArray"]
     = [mkField "admin" "ByteArray"]
  /\ updateDatumField 0 key_name "Owner!" [mkField "admin" "ByteArray"]
     = [mkField "wner" "ByteArray"].
Proof.
  assert (L : length [mkField "admin" "ByteArray"] <= 3) by (cbn; lia).
  split; [exact L|]. split; [|reflexivity].
  exact (proj1 (proj1 (proj2 (proj2 (proj2 (proj2 (proj2 (proj2 (proj2
           (datum_row_handlers 3 key_name "Owner!" [mkField "admin" "ByteArray"]))))))))
           L)).
Defined.

Lemma ident_not_white_space c : Js.ident_char c = true -> Js.white_space c = false.
Proof. destruct c as [[] [] [] [] [] [] [] []]; cbv; intros; congruence. Qed.

Lemma trimEnd_ident s :
  Js.forallb_string Js.ident_char s = true -> Js.trimEnd s = s.
Proof.
  induction s as [|c s IH]; [reflexivity|]. cbn [Js.forallb_string Js.trimEnd].
  intros H. apply andb_true_iff in H as [Hc Hs]. rewrite (IH Hs).
  destruct s; [now rewrite (ident_not_white_space c Hc) | reflexivity].
Qed.

Lemma trim_ident s : Js.forallb_string Js.ident_char s = true -> Js.trim s = s.
Proof.
  intros H. unfold Js.trim.
  replace (Js.trimStart s) with s; [now apply trimEnd_ident|].
  destruct s as [|c s]; [reflexivity|]. cbn [Js.forallb_string] in H.
  apply andb_true_iff in H as [Hc _]. cbn [Js.trimStart].
  now rewrite (ident_not_white_space c Hc).
Qed.

Lemma set_field_clean key value f : field_clean f -> field_clean (set_field key value f).
Proof.
  unfold field_clean. destruct key; cbn; [intros _ | trivial].
  apply filter_string_forallb.
Qed.

Lemma apply_edit_clean rows e : rows_clean rows -> rows_clean (apply_edit rows e).
Proof.
  destruct rows as [datum actions]. intros [D A]. cbn [fst snd] in D, A.
  assert (B : field_clean (mkField "" "Int")) by reflexivity.
  destruct e; cbn [apply_edit]; split; cbn [fst snd]; try assumption.
  - unfold addDatumField. apply Forall_app. split; [assumption | now constructor].
  - unfold updateDatumField, mapi. apply mapi_from_Forall; [|assumption].
    intros f i Hf. destruct (i =? idx); [now apply set_field_clean | assumption].
  - unfold removeDatumField, filteri. now apply filteri_from_Forall.
  - unfold addRedeemerAction. apply Forall_app. split; [assumption|].
    constructor; [|constructor]. split; [reflexivity | constructor].
  - unfold updateActionName, mapi. apply mapi_from_Forall; [|assumption].
    intros a i [Ha Hf]. destruct (i =? idx); [|now split].
    split; [apply filter_string_forallb | assumption].
  - unfold removeAction, filteri. now apply filteri_from_Forall.
  - unfold addActionField, mapi. apply mapi_from_Forall; [|assumption].
    intros a i [Ha Hf]. destruct (i =? actionIdx); [|now split].
    split; [assumption|]. cbn [fields]. apply Forall_app. split; [assumption | now constructor].
  - unfold updateActionField, mapi. apply mapi_from_Forall; [|assumption].
    intros a i [Ha Hf]. destruct (i =? actionIdx); [|now split].
    split; [assumption|]. cbn [fields]. apply mapi_from_Forall; [|assumption].
    intros f j Hj. destruct (j =? fieldIdx); [now apply set_field_clean | assumption].
  - unfold removeActionField, mapi. apply mapi_from_Forall; [|assumption].
    intros a i [Ha Hf]. destruct (i =? actionIdx); [|now split].
    split; [assumption|]. cbn [fields]. unfold filteri. now apply filteri_from_Forall.
Qed.

Lemma rows_clean_fold edits : forall rows,
  rows_clean rows -> rows_clean (fold_left apply_edit edits rows).
Proof.
  induction edits as [|e edits IH]; intros rows H; cbn [fold_left]; [assumption|].
  apply IH. now apply apply_edit_clean.
Qed.

(** X15: whatever the user does to the custom form, starting from the empty
    one, every field name it holds consists of characters of [a-z0-9_] and
    every action name of letters and digits; so a field name is blank, and its
    row is left out by the serialisers, exactly when it is empty. *)
Theorem form_names_stay_clean (edits : list Edit) :
  rows_clean (rows_after edits)
  /\ Forall (fun f => non_blank (field_name f) = negb (String.eqb (field_name f) ""))
       (fst (rows_after edits)).
Proof.
  assert (C : rows_clean (rows_after edits)).
  { apply rows_clean_fold. split; constructor. }
  split; [exact C|].
  destruct C as [D _]. eapply Forall_impl; [exact D|]. intros f Hf.
  unfold non_blank. rewrite (trim_ident _ Hf).
  now destruct (field_name f).
Qed.

Lemma named_fields_placeholder fs :
  named_fields (fs ++ [mkField "" "Int"]) = named_fields fs.
Proof. unfold named_fields. rewrite List.filter_app. cbn. apply app_nil_r. Qed.

Lemma named_actions_addActionField actionIdx actions : forall k,
  named_actions
    (mapi_from k
       (fun a i =>
          if i =? actionIdx
          then mkAction (action_name a) (fields a ++ [mkField "" "Int"])
          else a)
       actions)
  = named_actions actions.
Proof.
  unfold named_actions.
  induction actions as [|a actions IH]; intros k; [reflexivity|].
  cbn [mapi_from List.filter].
  destruct (k =? actionIdx); cbn [action_name];
    destruct (non_blank (action_name a)); cbn [map action_name fields];
    rewrite ?named_fields_placeholder, IH; reflexivity.
Qed.

(** X16: a row that has just been added, with its empty name, does not show
    in what is sent to the generator: adding a datum field, an action or a
    field of an action leaves the serialised datum and redeemer unchanged. *)
Theorem placeholder_rows_are_not_sent (datum : list FieldSpec) (actions : list ActionSpec)
    (actionIdx : nat) :
  serializeDatumFields (addDatumField datum) = serializeDatumFields datum
  /\ serializeRedeemerActions (addRedeemerAction actions) = serializeRedeemerActions actions
  /\ serializeRedeemerActions (addActionField actionIdx actions)
     = serializeRedeemerActions actions.
Proof.
  split; [|split].
  - unfold serializeDatumFields, addDatumField. rewrite List.filter_app. cbn [List.filter].
    change (non_blank (field_name (mkField "" "Int"))) with false. cbn match.
    now rewrite app_nil_r.
  - rewrite !serializeRedeemerActions_refines. unfold named_actions, addRedeemerAction.
    rewrite List.filter_app. cbn [List.filter].
    change (non_blank (action_name (mkAction "" []))) with false. cbn match.
    now rewrite app_nil_r.
  - rewrite !serializeRedeemerActions_refines. unfold addActionField, mapi.
    now rewrite named_actions_addActionField.
Qed.

End HandlerFacts.

(** ** More on the feature selection *)

Section ToggleFacts.
Import Wasm CustomConfig.

Lemma set_add_all_extends acc xs : exists added, set_add_all acc xs = acc ++ added.
Proof.
  revert acc. induction xs as [|x xs IH]; intros acc; cbn [set_add_all].
  - exists []. now rewrite app_nil_r.
  - destruct (includes acc x); [apply IH|].
    destruct (IH (acc ++ [x])) as [added ->]. exists (x :: added).
    now rewrite <- app_assoc.
Qed.

Lemma set_add_all_NoDup acc xs : List.NoDup acc -> List.NoDup (set_add_all acc xs).
Proof.
  revert acc. induction xs as [|x xs IH]; intros acc N; cbn [set_add_all]; [assumption|].
  destruct (includes acc x) eqn:E; apply IH; [assumption|].
  apply List.NoDup_app; [assumption | repeat constructor; intros [] |].
  intros y Hy [<-|[]]. apply includes_In in Hy. congruence.
Qed.

Lemma set_add_all_known acc xs :
  (forall x, In x xs -> In x acc) -> set_add_all acc xs = acc.
Proof.
  revert acc. induction xs as [|x xs IH]; intros acc H; cbn [set_add_all]; [reflexivity|].
  rewrite (proj2 (includes_In acc x)) by (apply H; now left).
  apply IH. intros y Hy. apply H. now right.
Qed.

Lemma set_add_all_app acc xs ys :
  set_add_all acc (xs ++ ys) = set_add_all (set_add_all acc xs) ys.
Proof.
  revert acc. induction xs as [|x xs IH]; intros acc; cbn [set_add_all app]; [reflexivity|].
  apply IH.
Qed.

Lemma spread_set_NoDup_id sel : List.NoDup sel -> spread_set sel = sel.
Proof.
  unfold spread_set. intros N.
  assert (G : forall acc, List.NoDup (acc ++ sel) -> set_add_all acc sel = acc ++ sel).
  { clear N. induction sel as [|x sel IH]; intros acc N; cbn [set_add_all].
    - now rewrite app_nil_r.
    - assert (E : includes acc x = false).
      { destruct (includes acc x) eqn:E; [|reflexivity]. apply includes_In in E.
        apply List.NoDup_remove_2 in N. exfalso. apply N. apply in_app_iff. now left. }
      rewrite E, IH; rewrite <- app_assoc; [reflexivity | exact N]. }
  now apply (G []).
Qed.

Lemma toggleFeature_NoDup features sel n :
  List.NoDup sel -> List.NoDup (toggleFeature features sel n).
Proof.
  intros N. unfold toggleFeature. destruct (includes sel n).
  - now apply List.NoDup_filter.
  - apply set_add_all_NoDup. constructor.
Qed.

(** X17: [toggleFeature] toggles. The feature named is in the selection
    afterwards exactly when it was not before; every other feature that is
    not one of its dependencies stays in or out as it was; a selection
    without repetitions stays so; and when a feature is switched on, the
    features already selected keep their order, the new ones following. *)
Theorem toggleFeature_toggles (features : list FeatureInfo) (sel : list string) (n : string) :
  (In n (toggleFeature features sel n) <-> ~ In n sel)
  /\ (forall x, x <> n -> ~ In x (deps_of features n) ->
        (In x (toggleFeature features sel n) <-> In x sel))
  /\ (List.NoDup sel ->
      List.NoDup (toggleFeature features sel n)
      /\ (~ In n sel -> exists added, toggleFeature features sel n = sel ++ added)).
Proof.
  destruct (includes sel n) eqn:E.
  - pose proof (proj1 (includes_In sel n) E) as Hin.
    rewrite toggleFeature_remove by assumption. split; [|split].
    + rewrite filter_neq_In. tauto.
    + intros x N _. rewrite filter_neq_In. tauto.
    + intros N. split; [now apply List.NoDup_filter | tauto].
  - assert (Hout : ~ In n sel).
    { intros H. apply includes_In in H. congruence. }
    pose proof (fun x => toggleFeature_select_In features sel n x E) as M.
    split; [|split].
    + rewrite M. tauto.
    + intros x N D. rewrite M. tauto.
    + intros N. split; [now apply toggleFeature_NoDup|]. intros _.
      unfold toggleFeature, spread_set. rewrite E, set_add_all_app.
      fold (spread_set sel). rewrite (spread_set_NoDup_id sel N).
      apply set_add_all_extends.
Qed.

Lemma toggleFeature_toggles_witness :
  List.NoDup ["timelock"; "signature-auth"]
  /\ ~ In "value-preservation" ["timelock"; "signature-auth"]
  /\ toggleFeature FALLBACK_FEATURES ["timelock"; "signature-auth"] "value-preservation"
     = ["timelock"; "signature-auth"; "value-preservation"; "datum-continuity"]
  /\ List.NoDup
       (toggleFeature FALLBACK_FEATURES ["timelock"; "signature-auth"] "value-preservation").
Proof.
  assert (N : List.NoDup ["timelock"; "signature-auth"]).
  { repeat constructor; cbn; intuition discriminate. }
  split; [exact N|]. split; [cbn; intuition discriminate|]. split; [reflexivity|].
  exact (proj1 (proj2 (proj2 (toggleFeature_toggles FALLBACK_FEATURES
                                ["timelock"; "signature-auth"] "value-preservation")) N)).
Defined.

Lemma click_NoDup features sel f :
  List.NoDup sel -> List.NoDup (click features sel f).
Proof.
  intros N. unfold click. destruct (checkbox_disabled features sel f); [assumption|].
  now apply toggleFeature_NoDup.
Qed.

Lemma click_names sel f :
  In f FALLBACK_FEATURES ->
  (forall x, In x sel -> In x (map name FALLBACK_FEATURES)) ->
  forall x, In x (click FALLBACK_FEATURES sel f) -> In x (map name FALLBACK_FEATURES).
Proof.
  intros Hf H x. unfold click.
  destruct (checkbox_disabled FALLBACK_FEATURES sel f); [apply H|].
  destruct (includes sel (name f)) eqn:E.
  - rewrite toggleFeature_remove by assumption. rewrite filter_neq_In. intros [Hx _].
    now apply H.
  - rewrite toggleFeature_select_In by assumption. intros [Hx|[->|Hx]].
    + now apply H.
    + now apply in_map.
    + apply deps_of_fallback in Hx. subst x. cbn. tauto.
Qed.

(** X18: every selection that clicks on the checkboxes can produce from the
    empty one, under the fallback catalogue, holds every dependency of its
    members, holds no feature twice and holds catalogue features only. *)
Theorem reachable_selection_invariant (sel : list string) :
  reachable FALLBACK_FEATURES sel ->
  closed FALLBACK_FEATURES sel
  /\ List.NoDup sel
  /\ (forall x, In x sel -> In x (map name FALLBACK_FEATURES)).
Proof.
  intros R. split; [now apply reachable_closed|].
  induction R as [|sel f R [N H] Hf].
  - split; [constructor | intros x []].
  - split; [now apply click_NoDup | now apply click_names].
Qed.

Lemma reachable_selection_invariant_witness :
  reachable FALLBACK_FEATURES
    (click FALLBACK_FEATURES (click FALLBACK_FEATURES [] Examples.value_preservation)
       Examples.timelock)
  /\ List.NoDup
       (click FALLBACK_FEATURES (click FALLBACK_FEATURES [] Examples.value_preservation)
          Examples.timelock).
Proof.
  assert (R : reachable FALLBACK_FEATURES
                (click FALLBACK_FEATURES
                   (click FALLBACK_FEATURES [] Examples.value_preservation)
                   Examples.timelock)).
  { apply reachable_click; [apply reachable_click; [constructor|]|]; cbn; tauto. }
  split; [exact R|].
  exact (proj1 (proj2 (reachable_selection_invariant _ R))).
Defined.

End ToggleFacts.

(** ** More on the file tree *)

Section TreeOrderFacts.
Import Wasm CustomConfig FileTree TreeOrder.

Lemma find_node_None name current :
  find_node name current = None -> ~ In name (map node_name current).
Proof.
  unfold find_node. intros F H. apply in_map_iff in H as (n & E & Hn).
  pose proof (find_none _ _ F n Hn) as X. cbn beta in X.
  rewrite E, String.eqb_refl in X. discriminate X.
Qed.

Lemma find_node_includes name current :
  includes (map node_name current) name
  = match find_node name current with Some _ => true | None => false end.
Proof.
  destruct (find_node name current) as [n|] eqn:F.
  - apply find_node_name in F as [Hn <-]. apply includes_In. now apply in_map.
  - apply find_node_None in F. destruct (includes _ name) eqn:E; [|reflexivity].
    apply includes_In in E. contradiction.
Qed.

(** The top-level names after one more file. *)
Lemma insert_parts_root_names p name rest acc current :
  map node_name (insert_parts p (name :: rest) acc current)
  = if includes (map node_name current) name
    then map node_name current else map node_name current ++ [name].
Proof.
  cbn [insert_parts]. rewrite find_node_includes.
  set (acc' := if negb (String.eqb acc "") then acc +:+ "/" +:+ name else name).
  destruct (step_into_cases name acc'
              (if match rest with [] => true | _ => false end then Some p else None)
              (insert_parts p rest acc') current)
    as [(before & n & after & -> & F & ->)|[F ->]]; rewrite F.
  - rewrite !map_app. reflexivity.
  - rewrite map_app. reflexivity.
Qed.

Lemma siblings_distinct_children n forest :
  In n forest -> siblings_distinct forest -> siblings_distinct (node_children n).
Proof.
  intros Hn [_ H]. split.
  - apply H. unfold all_nodes. apply in_flat_map. exists n. split; [assumption|].
    destruct n. now left.
  - intros m Hm. apply H. unfold all_nodes. apply in_flat_map. exists n.
    split; [assumption|]. destruct n as [x full q children]. right. exact Hm.
Qed.

Lemma insert_parts_siblings p parts : forall acc current,
  siblings_distinct current -> siblings_distinct (insert_parts p parts acc current).
Proof.
  induction parts as [|name rest IH]; intros acc current S; [assumption|].
  pose proof (insert_parts_root_names p name rest acc current) as Names.
  cbn [insert_parts] in *.
  set (acc' := if negb (String.eqb acc "") then acc +:+ "/" +:+ name else name) in *.
  destruct (step_into_cases name acc'
              (if match rest with [] => true | _ => false end then Some p else None)
              (insert_parts p rest acc') current)
    as [(before & n & after & -> & F & E)|[F E]]; rewrite E in *; clear E.
  - apply find_node_name in F as [_ Nn].
    assert (Hn : In n (before ++ n :: after)) by (apply in_app_iff; right; now left).
    pose proof (IH acc' _ (siblings_distinct_children _ _ Hn S)) as [C1 C2].
    destruct S as [S1 S2]. split.
    + rewrite !map_app in *. exact S1.
    + intros m Hm. rewrite all_nodes_app, all_nodes_cons in Hm.
      cbn [with_children node_children] in Hm.
      rewrite in_app_iff in Hm. cbn [In] in Hm. rewrite in_app_iff in Hm.
      destruct Hm as [Hm|[<-|[Hm|Hm]]].
      * apply S2. rewrite all_nodes_app. apply in_app_iff. now left.
      * exact C1.
      * now apply C2.
      * apply S2. rewrite all_nodes_app, all_nodes_cons. apply in_app_iff. right.
        right. apply in_app_iff. now right.
  - pose proof (IH acc' [] (conj (List.NoDup_nil _) (fun m (H : In m []) => match H with end)))
      as [C1 C2].
    destruct S as [S1 S2]. split.
    + rewrite Names. apply find_node_None in F.
      destruct (includes (map node_name current) name) eqn:I; [assumption|].
      apply List.NoDup_app; [assumption | repeat constructor; intros [] |].
      intros y Hy [<-|[]]. contradiction.
    + intros m Hm. rewrite all_nodes_app in Hm. apply in_app_iff in Hm as [Hm|Hm].
      * now apply S2.
      * cbn [all_nodes flat_map nodes_of] in Hm. rewrite app_nil_r in Hm.
        destruct Hm as [<-|Hm]; [exact C1 | now apply C2].
Qed.

Lemma split_on_hd p :
  Js.split_on "/" p = hd "" (Js.split_on "/" p) :: tl (Js.split_on "/" p).
Proof.
  pose proof (split_on_nonempty "/" p). now destruct (Js.split_on "/" p).
Qed.

Lemma buildTree_fold_order files : forall forest,
  siblings_distinct forest ->
  siblings_distinct (fold_left insert_file files forest)
  /\ map node_name (fold_left insert_file files forest)
     = set_add_all (map node_name forest) (map first_segment files).
Proof.
  induction files as [|f files IH]; intros forest S; cbn [fold_left map set_add_all].
  - now split.
  - assert (S' : siblings_distinct (insert_file forest f))
      by now apply insert_parts_siblings.
    destruct (IH _ S') as [A B]. split; [exact A|]. rewrite B. f_equal.
    unfold insert_file, first_segment. rewrite (split_on_hd (path f)) at 1.
    apply insert_parts_root_names.
Qed.

(** X19: whatever the files are, no two nodes of one [children] array of the
    tree share a name (so the names can serve as keys), and the top-level
    entries appear in the order in which their names first occur as the first
    segment of a path. *)
Theorem buildTree_siblings_and_order (files : list GeneratedFile) :
  siblings_distinct (buildTree files)
  /\ map node_name (buildTree files) = spread_set (map first_segment files).
Proof.
  apply (buildTree_fold_order files []).
  split; [constructor | intros m []].
Qed.

(** The [path] fields after one more file: the same, or one more. *)
Lemma insert_parts_paths_any p parts : forall acc current,
  Permutation (node_paths (insert_parts p parts acc current)) (node_paths current)
  \/ Permutation (node_paths (insert_parts p parts acc current)) (p :: node_paths current).
Proof.
  induction parts as [|name rest IH]; intros acc current; [now left|].
  cbn [insert_parts].
  set (acc' := if negb (String.eqb acc "") then acc +:+ "/" +:+ name else name).
  destruct (step_into_cases name acc'
              (if match rest with [] => true | _ => false end then Some p else None)
              (insert_parts p rest acc') current)
    as [(before & n & after & -> & F & ->)|[F ->]].
  - rewrite !node_paths_app, !node_paths_cons.
    cbn [node_children with_children].
    replace (path_list (with_children n (insert_parts p rest acc' (node_children n))))
      with (path_list n) by reflexivity.
    destruct (IH acc' (node_children n)) as [P|P]; rewrite P; [now left|right].
    cbn [app]. now rewrite <- !Permutation_middle.
  - rewrite node_paths_app, node_paths_cons.
    cbn [node_children]. change (node_paths []) with (@nil string). rewrite app_nil_r.
    destruct rest as [|r rs].
    + right. cbn. symmetry. apply Permutation_cons_append.
    + change (path_list (Node name acc' None (insert_parts p (r :: rs) acc' [])))
        with (@nil string).
      cbn [app]. destruct (IH acc' []) as [P|P]; rewrite P.
      * left. change (node_paths []) with (@nil string). now rewrite app_nil_r.
      * right. change (node_paths []) with (@nil string).
        symmetry. apply Permutation_cons_append.
Qed.

Lemma buildTree_fold_paths files : forall forest done,
  (exists dropped, Permutation done (node_paths forest ++ dropped)) ->
  exists dropped,
    Permutation (done ++ map path files)
      (node_paths (fold_left insert_file files forest) ++ dropped).
Proof.
  induction files as [|f files IH]; intros forest done [dropped P]; cbn [fold_left map].
  - exists dropped. now rewrite app_nil_r.
  - replace (done ++ path f :: map path files)
      with ((done ++ [path f]) ++ map path files) by now rewrite <- app_assoc.
    apply IH. unfold insert_file.
    destruct (insert_parts_paths_any (path f) (Js.split_on "/" (path f)) "" forest)
      as [Q|Q].
    + exists (dropped ++ [path f]). rewrite Q, P. now rewrite app_assoc.
    + exists dropped. rewrite Q, P. cbn [app].
      rewrite <- Permutation_cons_append. reflexivity.
Qed.

(** X20: whatever the files are, the tree invents no file and repeats none:
    the [path] fields of its nodes, together with the paths of the files that
    got no node, are the paths of the input, each as often as it was listed;
    in particular the tree has at most one file node per input file and every
    [path] it holds is the path of an input file. *)
Theorem buildTree_holds_input_paths_only (files : list GeneratedFile) :
  (exists dropped,
     Permutation (map path files) (node_paths (buildTree files) ++ dropped))
  /\ length (node_paths (buildTree files)) <= length files
  /\ (forall p, In p (node_paths (buildTree files)) -> In p (map path files)).
Proof.
  destruct (buildTree_fold_paths files [] []) as [dropped P].
  { exists []. reflexivity. }
  cbn [app] in P. fold (buildTree files) in P.
  split; [now exists dropped|]. split.
  - rewrite <- (length_map path files).
    rewrite (Permutation_length P), length_app. lia.
  - intros p Hp. apply (Permutation_in p (Permutation_sym P)).
    apply in_app_iff. now left.
Qed.

End TreeOrderFacts.

(** ** The modules of the fallback project *)

Section ModuleFacts.
Import Wasm AikenText.


End ModuleFacts.
